(** * synthBTC: the simulation engine and its persisted run history

    A shallow embedding of the JavaScript sources

      - [modules/utils.js]            (module [Utils])
      - [modules/csvHandler.js]       (module [CSVHandler])
      - [modules/priceFetcher.js]     (module [PriceFetcher])
      - [modules/monteCarloEngine.js] (module [MonteCarloEngine])
      - [synthBTC.js]                 (module [SynthBTC]; in this tree the
                                       file closes [research-script/README.md])
      - [modules/apiCore.js]          (modules [APICore] and [Routes])
      - [research-script/README.md]   (module [Research]: the pure helpers
                                       of the analysis script)

    The module [Format] holds the helpers of [modules/utils.js] that word
    sizes and times; [Engine] and [Store] hold what the properties speak
    of.

    Conventions of the embedding.

    - A JavaScript number that carries a price, a volatility or a random
      draw is a real number ([R]): IEEE rounding, overflow and signed
      zeros are not modelled.  Where the code produces [NaN] or
      [undefined] out of an empty array, the embedding has [None].  The
      module [Stats64] has the minimum, the maximum and the mean of the
      prices on the doubles themselves, for what depends on the
      rounding.
    - Counts, indices and identifiers, which the code only ever uses as
      integers, are in [Z].
    - [Math.random] is a supply of draws, threaded through the sampler as
      state; a supply that runs dry is the error [DrawsExhausted].
    - A text file is the list of its newline-terminated lines, and a line
      is kept as the tuple of values the code interpolates into it. *)

From Stdlib Require Import Reals Lra Lia ZArith String Ascii Bool List.
From Stdlib Require Import DecimalString DecimalN DecimalZ.
From Stdlib Require Import Permutation.
From Stdlib Require Floats Uint63.
Import ListNotations.

Local Open Scope Z_scope.

(** ** JavaScript values and results *)

(** What a [throw] carries.  [TypeError] is the engine's own error on
    [null[1]]; [DrawsExhausted] belongs to the model of [Math.random]. *)
Inductive exn : Type :=
| Error (message : string)
| TypeError
| DrawsExhausted.

Inductive outcome (A : Type) : Type :=
| Return (a : A)
| Throw (e : exn).
Arguments Return {A} a.
Arguments Throw {A} e.

(** [ToNumber] on a value that is a number or [null]. *)
Definition ToNumber (v : option R) : R :=
  match v with
  | Some x => x
  | None => 0%R
  end.

(** [Math.round]: the nearest integer, halves upwards. *)
Definition Math_round (x : R) : Z := Int_part (x + / 2)%R.

(** [Math.round] of a number or [NaN]. *)
Definition Math_round_nan (x : option R) : option Z := option_map Math_round x.

(** [Math.ceil(a / b)] for integers [a] and [b > 0]. *)
Definition Math_ceil_div (a b : Z) : Z := - ((- a) / b).

(** [l.slice(a, b)] for [0 <= a] and [0 <= b]. *)
Definition js_slice {A : Type} (l : list A) (a b : Z) : list A :=
  skipn (Z.to_nat a) (firstn (Z.to_nat b) l).

(** [l.map((x, index) => f(x, index))], the index starting at [start]. *)
Fixpoint js_mapi {A B : Type} (f : A -> Z -> B) (start : Z) (l : list A) : list B :=
  match l with
  | [] => []
  | x :: l' => f x start :: js_mapi f (start + 1) l'
  end.

(** ** Strings *)

Module Str.

Definition chars (s : string) : list ascii := list_ascii_of_string s.

Fixpoint starts_with (p l : list ascii) : bool :=
  match p, l with
  | [], _ => true
  | a :: p', b :: l' => Ascii.eqb a b && starts_with p' l'
  | _ :: _, [] => false
  end.

(** [s.startsWith(p)]. *)
Definition startsWith (s p : string) : bool := starts_with (chars p) (chars s).

(** [s.endsWith(p)]. *)
Definition endsWith (s p : string) : bool :=
  starts_with (rev (chars p)) (rev (chars s)).

Fixpoint strip (p l : list ascii) : option (list ascii) :=
  match p, l with
  | [], _ => Some l
  | a :: p', b :: l' => if Ascii.eqb a b then strip p' l' else None
  | _ :: _, [] => None
  end.

(** The class [\d]. *)
Definition is_digit (c : ascii) : bool :=
  (48 <=? nat_of_ascii c)%nat && (nat_of_ascii c <=? 57)%nat.

(** The longest run of digits at the head of [l], and what follows it. *)
Fixpoint span_digits (l : list ascii) : list ascii * list ascii :=
  match l with
  | [] => ([], [])
  | c :: l' =>
      if is_digit c
      then let (ds, rest) := span_digits l' in (c :: ds, rest)
      else ([], l)
  end.

(** [file.match(/_(\d+)\.csv$/)]: the capture group of the match, [None]
    for [null].  The pattern is anchored at the end of the name, so the
    name is read backwards: [.csv], then the digits, then [_]. *)
Definition match_index (file : string) : option string :=
  match strip (rev (chars ".csv")) (rev (chars file)) with
  | None => None
  | Some r =>
      match span_digits r with
      | (d :: ds, "_"%char :: _) => Some (string_of_list_ascii (rev (d :: ds)))
      | _ => None
      end
  end.

(** [parseInt(ds, 10)] on a string of decimal digits. *)
Definition parseInt_digits (ds : string) : Z :=
  match NilEmpty.uint_of_string ds with
  | Some d => Z.of_N (N.of_uint d)
  | None => 0
  end.

(** The interpolation [`${n}`] of an integer. *)
Definition of_Z (n : Z) : string := NilEmpty.string_of_int (Z.to_int n).

(** White space that [parseInt] skips, among the characters that a
    string of the embedding holds (those up to 255): the space, the
    characters from the tab to the carriage return, and the no-break
    space. *)
Definition is_space (c : ascii) : bool :=
  (nat_of_ascii c =? 32)%nat
  || ((9 <=? nat_of_ascii c)%nat && (nat_of_ascii c <=? 13)%nat)
  || (nat_of_ascii c =? 160)%nat.

Fixpoint skip_spaces (l : list ascii) : list ascii :=
  match l with
  | [] => []
  | c :: l' => if is_space c then skip_spaces l' else l
  end.

(** [parseInt(s, 10)]: white space, a sign, then the longest run of
    digits; [None] is [NaN]. *)
Definition parseInt (s : string) : option Z :=
  let l := skip_spaces (chars s) in
  let (negative, l) :=
    match l with
    | "-"%char :: l' => (true, l')
    | "+"%char :: l' => (false, l')
    | _ => (false, l)
    end in
  match fst (span_digits l) with
  | [] => None
  | ds =>
      let n := parseInt_digits (string_of_list_ascii ds) in
      Some (if negative then - n else n)
  end.

(** [s.split(sep)] for a separator of one character; [cur] holds the
    characters of the current piece, last first. *)
Fixpoint split_chars (sep : ascii) (l cur : list ascii) : list string :=
  match l with
  | [] => [string_of_list_ascii (rev cur)]
  | c :: l' =>
      if Ascii.eqb c sep then string_of_list_ascii (rev cur) :: split_chars sep l' []
      else split_chars sep l' (c :: cur)
  end.

Definition split (s : string) (sep : ascii) : list string := split_chars sep (chars s) [].

End Str.

(** ** Utils: the statistics of a run *)

Module Stats.
Local Open Scope R_scope.

(** [allPrices.reduce((min, p) => p < min ? p : min, allPrices[0])];
    [allPrices[0]] of an empty array is [undefined]. *)
Definition lowestPrice (allPrices : list R) : option R :=
  match allPrices with
  | [] => None
  | p0 :: _ =>
      Some (fold_left (fun min p => if Rlt_dec p min then p else min) allPrices p0)
  end.

(** [allPrices.reduce((max, p) => p > max ? p : max, allPrices[0])]. *)
Definition highestPrice (allPrices : list R) : option R :=
  match allPrices with
  | [] => None
  | p0 :: _ =>
      Some (fold_left (fun max p => if Rgt_dec p max then p else max) allPrices p0)
  end.

(** [prices.reduce((acc, p) => acc + p, 0)]. *)
Definition sumPrices (prices : list R) : R :=
  fold_left (fun acc p => acc + p) prices 0.

(** [allPrices.reduce((acc, p) => acc + p, 0) / allPrices.length];
    [0 / 0] is [NaN]. *)
Definition averagePrice (allPrices : list R) : option R :=
  match allPrices with
  | [] => None
  | _ => Some (sumPrices allPrices / INR (length allPrices))
  end.

(** [prices.reduce((acc, p) => acc + Math.pow(p - mean, 2), 0) / prices.length]
    for a non-empty array. *)
Definition variancePrices (mean : R) (prices : list R) : R :=
  fold_left (fun acc p => acc + (p - mean) ^ 2) prices 0 / INR (length prices).

(** The local [stdDev] of [Utils.calculateTargetPrice]. *)
Definition stdDevPrices (prices : list R) : R :=
  let mean := sumPrices prices / INR (length prices) in
  sqrt (variancePrices mean prices).

(** [Utils.calculateTargetPrice(prices)]: mean plus one standard
    deviation; [NaN] on the empty array. *)
Definition calculateTargetPrice (prices : list R) : option R :=
  match prices with
  | [] => None
  | _ =>
      let mean := sumPrices prices / INR (length prices) in
      let variance := variancePrices mean prices in
      let stdDev := sqrt variance in
      Some (mean + stdDev)
  end.

(** *** The statistics as the specification words them *)

Fixpoint total (l : list R) : R :=
  match l with
  | [] => 0
  | x :: l' => x + total l'
  end.

Definition arithmetic_mean (l : list R) : R := total l / INR (length l).

Definition population_std_dev (l : list R) : R :=
  sqrt (total (map (fun p => (p - arithmetic_mean l) ^ 2) l) / INR (length l)).

Definition is_minimum (m : R) (l : list R) : Prop :=
  In m l /\ forall p, In p l -> m <= p.

Definition is_maximum (m : R) (l : list R) : Prop :=
  In m l /\ forall p, In p l -> p <= m.

End Stats.

(** ** The statistics on doubles *)

(** The numbers of the code are IEEE binary64 doubles.  The minimum,
    the maximum, the sum and the mean of the aggregator are given here
    on the doubles themselves, operation for operation, so that what the
    rounding of the sum and of the division does can be stated. *)
Module Stats64.

Abbreviation float := PrimFloat.float (only parsing).

(** An integer from 0 to 2^63 - 1 as a double. *)
Definition of_Z (n : Z) : float := PrimFloat.of_uint63 (Uint63.of_Z n).

(** [allPrices.length]. *)
Definition lengthOf (allPrices : list float) : float := of_Z (Z.of_nat (length allPrices)).

(** [allPrices.reduce((min, p) => p < min ? p : min, allPrices[0])]. *)
Definition lowestPrice (allPrices : list float) : option float :=
  match allPrices with
  | [] => None
  | p0 :: _ =>
      Some (fold_left (fun min p => if PrimFloat.ltb p min then p else min) allPrices p0)
  end.

(** [allPrices.reduce((max, p) => p > max ? p : max, allPrices[0])]. *)
Definition highestPrice (allPrices : list float) : option float :=
  match allPrices with
  | [] => None
  | p0 :: _ =>
      Some (fold_left (fun max p => if PrimFloat.ltb max p then p else max) allPrices p0)
  end.

(** [prices.reduce((acc, p) => acc + p, 0)]. *)
Definition sumPrices (prices : list float) : float :=
  fold_left PrimFloat.add prices PrimFloat.zero.

(** [allPrices.reduce((acc, p) => acc + p, 0) / allPrices.length];
    [0 / 0] is [NaN]. *)
Definition averagePrice (allPrices : list float) : float :=
  PrimFloat.div (sumPrices allPrices) (lengthOf allPrices).

(** [prices.reduce((acc, p) => acc + Math.pow(p - mean, 2), 0) / prices.length].
    The language leaves [Math.pow] to the implementation, but for its
    special values, such as [Math.pow(0, 2) = 0]: the square is a
    parameter, [pow2 d] for [Math.pow(d, 2)]. *)
Definition variancePrices (pow2 : float -> float) (mean : float) (prices : list float) : float :=
  PrimFloat.div
    (fold_left (fun acc p => PrimFloat.add acc (pow2 (PrimFloat.sub p mean)))
               prices PrimFloat.zero)
    (lengthOf prices).

(** The local [stdDev] of [Utils.calculateTargetPrice]. *)
Definition stdDevPrices (pow2 : float -> float) (prices : list float) : float :=
  let mean := PrimFloat.div (sumPrices prices) (lengthOf prices) in
  PrimFloat.sqrt (variancePrices pow2 mean prices).

(** [Utils.calculateTargetPrice(prices)]: mean plus one standard
    deviation. *)
Definition calculateTargetPrice (pow2 : float -> float) (prices : list float) : float :=
  let mean := PrimFloat.div (sumPrices prices) (lengthOf prices) in
  let variance := variancePrices pow2 mean prices in
  let stdDev := PrimFloat.sqrt variance in
  PrimFloat.add mean stdDev.


(** The real number that a finite double stands for ([0] for an
    infinity and for [NaN]). *)
Definition value (x : float) : R :=
  match FloatOps.Prim2SF x with
  | SpecFloat.S754_finite s m e =>
      ((if s then - IZR (Z.pos m) else IZR (Z.pos m)) * powerRZ 2 e)%R
  | _ => 0%R
  end.


(** The number [m * 2 ^ e] in units of [2 ^ -1074], the least exponent
    of a double. *)
Definition units (m e : Z) : Z := m * 2 ^ (e + 1074).



End Stats64.

(** ** Persisted data *)

(** A formatted percentage: the sign prefix the code chooses and the value
    [change.toFixed(2)] in hundredths; [Infinity] and [NaN] print as such. *)
Inductive Pct : Type :=
| PctNumber (prefix : string) (hundredths : Z)
| PctInfinity (prefix : string) (negative : bool)
| PctNaN.

(** One row of [core.csv], in the order of its columns.  The prices are
    the rounded ones ([None] where the code prints [NaN]); the processing
    time is kept in milliseconds, before [Utils.defineProcessingTime]
    words it. *)
Record RunSummary : Type := mkRunSummary {
  simulation_id : Z;
  timestamp : Z;
  current_price : Z;
  highest_price : option Z;
  target_price : option Z;
  average_price : option Z;
  lowest_price : option Z;
  simulated_data : Z;
  total_simulated : Z;
  processing_time : Z;
  data_source : string
}.

Inductive Line : Type :=
| HeaderLine (text : string)
| PriceRow (row_id : Z) (price : Z) (percentage_change : Pct)
| LogEntry (entry : RunSummary).

(** A text is a list of lines; a directory maps file names to texts.
    The embedding keeps the files in the order of their creation, while
    the file system lists them by name: what is said of a listing is
    said up to its order. *)
Abbreviation text := (list Line) (only parsing).
Abbreviation directory := (list (string * list Line)) (only parsing).

Module Fs.

Definition readdirSync (d : directory) : list string := map fst d.

Fixpoint readFileSync (d : directory) (name : string) : option text :=
  match d with
  | [] => None
  | (n, c) :: d' => if String.eqb n name then Some c else readFileSync d' name
  end.

Definition existsSync (d : directory) (name : string) : bool :=
  match readFileSync d name with
  | Some _ => true
  | None => false
  end.

(** [fs.writeFileSync(path, data)]: create or truncate. *)
Fixpoint writeFileSync (d : directory) (name : string) (data : text) : directory :=
  match d with
  | [] => [(name, data)]
  | (n, c) :: d' =>
      if String.eqb n name then (n, data) :: d'
      else (n, c) :: writeFileSync d' name data
  end.

(** [fs.writeFileSync(path, data, { flag: "a" })]: create or append. *)
Fixpoint appendFileSync (d : directory) (name : string) (data : text) : directory :=
  match d with
  | [] => [(name, data)]
  | (n, c) :: d' =>
      if String.eqb n name then (n, c ++ data) :: d'
      else (n, c) :: appendFileSync d' name data
  end.

End Fs.

(** ** modules/utils.js *)

Module Utils.

(** [change.toFixed(2)], in hundredths: the nearest hundredth of the
    absolute value, halves upwards, with the sign put back. *)
Definition toFixed2 (x : R) : Z :=
  if Rlt_dec x 0 then - Math_round (- x * 100)%R else Math_round (x * 100)%R.

(** [Utils.calculateChangePercentage(simulatedPrice, currentPrice)];
    the first argument may be [NaN], the second [null]. *)
Definition calculateChangePercentage (simulatedPrice : option R) (currentPrice : option R) : Pct :=
  match simulatedPrice with
  | None => PctNaN
  | Some s =>
      let c := ToNumber currentPrice in
      if Req_dec_T c 0 then
        if Req_dec_T s 0 then PctNaN
        else if Rlt_dec s 0 then PctInfinity EmptyString true
        else PctInfinity "+" false
      else
        let change := ((s - c) / c * 100)%R in
        PctNumber (if Rge_dec change 0 then "+" else EmptyString) (toFixed2 change)
  end.

(** [files.filter(file => file.startsWith(prefix + "_") && file.endsWith(".csv"))]. *)
Definition indexedFiles (files : list string) (prefix : string) : list string :=
  filter (fun file => Str.startsWith file (prefix ++ "_") && Str.endsWith file ".csv") files.

(** [parseInt(file.match(/_(\d+)\.csv$/)[1], 10)]; indexing [null] throws. *)
Definition fileIndexOf (file : string) : outcome Z :=
  match Str.match_index file with
  | Some ds => Return (Str.parseInt_digits ds)
  | None => Throw TypeError
  end.

(** [files.map(fileIndexOf)], stopping at the first throw. *)
Fixpoint fileIndices (files : list string) : outcome (list Z) :=
  match files with
  | [] => Return []
  | f :: files' =>
      match fileIndexOf f with
      | Throw e => Throw e
      | Return i =>
          match fileIndices files' with
          | Throw e => Throw e
          | Return rest => Return (i :: rest)
          end
      end
  end.

(** [Math.max(...indices)] of a non-empty array, given as head and tail. *)
Definition Math_max (i : Z) (indices : list Z) : Z := fold_left Z.max indices i.

(** [Utils.getLastFileIndex(dir, prefix)], on the listing of [dir]. *)
Definition getLastFileIndex (files : list string) (prefix : string) : outcome Z :=
  let csvFiles := indexedFiles files prefix in
  match csvFiles with
  | [] => Return 0
  | _ =>
      match fileIndices csvFiles with
      | Throw e => Throw e
      | Return [] => Return 0 (* not reached: one index per file *)
      | Return (i :: indices) => Return (Math_max i indices + 1)
      end
  end.

(** [Utils.determineNextFileIndex(dir, prefix)], on the listing of [dir]. *)
Definition determineNextFileIndex (files : list string) (prefix : string) : outcome Z :=
  let existingFiles := indexedFiles files prefix in
  match fileIndices existingFiles with
  | Throw e => Throw e
  | Return [] => Return 1
  | Return (i :: existingIndices) => Return (Math_max i existingIndices + 1)
  end.

End Utils.

(** ** modules/csvHandler.js *)

Module CSVHandler.

(** [writeCSV(filePath, header, data)]. *)
Definition writeCSV (d : directory) (name : string) (header data : text) : directory :=
  Fs.appendFileSync (Fs.writeFileSync d name header) name data.

(** [appendCSV(filePath, data)]. *)
Definition appendCSV (d : directory) (name : string) (data : text) : directory :=
  Fs.appendFileSync d name data.

(** [readCSV(filePath)]; [None] is [null]. *)
Definition readCSV (d : directory) (name : string) : option text :=
  if Fs.existsSync d name then Fs.readFileSync d name else None.

(** [getCSVFiles(directory, prefix)]. *)
Definition getCSVFiles (d : directory) (prefix : string) : list string :=
  filter (fun file => Str.startsWith file prefix && Str.endsWith file ".csv")
         (Fs.readdirSync d).

(** [data.split("\n")]: every line of the text, then the empty string
    after the last newline ([None]). *)
Definition split_lines (data : text) : list (option Line) :=
  map Some data ++ [None].

(** [readCoreSimulations(coreFilePath, coreFileName)]: the records are
    the lines after the header line.  ([data.trim()] removes the last
    newline, so no empty string follows the last line.) *)
Definition readCoreSimulations (d : directory) (coreFileName : string) : outcome (list Line) :=
  if negb (Fs.existsSync d coreFileName) then Throw (Error "Core log file does not exist.")
  else
    match Fs.readFileSync d coreFileName with
    | None => Throw TypeError
    | Some data => Return (tl data)
    end.

(** The callback of [csvFiles.reduce] in [calculateSimulatedData];
    reading [split] on [null] throws. *)
Definition addFile (d : directory) (acc : outcome Z) (file : string) : outcome Z :=
  match acc with
  | Throw e => Throw e
  | Return acc =>
      match readCSV d file with
      | None => Throw TypeError
      | Some data =>
          let lines := tl (split_lines data) in
          Return (acc + Z.of_nat (length lines) - 1)
      end
  end.

(** [calculateSimulatedData(directory, prefix)]. *)
Definition calculateSimulatedData (d : directory) (prefix : string) : outcome Z :=
  fold_left (addFile d) (getCSVFiles d prefix) (Return 0).

End CSVHandler.

(** ** modules/priceFetcher.js *)

Module PriceFetcher.

(** The character [\x1b], which opens a colour code. *)
Definition escape : string := String "027"%char EmptyString.

(** The message of the error of [getCurrentPrice], colour codes and
    prefix included. *)
Definition failureMessage : string :=
  (escape ++ "[0m- " ++ escape ++ "[31mWARNING" ++ escape ++ "[0m | " ++ escape
   ++ "[37mFailed to fetch BTC price from both sources." ++ escape ++ "[0m")%string.

(** [getCurrentPrice()], given what the two fetches returned ([None] is
    [null]). *)
Definition getCurrentPrice (priceCoinGecko priceEtherscan : option R) : outcome R :=
  match priceCoinGecko, priceEtherscan with
  | Some g, Some e => Return ((g + e) / 2)%R
  | Some g, None => Return g
  | None, Some e => Return e
  | None, None => Throw (Error failureMessage)
  end.

End PriceFetcher.

(** ** modules/monteCarloEngine.js *)

Module MonteCarloEngine.

(** [validateInputs({ currentPrice, totalSimulations, decimalVolatility,
    simulationDays })]; [null <= 0] holds, as [null] converts to [0]. *)
Definition validateInputs (currentPrice : option R) (totalSimulations : Z)
    (decimalVolatility : R) (simulationDays : Z) : outcome unit :=
  if Rle_dec (ToNumber currentPrice) 0 then Throw (Error "Current price must be greater than 0")
  else if totalSimulations <=? 0 then Throw (Error "Simulations must be greater than 0")
  else if Rle_dec decimalVolatility 0 then Throw (Error "Volatility must be greater than 0")
  else if simulationDays <=? 0 then Throw (Error "Days must be greater than 0")
  else Return tt.

(** [let u = 0; while (u === 0) u = Math.random();] on the supply of
    draws: the first draw that is not [0], and the supply after it. *)
Fixpoint reroll (supply : list R) : outcome (R * list R) :=
  match supply with
  | [] => Throw DrawsExhausted
  | d :: supply' => if Req_dec_T d 0 then reroll supply' else Return (d, supply')
  end.

(** The Box-Muller transform of two draws. *)
Definition boxMuller (u v : R) : R := (sqrt (-2 * ln u) * cos (2 * PI * v))%R.

(** [gaussianRandom()]. *)
Definition gaussianRandom (supply : list R) : outcome (R * list R) :=
  match reroll supply with
  | Throw e => Throw e
  | Return (u, supply1) =>
      match reroll supply1 with
      | Throw e => Throw e
      | Return (v, supply2) => Return (boxMuller u v, supply2)
      end
  end.

(** [Math.exp(decimalVolatility * z / Math.sqrt(simulationDays))]. *)
Definition dailyChange (decimalVolatility : R) (simulationDays : Z) (z : R) : R :=
  exp (decimalVolatility * z / sqrt (IZR simulationDays))%R.

(** The loop [for (let i = 0; i < simulationDays; i++) price *= dailyChange],
    with [n] turns left. *)
Fixpoint dailyLoop (n : nat) (price decimalVolatility : R) (simulationDays : Z)
    (supply : list R) : outcome (R * list R) :=
  match n with
  | O => Return (price, supply)
  | S n' =>
      match gaussianRandom supply with
      | Throw e => Throw e
      | Return (z, supply') =>
          dailyLoop n' (price * dailyChange decimalVolatility simulationDays z)%R
                    decimalVolatility simulationDays supply'
      end
  end.

(** One simulated terminal price: the callback of [Array.from]. *)
Definition simulatePrice (currentPrice decimalVolatility : R) (simulationDays : Z)
    (supply : list R) : outcome (R * list R) :=
  dailyLoop (Z.to_nat simulationDays) currentPrice decimalVolatility simulationDays supply.

(** [Array.from({ length }, () => ...)]: the function Turbit runs over
    the data; one price for each slot, in the order of the slots. *)
Fixpoint worker (slots : nat) (currentPrice decimalVolatility : R) (simulationDays : Z)
    (supply : list R) : outcome (list R * list R) :=
  match slots with
  | O => Return ([], supply)
  | S slots' =>
      match simulatePrice currentPrice decimalVolatility simulationDays supply with
      | Throw e => Throw e
      | Return (price, supply1) =>
          match worker slots' currentPrice decimalVolatility simulationDays supply1 with
          | Throw e => Throw e
          | Return (prices, supply2) => Return (price :: prices, supply2)
          end
      end
  end.

(** [simulatePrices(currentPrice, totalSimulations, decimalVolatility,
    simulationDays, turbitPower)].  Turbit is an external library: its
    [run] is taken to return, for [data] of length [n], the [n] results
    of the function in the order of [data], whatever the power. *)
Definition simulatePrices (currentPrice : option R) (totalSimulations : Z)
    (decimalVolatility : R) (simulationDays turbitPower : Z)
    (supply : list R) : outcome (list R * list R) :=
  match validateInputs currentPrice totalSimulations decimalVolatility simulationDays with
  | Throw e => Throw e
  | Return _ =>
      worker (Z.to_nat totalSimulations) (ToNumber currentPrice)
             decimalVolatility simulationDays supply
  end.

Definition desiredBatchSize : Z := 5000.

(** The size of batch [i]: the [batchSize] of the loop body. *)
Definition batchSize (totalSimulations batchCount i : Z) : Z :=
  if i =? batchCount - 1 then totalSimulations - i * desiredBatchSize
  else desiredBatchSize.

(** The loop of [executeFullSimulation] from batch [i] on, with [n] turns
    left. *)
Fixpoint batchLoop (n : nat) (i batchCount : Z) (currentPrice : option R)
    (totalSimulations : Z) (decimalVolatility : R) (simulationDays turbitPower : Z)
    (allPrices : list R) (supply : list R) : outcome (list R * list R) :=
  match n with
  | O => Return (allPrices, supply)
  | S n' =>
      match simulatePrices currentPrice (batchSize totalSimulations batchCount i)
                           decimalVolatility simulationDays turbitPower supply with
      | Throw e => Throw e
      | Return (batchPrices, supply') =>
          batchLoop n' (i + 1) batchCount currentPrice totalSimulations
                    decimalVolatility simulationDays turbitPower
                    (allPrices ++ batchPrices) supply'
      end
  end.

(** [executeFullSimulation({ currentPrice, totalSimulations,
    decimalVolatility, simulationDays, turbitPower })]. *)
Definition executeFullSimulation (currentPrice : option R) (totalSimulations : Z)
    (decimalVolatility : R) (simulationDays turbitPower : Z)
    (supply : list R) : outcome (list R * list R) :=
  let batchCount := Math_ceil_div totalSimulations desiredBatchSize in
  batchLoop (Z.to_nat batchCount) 0 batchCount currentPrice totalSimulations
            decimalVolatility simulationDays turbitPower [] supply.

End MonteCarloEngine.

(** ** synthBTC.js *)

Module SynthBTC.

(** [simulationConfig], as read from [config.json]. *)
Record Config : Type := mkConfig {
  totalSimulations : Z;
  volatilityPercentage : R;
  simulationDays : Z;
  turbitPower : Z
}.

(** What one run reads from outside the engine: what the two price
    fetches return, the draws of [Math.random], and [Date.now()] before
    the simulation, after it, and when the log entry is written. *)
Record Env : Type := mkEnv {
  fetchCoinGecko : option R;
  fetchEtherscan : option R;
  randomDraws : list R;
  clockStart : Z;
  clockEnd : Z;
  clockLog : Z
}.

Record PriceView : Type := mkPriceView {
  view_price : option Z;
  view_changePercentage : Pct
}.

Record Overview : Type := mkOverview {
  current : Z;
  highest : PriceView;
  target : PriceView;
  average : PriceView;
  lowest : PriceView
}.

(** The [details] of an output; [executionTime], [currentYear] and
    [dataSize], which only read the clock and the sizes of the files, are
    left out. *)
Record Details : Type := mkDetails {
  details_simulatedData : Z;
  details_processingTime : Z;
  details_totalSimulations : Z;
  details_totalSimulationDays : Z;
  details_dataSource : string
}.

Record Output : Type := mkOutput {
  status : string;
  overview : Overview;
  details : Details
}.

(** The static properties of the class, and the two directories it
    writes: [private] (with [core.csv]) and [private/data]. *)
Record State : Type := mkState {
  lastKnownPrice : option R;
  connectionLost : bool;
  fileIndex : Z;
  simulatedData : Z;
  simulationCounter : Z;
  simulationStatus : string;
  latestOutput : option Output;
  privateDir : directory;
  dataPrivateDir : directory
}.

Definition coreFileName : string := "core.csv".
Definition outputFileSources : string := "source_simulation".

Definition set_price (p : option R) (lost : bool) (st : State) : State :=
  mkState p lost (fileIndex st) (simulatedData st) (simulationCounter st)
          (simulationStatus st) (latestOutput st) (privateDir st) (dataPrivateDir st).

Definition set_fileIndex (i : Z) (st : State) : State :=
  mkState (lastKnownPrice st) (connectionLost st) i (simulatedData st)
          (simulationCounter st) (simulationStatus st) (latestOutput st)
          (privateDir st) (dataPrivateDir st).

Definition set_counters (data counter : Z) (st : State) : State :=
  mkState (lastKnownPrice st) (connectionLost st) (fileIndex st) data counter
          (simulationStatus st) (latestOutput st) (privateDir st) (dataPrivateDir st).

Definition set_status (s : string) (st : State) : State :=
  mkState (lastKnownPrice st) (connectionLost st) (fileIndex st) (simulatedData st)
          (simulationCounter st) s (latestOutput st) (privateDir st) (dataPrivateDir st).

Definition set_latestOutput (o : option Output) (st : State) : State :=
  mkState (lastKnownPrice st) (connectionLost st) (fileIndex st) (simulatedData st)
          (simulationCounter st) (simulationStatus st) o (privateDir st)
          (dataPrivateDir st).

Definition set_dirs (priv data : directory) (st : State) : State :=
  mkState (lastKnownPrice st) (connectionLost st) (fileIndex st) (simulatedData st)
          (simulationCounter st) (simulationStatus st) (latestOutput st) priv data.

(** [currentPriceBTC()]: a failed fetch is caught, and the last known
    price is returned. *)
Definition currentPriceBTC (env : Env) (st : State) : option R * State :=
  match PriceFetcher.getCurrentPrice (fetchCoinGecko env) (fetchEtherscan env) with
  | Return p => (Some p, set_price (Some p) false st)
  | Throw _ => (lastKnownPrice st, set_price (lastKnownPrice st) true st)
  end.

(** [getUpdatedOverview(currentPrice, highestPrice, targetPrice,
    averagePrice, lowestPrice)]. *)
Definition getUpdatedOverview (currentPrice : option R)
    (highestPrice targetPrice averagePrice lowestPrice : option R) : Overview :=
  let view p :=
    mkPriceView (Math_round_nan p) (Utils.calculateChangePercentage p currentPrice) in
  mkOverview (Math_round (ToNumber currentPrice))
             (view highestPrice) (view targetPrice) (view averagePrice) (view lowestPrice).

(** The rows of one chunk: [slicedPrices.forEach((price, index) => ...)]. *)
Definition chunkRows (slicedPrices : list R) (currentPrice : option R) : text :=
  js_mapi (fun price index =>
             PriceRow (index + 1) (Math_round price)
                      (Utils.calculateChangePercentage (Some price) currentPrice))
          0 slicedPrices.

(** The loop that appends the chunks to the raw-output file, from chunk
    [i] on, with [n] turns left. *)
Fixpoint writeChunks (n : nat) (i : Z) (allPrices : list R) (currentPrice : option R)
    (d : directory) (file : string) : directory :=
  match n with
  | O => d
  | S n' =>
      let slicedPrices := js_slice allPrices (i * 5000) ((i + 1) * 5000) in
      let csvContent := chunkRows slicedPrices currentPrice in
      writeChunks n' (i + 1) allPrices currentPrice
                  (CSVHandler.appendCSV d file csvContent) file
  end.

Definition csvHeader : text := [HeaderLine "simulation_id,price,percentage_change"].

Definition logHeader : text :=
  [HeaderLine "simulation_id,timestamp,current_price,highest_price,target_price,average_price,lowest_price,simulated_data,total_simulated,processing_time,data_source"].

(** The name [`${this.outputFileSources}_${this.fileIndex}.csv`]. *)
Definition rawFileName (index : Z) : string :=
  (outputFileSources ++ "_" ++ Str.of_Z index ++ ".csv")%string.

(** The second half of [generateSimulations], from the assignment of
    [this.fileIndex] on: the raw-output file, the log entry, the status
    and the returned object.  [st] is the state with the counters already
    advanced. *)
Definition persistRun (cfg : Config) (env : Env) (currentPrice : option R)
    (allPrices : list R) (highestPrice targetPrice averagePrice lowestPrice : option R)
    (index : Z) (st : State) : Output * State :=
  let processingTime := clockEnd env - clockStart env in
  let st := set_fileIndex index st in
  let file := rawFileName (fileIndex st) in
  let data := CSVHandler.writeCSV (dataPrivateDir st) file csvHeader [] in
  let data :=
    writeChunks (Z.to_nat (Math_ceil_div (totalSimulations cfg) 5000)) 0
                allPrices currentPrice data file in
  let logEntry :=
    [LogEntry
       (mkRunSummary (simulationCounter st) (clockLog env)
          (Math_round (ToNumber currentPrice))
          (Math_round_nan highestPrice) (Math_round_nan targetPrice)
          (Math_round_nan averagePrice) (Math_round_nan lowestPrice)
          (totalSimulations cfg) (simulatedData st) processingTime file)] in
  let priv :=
    if negb (Fs.existsSync (privateDir st) coreFileName)
    then CSVHandler.writeCSV (privateDir st) coreFileName logHeader logEntry
    else CSVHandler.appendCSV (privateDir st) coreFileName logEntry in
  let st := set_dirs priv data st in
  let st := set_status "OK" st in
  (mkOutput (simulationStatus st)
     (getUpdatedOverview currentPrice highestPrice targetPrice averagePrice lowestPrice)
     (mkDetails (simulatedData st) processingTime (simulationCounter st)
                (simulationDays cfg) file),
   st).

(** [generateSimulations({ totalSimulations, volatilityPercentage,
    simulationDays, turbitPower })]: the result, and the state the call
    leaves behind, also when it throws. *)
Definition generateSimulations (cfg : Config) (env : Env) (st : State) : outcome Output * State :=
  let st := set_status "PROCESSING" st in
  let (currentPrice, st) := currentPriceBTC env st in
  let decimalVolatility := (volatilityPercentage cfg / 100)%R in
  match MonteCarloEngine.executeFullSimulation currentPrice (totalSimulations cfg)
          decimalVolatility (simulationDays cfg) (turbitPower cfg) (randomDraws env) with
  | Throw e => (Throw e, st)
  | Return (allPrices, _) =>
      let lowestPrice := Stats.lowestPrice allPrices in
      let highestPrice := Stats.highestPrice allPrices in
      let averagePrice := Stats.averagePrice allPrices in
      let targetPrice := Stats.calculateTargetPrice allPrices in
      let st := set_counters (simulatedData st + totalSimulations cfg)
                             (simulationCounter st + 1) st in
      match Utils.determineNextFileIndex (Fs.readdirSync (dataPrivateDir st))
                                         outputFileSources with
      | Throw e => (Throw e, st)
      | Return index =>
          let (output, st) :=
            persistRun cfg env currentPrice allPrices highestPrice targetPrice
                       averagePrice lowestPrice index st in
          (Return output, st)
      end
  end.

(** [getSimulationData(simulationConfig)]: one run; the output is cached
    only when the run returns. *)
Definition getSimulationData (cfg : Config) (env : Env) (st : State) : outcome Output * State :=
  match generateSimulations cfg env st with
  | (Return output, st') => (Return output, set_latestOutput (Some output) st')
  | (Throw e, st') => (Throw e, st')
  end.

(** [init(Config)] in a fresh process: the static properties at their
    initial values, then the counters read back from [private/data]. *)
Definition init (priv data : directory) : outcome State :=
  match Utils.getLastFileIndex (Fs.readdirSync data) outputFileSources with
  | Throw e => Throw e
  | Return index =>
      match CSVHandler.calculateSimulatedData data outputFileSources with
      | Throw e => Throw e
      | Return simulated =>
          Return (mkState None false index simulated
                    (Z.of_nat (length (CSVHandler.getCSVFiles data outputFileSources)))
                    "OK" None priv data)
      end
  end.

End SynthBTC.

(** ** modules/apiCore.js *)

Module APICore.

(** One entry of the answer of the by-ids query: a record, or the object
    [{ error: `Simulation ${id} not available` }]; the id [None] is
    [NaN]. *)
Inductive entry (A : Type) : Type :=
| Found (record : A)
| NotAvailable (id : option Z).
Arguments Found {A} record.
Arguments NotAvailable {A} id.

(** The callback of [ids.map] in [getSimulationsByIds]. *)
Definition selectById {A : Type} (simulations : list A) (id : option Z) : entry A :=
  match id with
  | None => NotAvailable None
  | Some i =>
      if (0 <? i) && (i <=? Z.of_nat (length simulations)) then
        match nth_error simulations (Z.to_nat (i - 1)) with
        | Some record => Found record
        | None => NotAvailable id (* not reached: [i - 1] is in range *)
        end
      else NotAvailable id
  end.

Inductive response : Type :=
| Json (results : list (entry Line))
| Status500 (error : exn).

(** [req.params.ids.split(",").map(id => parseInt(id, 10))]. *)
Definition requestedIds (params_ids : string) : list (option Z) :=
  map Str.parseInt (Str.split params_ids ","%char).

(** [getSimulationsByIds(req, res)]: what is sent for [req.params.ids]. *)
Definition getSimulationsByIds (st : SynthBTC.State) (params_ids : string) : response :=
  match CSVHandler.readCoreSimulations (SynthBTC.privateDir st) SynthBTC.coreFileName with
  | Throw e => Status500 e
  | Return simulations => Json (map (selectById simulations) (requestedIds params_ids))
  end.

End APICore.

(** ** The engine over time, and what the properties speak of *)

Module Engine.
Import SynthBTC.

(** The engine starts on empty directories; from then on a process
    serves runs (whether they return or throw) until it is stopped and a
    new process is initialised on the directories it left.  The runs ask
    for a count that is not negative. *)
Inductive reachable : State -> Prop :=
| reach_boot st :
    init [] [] = Return st -> reachable st
| reach_run cfg env st r st' :
    reachable st ->
    0 <= totalSimulations cfg ->
    getSimulationData cfg env st = (r, st') ->
    reachable st'
| reach_restart st st' :
    reachable st ->
    init (privateDir st) (dataPrivateDir st) = Return st' ->
    reachable st'.

(** The price a run works with, and the state once it has been asked
    for: the first two statements of [generateSimulations]. *)
Definition pricedState (env : Env) (st : State) : option R * State :=
  currentPriceBTC env (set_status "PROCESSING" st).

(** The output and the state of a run whose simulation returned
    [allPrices] and whose raw-output file got the index [index]. *)
Definition completedRun (cfg : Config) (env : Env) (st : State)
    (allPrices : list R) (index : Z) : Output * State :=
  let (currentPrice, st) := pricedState env st in
  persistRun cfg env currentPrice allPrices
             (Stats.highestPrice allPrices) (Stats.calculateTargetPrice allPrices)
             (Stats.averagePrice allPrices) (Stats.lowestPrice allPrices) index
             (set_counters (simulatedData st + totalSimulations cfg)
                           (simulationCounter st + 1) st).

(** Every file of the directory is a raw-output file of some index. *)
Definition wellNamed (d : directory) : Prop :=
  forall name, In name (Fs.readdirSync d) -> exists k, 0 <= k /\ name = rawFileName k.

(** The id and the cumulative count of the last entry of a log, [(0, 0)]
    for the empty log. *)
Definition endOf (log : list RunSummary) : Z * Z :=
  fold_left (fun _ e => (simulation_id e, total_simulated e)) log (0, 0).

(** The rows of a text that are log entries. *)
Fixpoint entries (t : text) : list RunSummary :=
  match t with
  | [] => []
  | LogEntry e :: t' => e :: entries t'
  | _ :: t' => entries t'
  end.

(** The run log of a state: the entries of [core.csv]. *)
Definition runLog (st : State) : list RunSummary :=
  match Fs.readFileSync (privateDir st) coreFileName with
  | Some t => entries t
  | None => []
  end.

(** Every entry has the id after the one before it, and the cumulative
    count of the one before it plus its own count; [id] and [cumulative]
    are those before the first entry. *)
Fixpoint consecutive (id cumulative : Z) (log : list RunSummary) : Prop :=
  match log with
  | [] => True
  | e :: log' =>
      simulation_id e = id + 1 /\
      total_simulated e = cumulative + simulated_data e /\
      consecutive (simulation_id e) (total_simulated e) log'
  end.

(** What ties the counters of a state to what is persisted: the log is
    consecutive and ends at the counters, and the counters are those that
    [init] would read back from [private/data]. *)
Definition consistent (st : State) : Prop :=
  consecutive 0 0 (runLog st) /\
  endOf (runLog st) = (simulationCounter st, simulatedData st) /\
  wellNamed (dataPrivateDir st) /\
  Z.of_nat (length (CSVHandler.getCSVFiles (dataPrivateDir st) outputFileSources))
  = simulationCounter st /\
  CSVHandler.calculateSimulatedData (dataPrivateDir st) outputFileSources
  = Return (simulatedData st).

(** The rows of a text that are price rows, as their position fields. *)
Fixpoint rowIds (t : text) : list Z :=
  match t with
  | [] => []
  | PriceRow id _ _ :: t' => id :: rowIds t'
  | _ :: t' => rowIds t'
  end.

(** The draws of a supply that are not [0], in order. *)
Fixpoint nonzero (supply : list R) : list R :=
  match supply with
  | [] => []
  | d :: supply' => if Req_dec_T d 0 then nonzero supply' else d :: nonzero supply'
  end.

(** The Box-Muller transform of two uniform draws, as the specification
    has it: a standard-normal variate. *)
Definition standard_normal (u v : R) : R := (sqrt (-2 * ln u) * cos (2 * PI * v))%R.

(** Consecutive pairs of draws, each through the Box-Muller transform. *)
Fixpoint gaussians (draws : list R) : list R :=
  match draws with
  | u :: v :: draws' => standard_normal u v :: gaussians draws'
  | _ => []
  end.

(** The product of the daily shocks of the variates [zs]. *)
Fixpoint shocks (volatility : R) (days : Z) (zs : list R) : R :=
  match zs with
  | [] => 1%R
  | z :: zs' => (exp (volatility * z / sqrt (IZR days)) * shocks volatility days zs')%R
  end.

(** The sizes of the batches [0 .. batchCount - 1], in order. *)
Definition batchSizes (totalSimulations : Z) : list Z :=
  let batchCount := Math_ceil_div totalSimulations 5000 in
  map (fun i => MonteCarloEngine.batchSize totalSimulations batchCount (Z.of_nat i))
      (seq 0 (Z.to_nat batchCount)).

(** The text that the chunk loop appends to the raw-output file, from
    chunk [i] on, with [n] turns left. *)
Fixpoint chunksText (n : nat) (i : Z) (allPrices : list R) (currentPrice : option R) : text :=
  match n with
  | O => []
  | S n' =>
      chunkRows (js_slice allPrices (i * 5000) ((i + 1) * 5000)) currentPrice
      ++ chunksText n' (i + 1) allPrices currentPrice
  end.

(** The number of prices that batches of the given sizes produce. *)
Fixpoint slotsOf (sizes : list Z) : nat :=
  match sizes with
  | [] => O
  | size :: sizes' => (Z.to_nat size + slotsOf sizes')%nat
  end.

(** The batches run one after the other on the supply: the prices of
    each batch, in the order of the batches. *)
Fixpoint runBatches (sizes : list Z) (currentPrice : option R) (decimalVolatility : R)
    (simulationDays turbitPower : Z) (supply : list R) : outcome (list (list R) * list R) :=
  match sizes with
  | [] => Return ([], supply)
  | size :: sizes' =>
      match MonteCarloEngine.simulatePrices currentPrice size decimalVolatility
                                            simulationDays turbitPower supply with
      | Throw e => Throw e
      | Return (batchPrices, supply1) =>
          match runBatches sizes' currentPrice decimalVolatility simulationDays
                           turbitPower supply1 with
          | Throw e => Throw e
          | Return (batches, supply2) => Return (batchPrices :: batches, supply2)
          end
      end
  end.

(** What a client writes in the path for one entry of a by-ids query:
    an id in decimal, or a word that is no number. *)
Inductive asked : Type :=
| AskedId (id : Z)
| AskedWord (word : string).

Definition written (a : asked) : string :=
  match a with
  | AskedId id => Str.of_Z id
  | AskedWord word => word
  end.

(** The id that the entry asks for; a word asks for none. *)
Definition askedId (a : asked) : option Z :=
  match a with
  | AskedId id => Some id
  | AskedWord _ => None
  end.

Definition is_letter (c : ascii) : bool :=
  ((65 <=? nat_of_ascii c)%nat && (nat_of_ascii c <=? 90)%nat)
  || ((97 <=? nat_of_ascii c)%nat && (nat_of_ascii c <=? 122)%nat).

(** A word that is no number: it is empty or begins with a letter, and
    it holds no comma. *)
Definition is_word (word : string) : bool :=
  match Str.chars word with
  | [] => true
  | c :: l => is_letter c && forallb (fun a => negb (Ascii.eqb a ",")) l
  end.

(** An entry that the code reads as it is written: an id that a double
    holds exactly, or a word. *)
Definition legible (a : asked) : bool :=
  match a with
  | AskedId id => (- 2 ^ 53 <=? id) && (id <=? 2 ^ 53)
  | AskedWord word => is_word word
  end.

(** The path parameter of a request: the entries as written, separated
    by commas. *)
Fixpoint path (request : list asked) : string :=
  match request with
  | [] => EmptyString
  | [a] => written a
  | a :: request' => (written a ++ "," ++ path request')%string
  end.

End Engine.

(** ** Concrete runs *)

Module Scenario.
Import SynthBTC.

(** The state of a process started on empty directories. *)
Definition boot : State := mkState None false 0 0 0 "OK" None [] [].

(** A request for [count] simulations at 20 percent over one day. *)
Definition request (count : Z) : Config := mkConfig count 20 1 4.

(** Both feeds answer 50000, and [draws] draws of one half are at hand. *)
Definition feedsUp (draws : nat) : Env :=
  mkEnv (Some 50000%R) (Some 50000%R) (repeat (/ 2)%R draws) 1000 1250 1300.

(** Both feeds fail. *)
Definition feedsDown (draws : nat) : Env :=
  mkEnv None None (repeat (/ 2)%R draws) 2000 2250 2300.

(** The state after a first request that was rejected once the price
    50000 had been fetched. *)
Definition priced : State := mkState (Some 50000%R) false 0 0 0 "PROCESSING" None [] [].

(** The state after a first run of one simulation with the feeds up. *)
Definition afterFirstRun : State := snd (getSimulationData (request 1) (feedsUp 2) boot).

(** The state after a second run, of three simulations, during which
    both feeds fail. *)
Definition afterSecondRun : State :=
  snd (getSimulationData (request 3) (feedsDown 6) afterFirstRun).

(** The state of a new process started on what the second run left. *)
Definition restarted : State :=
  match init (privateDir afterSecondRun) (dataPrivateDir afterSecondRun) with
  | Return st => st
  | Throw _ => afterSecondRun
  end.

(** The state after a run of two simulations in the new process. *)
Definition afterThirdRun : State :=
  snd (getSimulationData (request 2) (feedsUp 4) restarted).

End Scenario.

(** ** More of modules/utils.js: sizes and times as they are shown *)

Module Format.

(** [Math.floor]. *)
Definition Math_floor (x : R) : Z := Int_part x.

(** The integer part of a number, towards zero. *)
Definition truncate (x : R) : Z :=
  if Rle_dec 0 x then Int_part x else - Int_part (- x).

(** [x % y]: what is left of [x] once [y] is taken off a whole number of
    times; it has the sign of [x]. *)
Definition js_rem (x y : R) : R := (x - y * IZR (truncate (x / y)))%R.

(** [s.padStart(2, "0")]. *)
Definition padStart2 (s : string) : string :=
  match String.length s with
  | O => "00"
  | S O => String "0" s
  | _ => s
  end.

(** The local [pad] of [defineExecutionTime]. *)
Definition pad (num : Z) : string := padStart2 (Str.of_Z num).

(** The [days], [hours], [minutes] and [seconds] of
    [defineExecutionTime], for [elapsed] milliseconds. *)
Definition elapsedParts (elapsed : Z) : Z * Z * Z * Z :=
  let seconds := Math_floor (js_rem (IZR elapsed / 1000) 60) in
  let minutes := Math_floor (js_rem (IZR elapsed / (1000 * 60)) 60) in
  let hours := Math_floor (js_rem (IZR elapsed / (1000 * 60 * 60)) 24) in
  let days := Math_floor (IZR elapsed / (1000 * 60 * 60 * 24)) in
  (days, hours, minutes, seconds).

(** [Utils.defineExecutionTime(startTime)], [now] being [Date.now()]. *)
Definition defineExecutionTime (now startTime : Z) : string :=
  let elapsed := now - startTime in
  let '(days, hours, minutes, seconds) := elapsedParts elapsed in
  (pad days ++ ":" ++ pad hours ++ ":" ++ pad minutes ++ ":" ++ pad seconds)%string.

Definition units : list string := ["Bytes"; "KB"; "MB"; "GB"; "TB"]%string.

(** [1 << n] for [0 <= n]: a shift of 32-bit integers, the count taken
    modulo 32 and the bit 31 being the sign. *)
Definition shiftLeft1 (n : Z) : Z :=
  let count := n mod 32 in
  if count =? 31 then - 2 ^ 31 else 2 ^ count.

(** The text of the size: [bytes ? (...).toFixed(2) : "0"], the fixed
    number in hundredths. *)
Inductive sizeText : Type :=
| SizeZero
| SizeFixed2 (hundredths : Z).

(** [Utils.defineDataSize(bytes)], for a size [0 <= bytes]: the number
    and the unit of the text returned ([None] where it prints
    [undefined]).  [Math.floor(Math.log2(bytes) / 10)] of an integer
    [bytes >= 1] is [Z.log2 bytes / 10]. *)
Definition defineDataSize (bytes : Z) : sizeText * option string :=
  let exponent := if bytes =? 0 then 0 else Z.log2 bytes / 10 in
  let size :=
    if bytes =? 0 then SizeZero
    else SizeFixed2 (Utils.toFixed2 (IZR bytes / IZR (shiftLeft1 (exponent * 10)))) in
  (size, nth_error units (Z.to_nat exponent)).

(** [`${prefix}_${index}.csv`], the name that [fileIndexOf] reads back. *)
Definition fileNameOf (prefix : string) (index : Z) : string :=
  (prefix ++ "_" ++ Str.of_Z index ++ ".csv")%string.

End Format.

(** ** More of modules/apiCore.js *)

Module Routes.
Import SynthBTC.

Inductive listing : Type :=
| Simulations (records : list Line)
| ListingError (error : exn).

(** [getSimulations(req, res)]: what is sent. *)
Definition getSimulations (st : State) : listing :=
  match CSVHandler.readCoreSimulations (privateDir st) coreFileName with
  | Throw e => ListingError e
  | Return simulations => Simulations simulations
  end.

Inductive overviewResponse : Type :=
| OverviewJson (body : Output) (executionTime : string)
| OverviewError (error : exn).

(** The cached object after [latestOutput.status = synthBTC.simulationStatus]. *)
Definition restamp (st : State) (output : Output) : Output :=
  mkOutput (simulationStatus st) (overview output) (details output).

(** The last three statements of the [try] block of [getOverview]: the
    cached object is written in place and sent. *)
Definition serve (now serverStartTime : Z) (st : State) (output : Output)
    : overviewResponse * State :=
  let output := restamp st output in
  (OverviewJson output (Format.defineExecutionTime now serverStartTime),
   set_latestOutput (Some output) st).

(** [getOverview(req, res)] for the stored [simulationConfig]: what is
    sent, and the state afterwards. *)
Definition getOverview (cfg : Config) (env : Env) (now serverStartTime : Z) (st : State)
    : overviewResponse * State :=
  match latestOutput st with
  | Some output => serve now serverStartTime st output
  | None =>
      match getSimulationData cfg env st with
      | (Return output, st') => serve now serverStartTime st' output
      | (Throw e, st') => (OverviewError e, st')
      end
  end.

End Routes.

(** ** What the store holds after the runs *)

Module Store.
Import SynthBTC Engine.

(** The price and the percentage of the rows of a text that are price
    rows. *)
Fixpoint rowCells (t : text) : list (Z * Pct) :=
  match t with
  | [] => []
  | PriceRow _ price change :: t' => (price, change) :: rowCells t'
  | _ :: t' => rowCells t'
  end.

(** [core.csv], when it exists, is the header followed by the entries of
    the log, of which there is one at least. *)
Definition shapedLog (st : State) : Prop :=
  match Fs.readFileSync (privateDir st) coreFileName with
  | None => True
  | Some t => runLog st <> [] /\ t = logHeader ++ map LogEntry (runLog st)
  end.

(** The raw-output files are those that the entries of the log name, in
    the order of the log; the file of an entry is named after its id and
    holds the header and one price row for each simulation of the run. *)
Definition filed (st : State) : Prop :=
  Fs.readdirSync (dataPrivateDir st) = map data_source (runLog st) /\
  forall e, In e (runLog st) ->
    data_source e = rawFileName (simulation_id e) /\
    exists rows,
      Fs.readFileSync (dataPrivateDir st) (data_source e) = Some (csvHeader ++ rows) /\
      length (rowIds rows) = length rows /\
      Z.of_nat (length rows) = simulated_data e.

(** The sum, over the files of a directory that [getCSVFiles] keeps, of
    their number of lines less one. *)
Fixpoint linesLessOne (d : directory) (prefix : string) : Z :=
  match d with
  | [] => 0
  | (name, data) :: d' =>
      if Str.startsWith name prefix && Str.endsWith name ".csv"
      then Z.of_nat (length data) - 1 + linesLessOne d' prefix
      else linesLessOne d' prefix
  end.

End Store.

(** ** research-script: the pure helpers of [bitcoinAnalysis.analyze] *)

Module Research.

(** A score as the helpers receive it: [null], [NaN] or a number. *)
Inductive score : Type :=
| ScoreNull
| ScoreNaN
| ScoreNumber (value : R).

(** [getSentimentType(score)]; a comparison with [NaN] is false. *)
Definition getSentimentType (s : score) : string :=
  match s with
  | ScoreNull => "Not Available"
  | ScoreNaN => "Extreme Fear"
  | ScoreNumber v =>
      if Rge_dec v 75 then "Extreme Greed"
      else if Rge_dec v 60 then "Greed"
      else if Rgt_dec v 40 then "Neutral"
      else if Rgt_dec v 25 then "Fear"
      else "Extreme Fear"
  end.

(** [getMarketSentiment(score)]. *)
Definition getMarketSentiment (s : score) : string :=
  match s with
  | ScoreNull => "Not Available"
  | ScoreNaN => "Extreme Greed"
  | ScoreNumber v =>
      if Rle_dec v 25 then "Extreme Fear"
      else if Rle_dec v 40 then "Fear"
      else if Rle_dec v 60 then "Neutral"
      else if Rle_dec v 75 then "Greed"
      else "Extreme Greed"
  end.

(** The score that [fetchNewsSentiment] returns once the articles are
    fetched, from the score of each article: the mean, moved to the
    scale from 0 to 100, rounded and clamped.  Without any article the
    mean is [0 / 0], and [NaN] goes through [Math.round], [Math.min] and
    [Math.max]. *)
Definition newsSentiment (articleScores : list Z) : score :=
  match articleScores with
  | [] => ScoreNaN
  | _ =>
      let totalScore := fold_left Z.add articleScores 0 in
      let averageScore := (IZR totalScore / INR (length articleScores))%R in
      let normalizedScore := Math_round ((averageScore + 5) / 10 * 100)%R in
      ScoreNumber (IZR (Z.max 0 (Z.min 100 normalizedScore)))
  end.

(** The [mood] of [getCombinedMarketMood(sentimentScore,
    fearAndGreedData)], from the value of the index ([None] when the
    data is [null]): the word for the index alone when there is no news
    score, and for the mean of the two otherwise. *)
Definition getCombinedMarketMood (sentimentScore : score) (fearAndGreedValue : option R)
    : string :=
  match fearAndGreedValue with
  | None => "Not Available"
  | Some fngScore =>
      let combinedScore :=
        match sentimentScore with
        | ScoreNull => ScoreNumber fngScore
        | ScoreNaN => ScoreNaN
        | ScoreNumber s => ScoreNumber ((fngScore + s) / 2)%R
        end in
      getMarketSentiment combinedScore
  end.

(** What [calculateRSI] returns: [null], [undefined], [NaN] or a number. *)
Inductive rsi : Type :=
| RsiNull
| RsiUndefined
| RsiNaN
| RsiNumber (value : R).

(** An index: [NaN], or a number from 0 to 100. *)
Definition within_range (r : rsi) : Prop :=
  match r with
  | RsiNaN => True
  | RsiNumber v => (0 <= v <= 100)%R
  | _ => False
  end.

(** [changes]: the differences of consecutive close prices. *)
Fixpoint changesOf (closePrices : list R) : list R :=
  match closePrices with
  | previous :: (current :: _) as rest => (current - previous)%R :: changesOf rest
  | _ => []
  end.

Definition gainOf (change : R) : R := if Rgt_dec change 0 then change else 0%R.
Definition lossOf (change : R) : R := if Rlt_dec change 0 then (- change)%R else 0%R.

(** [100 - (100 / (1 + avgGain / avgLoss))] for averages that are not
    negative: [x / 0] is [Infinity] for [x > 0], and [0 / 0] is [NaN]. *)
Definition rsiOf (avgGain avgLoss : R) : rsi :=
  if Req_dec_T avgLoss 0 then
    if Req_dec_T avgGain 0 then RsiNaN else RsiNumber 100
  else RsiNumber (100 - 100 / (1 + avgGain / avgLoss))%R.

(** The loop over the changes from position [period] on; [last] is the
    last element of [rsiValues] so far. *)
Fixpoint smoothed (period avgGain avgLoss : R) (changes : list R) (last : rsi) : rsi :=
  match changes with
  | [] => last
  | change :: changes' =>
      let avgGain := ((avgGain * (period - 1) + gainOf change) / period)%R in
      let avgLoss := ((avgLoss * (period - 1) + lossOf change) / period)%R in
      smoothed period avgGain avgLoss changes' (rsiOf avgGain avgLoss)
  end.

(** [calculateRSI(closePrices, period)] for a period of one or more. *)
Definition calculateRSI (closePrices : list R) (period : nat) : rsi :=
  if (length closePrices <? period + 1)%nat then RsiNull
  else
    let changes := changesOf closePrices in
    let gains := map gainOf changes in
    let losses := map lossOf changes in
    let avgGain := (fold_left Rplus (firstn period gains) 0 / INR period)%R in
    let avgLoss := (fold_left Rplus (firstn period losses) 0 / INR period)%R in
    smoothed (INR period) avgGain avgLoss (skipn period changes) RsiUndefined.

(** The three prices of [projectPriceForYears(initialPrice, avgReturn,
    stdDev, years)], for a whole number of years: optimistic,
    pessimistic, average. *)
Definition projectPriceForYears (initialPrice avgReturn stdDev : R) (years : nat)
    : Z * Z * Z :=
  let annualReturn := ((1 + avgReturn) ^ 365 - 1)%R in
  let annualStdDev := (stdDev * sqrt 365)%R in
  let optimisticReturn := (annualReturn + annualStdDev)%R in
  let pessimisticReturn := Rmax (annualReturn - annualStdDev) (- (99 / 100)) in
  let optimisticPrice := (initialPrice * (1 + optimisticReturn) ^ years)%R in
  let pessimisticPrice := (initialPrice * (1 + pessimisticReturn) ^ years)%R in
  let averagePrice := (initialPrice * (1 + annualReturn) ^ years)%R in
  (Math_round optimisticPrice, Math_round pessimisticPrice, Math_round averagePrice).

End Research.

(** * Properties *)

(** ** The statistics *)

Section StatsFacts.
Import Stats.
Local Open Scope R_scope.

Lemma fold_sum_total (l : list R) (a : R) :
  fold_left (fun acc p => acc + p) l a = a + total l.
Proof.
  revert a. induction l as [|x l IH]; intros a; simpl.
  - lra.
  - rewrite IH. lra.
Qed.

Lemma sumPrices_total (l : list R) : sumPrices l = total l.
Proof. unfold sumPrices. rewrite fold_sum_total. lra. Qed.

Lemma fold_squares_total (m : R) (l : list R) (a : R) :
  fold_left (fun acc p => acc + (p - m) ^ 2) l a
  = a + total (map (fun p => (p - m) ^ 2) l).
Proof.
  revert a. induction l as [|x l IH]; intros a; cbn [fold_left map total].
  - lra.
  - rewrite IH. lra.
Qed.

Lemma fold_min_spec (l : list R) (a : R) :
  let m := fold_left (fun min p => if Rlt_dec p min then p else min) l a in
  (m = a \/ In m l) /\ m <= a /\ (forall p, In p l -> m <= p).
Proof.
  revert a. induction l as [|x l IH]; intros a; simpl.
  - split; [now left|]. split; [lra|]. intros p [].
  - destruct (Rlt_dec x a) as [Hlt|Hge].
    + destruct (IH x) as [Hin [Hle Hall]]. split; [|split].
      * destruct Hin as [->|Hin]; right; [now left | now right].
      * lra.
      * intros p [<-|Hp]; [exact Hle | now apply Hall].
    + destruct (IH a) as [Hin [Hle Hall]]. split; [|split].
      * destruct Hin as [->|Hin]; [now left | right; now right].
      * exact Hle.
      * intros p [<-|Hp]; [lra | now apply Hall].
Qed.

Lemma fold_max_spec (l : list R) (a : R) :
  let m := fold_left (fun max p => if Rgt_dec p max then p else max) l a in
  (m = a \/ In m l) /\ a <= m /\ (forall p, In p l -> p <= m).
Proof.
  revert a. induction l as [|x l IH]; intros a; simpl.
  - split; [now left|]. split; [lra|]. intros p [].
  - destruct (Rgt_dec x a) as [Hgt|Hle].
    + destruct (IH x) as [Hin [Hge Hall]]. split; [|split].
      * destruct Hin as [->|Hin]; right; [now left | now right].
      * unfold Rgt in Hgt. lra.
      * intros p [<-|Hp]; [exact Hge | now apply Hall].
    + destruct (IH a) as [Hin [Hge Hall]]. split; [|split].
      * destruct Hin as [->|Hin]; [now left | right; now right].
      * exact Hge.
      * intros p [<-|Hp]; [unfold Rgt in Hle; lra | now apply Hall].
Qed.

Lemma lowestPrice_minimum (p0 : R) (l : list R) :
  exists lo, lowestPrice (p0 :: l) = Some lo /\ is_minimum lo (p0 :: l).
Proof.
  eexists. split; [reflexivity|].
  destruct (fold_min_spec (p0 :: l) p0) as [Hin [_ Hall]].
  split; [|exact Hall].
  destruct Hin as [->|Hin]; [now left | exact Hin].
Qed.

Lemma highestPrice_maximum (p0 : R) (l : list R) :
  exists hi, highestPrice (p0 :: l) = Some hi /\ is_maximum hi (p0 :: l).
Proof.
  eexists. split; [reflexivity|].
  destruct (fold_max_spec (p0 :: l) p0) as [Hin [_ Hall]].
  split; [|exact Hall].
  destruct Hin as [->|Hin]; [now left | exact Hin].
Qed.





Lemma averagePrice_mean (p0 : R) (l : list R) :
  averagePrice (p0 :: l) = Some (arithmetic_mean (p0 :: l)).
Proof. unfold averagePrice, arithmetic_mean. now rewrite sumPrices_total. Qed.

Lemma stdDevPrices_population (l : list R) :
  stdDevPrices l = population_std_dev l.
Proof.
  unfold stdDevPrices, population_std_dev, variancePrices, arithmetic_mean.
  rewrite sumPrices_total, fold_squares_total. now rewrite Rplus_0_l.
Qed.

Lemma calculateTargetPrice_stdDev (p0 : R) (l : list R) :
  calculateTargetPrice (p0 :: l)
  = Some (arithmetic_mean (p0 :: l) + stdDevPrices (p0 :: l)).
Proof.
  unfold calculateTargetPrice, stdDevPrices, arithmetic_mean.
  now rewrite sumPrices_total.
Qed.

Lemma stdDevPrices_single (p : R) : stdDevPrices [p] = 0.
Proof.
  unfold stdDevPrices, variancePrices, sumPrices. simpl.
  replace ((0 + (p - (0 + p) / 1) * ((p - (0 + p) / 1) * 1)) / 1) with 0 by (field).
  apply sqrt_0.
Qed.

(** C5. For a non-empty array of terminal prices, the lowest price is the
    minimum of the array, the highest its maximum, the average its
    arithmetic mean, and the target that mean plus one population
    standard deviation. *)
Theorem aggregator_computes_statistics (prices : list R) :
  prices <> [] ->
  exists lo hi,
    lowestPrice prices = Some lo /\ is_minimum lo prices /\
    highestPrice prices = Some hi /\ is_maximum hi prices /\
    averagePrice prices = Some (arithmetic_mean prices) /\
    calculateTargetPrice prices
    = Some (arithmetic_mean prices + population_std_dev prices).
Proof.
  destruct prices as [|p0 l]; [congruence|]. intros _.
  destruct (lowestPrice_minimum p0 l) as [lo [Hlo Hmin]].
  destruct (highestPrice_maximum p0 l) as [hi [Hhi Hmax]].
  exists lo, hi. repeat split; try assumption; try apply Hmin; try apply Hmax.
  - apply averagePrice_mean.
  - rewrite calculateTargetPrice_stdDev. now rewrite stdDevPrices_population.
Qed.

(** C5 on the prices 1 and 3. *)
Lemma aggregator_computes_statistics_witness :
  exists lo hi,
    lowestPrice [1; 3] = Some lo /\ is_minimum lo [1; 3] /\
    highestPrice [1; 3] = Some hi /\ is_maximum hi [1; 3] /\
    averagePrice [1; 3] = Some (arithmetic_mean [1; 3]) /\
    calculateTargetPrice [1; 3]
    = Some (arithmetic_mean [1; 3] + population_std_dev [1; 3]).
Proof. apply (aggregator_computes_statistics [1; 3]). discriminate. Defined.

End StatsFacts.

(** ** The by-ids query *)

Section QueryFacts.
Import APICore.

Lemma selectById_in_range {A : Type} (simulations : list A) (i : Z) :
  1 <= i <= Z.of_nat (length simulations) ->
  exists record,
    nth_error simulations (Z.to_nat (i - 1)) = Some record /\
    selectById simulations (Some i) = Found record.
Proof.
  intros [Hlo Hhi]. unfold selectById.
  replace (0 <? i) with true by (symmetry; apply Z.ltb_lt; lia).
  replace (i <=? Z.of_nat (length simulations)) with true
    by (symmetry; apply Z.leb_le; lia).
  cbn [andb].
  destruct (nth_error simulations (Z.to_nat (i - 1))) as [record|] eqn:Hnth.
  - now exists record.
  - apply nth_error_None in Hnth. lia.
Qed.

Lemma selectById_out_of_range {A : Type} (simulations : list A) (i : Z) :
  i < 1 \/ Z.of_nat (length simulations) < i ->
  selectById simulations (Some i) = NotAvailable (Some i).
Proof.
  intros H. unfold selectById.
  destruct (0 <? i) eqn:H0; [|reflexivity].
  destruct (i <=? Z.of_nat (length simulations)) eqn:H1; [|reflexivity].
  apply Z.ltb_lt in H0. apply Z.leb_le in H1. lia.
Qed.

Lemma readCoreSimulations_stored (d : directory) (name : string) (data : text) :
  Fs.readFileSync d name = Some data ->
  CSVHandler.readCoreSimulations d name = Return (tl data).
Proof.
  intros H. unfold CSVHandler.readCoreSimulations, Fs.existsSync. now rewrite H.
Qed.

(** The answer on a stored ledger, entry by entry of the parsed ids. *)
Lemma getSimulationsByIds_entries (st : SynthBTC.State) (data : text) (params_ids : string) :
  Fs.readFileSync (SynthBTC.privateDir st) SynthBTC.coreFileName = Some data ->
  let rows := tl data in
  let ids := requestedIds params_ids in
  exists results,
    getSimulationsByIds st params_ids = Json results /\
    length results = length ids /\
    forall k id, nth_error ids k = Some id ->
      match id with
      | Some i =>
          if (1 <=? i) && (i <=? Z.of_nat (length rows))
          then exists row, nth_error rows (Z.to_nat (i - 1)) = Some row /\
                           nth_error results k = Some (Found row)
          else nth_error results k = Some (NotAvailable id)
      | None => nth_error results k = Some (NotAvailable id)
      end.
Proof.
  intros Hdata rows ids.
  exists (map (selectById rows) ids). split; [|split].
  - unfold getSimulationsByIds.
    now rewrite (readCoreSimulations_stored _ _ _ Hdata).
  - apply length_map.
  - intros k id Hk. rewrite nth_error_map, Hk. cbn [option_map].
    destruct id as [i|]; [|reflexivity].
    destruct (1 <=? i) eqn:H1; destruct (i <=? Z.of_nat (length rows)) eqn:H2;
      cbn [andb];
      try (apply Z.leb_le in H1); try (apply Z.leb_le in H2);
      try (apply Z.leb_gt in H1); try (apply Z.leb_gt in H2).
    + destruct (selectById_in_range rows i (conj H1 H2)) as [row [Hrow Hsel]].
      exists row. now rewrite Hsel.
    + now rewrite selectById_out_of_range by lia.
    + now rewrite selectById_out_of_range by lia.
    + now rewrite selectById_out_of_range by lia.
Qed.

End QueryFacts.

(** ** The file index helpers *)

Section FileIndexFacts.
Import Utils.

Lemma Math_max_spec (indices : list Z) (i : Z) :
  let m := Math_max i indices in
  In m (i :: indices) /\ forall j, In j (i :: indices) -> j <= m.
Proof.
  unfold Math_max. revert i. induction indices as [|x l IH]; intros i.
  - cbn. split; [now left|]. intros j [<-|[]]. lia.
  - cbn [fold_left]. destruct (IH (Z.max i x)) as [Hin Hall]. split.
    + destruct Hin as [Heq|Hin].
      * rewrite <- Heq. destruct (Z.max_spec i x) as [[_ ->]|[_ ->]];
          [right; now left | now left].
      * right; now right.
    + intros j [<-|[<-|Hj]].
      * specialize (Hall (Z.max i x) (or_introl eq_refl)). lia.
      * specialize (Hall (Z.max i x) (or_introl eq_refl)). lia.
      * apply Hall. now right.
Qed.

Lemma fileIndices_length (files : list string) (indices : list Z) :
  fileIndices files = Return indices -> length indices = length files.
Proof.
  revert indices. induction files as [|f files IH]; intros indices; cbn.
  - intros [= <-]. reflexivity.
  - destruct (fileIndexOf f); [|discriminate].
    destruct (fileIndices files) as [rest|]; [|discriminate].
    intros [= <-]. cbn. now rewrite (IH rest).
Qed.

(** C10, as amended. When some file of the directory matches the prefix,
    [getLastFileIndex] and [determineNextFileIndex] give the same result:
    the highest numeric suffix plus one (or both throw, on a matching
    name without numeric suffix).  When no file matches, the first
    returns 0 and the second returns 1. *)
Theorem index_helpers_agree_when_a_file_matches (files : list string) (prefix : string) :
  match indexedFiles files prefix with
  | [] =>
      getLastFileIndex files prefix = Return 0 /\
      determineNextFileIndex files prefix = Return 1
  | _ :: _ =>
      getLastFileIndex files prefix = determineNextFileIndex files prefix /\
      forall indices, fileIndices (indexedFiles files prefix) = Return indices ->
        exists m, In m indices /\ (forall j, In j indices -> j <= m) /\
                  determineNextFileIndex files prefix = Return (m + 1)
  end.
Proof.
  unfold getLastFileIndex, determineNextFileIndex.
  destruct (indexedFiles files prefix) as [|f matching] eqn:Hfiles.
  - split; reflexivity.
  - destruct (fileIndices (f :: matching)) as [indices|e] eqn:Hind.
    + pose proof (fileIndices_length _ _ Hind) as Hlen.
      destruct indices as [|i indices]; [discriminate|]. split; [reflexivity|].
      intros indices' [= <-]. exists (Math_max i indices).
      destruct (Math_max_spec indices i) as [Hin Hall]. now repeat split.
    + split; [reflexivity|]. intros indices [=].
Qed.

(** C10, the claim as stated fails: on a directory with no matching file
    the two helpers return different indices. *)
Lemma index_helpers_differ_on_empty_directory :
  getLastFileIndex [] "source_simulation" = Return 0 /\
  determineNextFileIndex [] "source_simulation" = Return 1 /\
  getLastFileIndex [] "source_simulation"
  <> determineNextFileIndex [] "source_simulation".
Proof. repeat split. cbv. discriminate. Qed.

Example determineNextFileIndex_example :
  determineNextFileIndex
    ["source_simulation_3.csv"; "notes.txt"; "source_simulation_12.csv"]%string
    "source_simulation" = Return 13.
Proof. vm_compute. reflexivity. Qed.

Example getLastFileIndex_example :
  getLastFileIndex
    ["source_simulation_3.csv"; "notes.txt"; "source_simulation_12.csv"]%string
    "source_simulation" = Return 13.
Proof. vm_compute. reflexivity. Qed.

Example determineNextFileIndex_throws :
  determineNextFileIndex ["source_simulation_old.csv"%string] "source_simulation"
  = Throw TypeError.
Proof. vm_compute. reflexivity. Qed.

End FileIndexFacts.

(** ** The sampler *)

Section SamplerFacts.
Import MonteCarloEngine Engine.

Lemma reroll_nonzero (supply : list R) (d : R) (draws : list R) :
  nonzero supply = d :: draws ->
  exists rest, reroll supply = Return (d, rest) /\ nonzero rest = draws.
Proof.
  induction supply as [|x supply IH]; cbn; [discriminate|].
  destruct (Req_dec_T x 0) as [_|_].
  - exact IH.
  - intros [= -> <-]. now exists supply.
Qed.

Lemma reroll_exhausted (supply : list R) :
  nonzero supply = [] -> reroll supply = Throw DrawsExhausted.
Proof.
  induction supply as [|x supply IH]; cbn; [reflexivity|].
  destruct (Req_dec_T x 0); [exact IH | discriminate].
Qed.

Lemma nonzero_not_zero (supply : list R) (d : R) :
  In d (nonzero supply) -> d <> 0%R /\ In d supply.
Proof.
  induction supply as [|x supply IH]; cbn; [intros []|].
  destruct (Req_dec_T x 0) as [_|Hx].
  - intros H. destruct (IH H). auto.
  - intros [<-|H]; [auto|]. destruct (IH H). auto.
Qed.

Lemma gaussianRandom_nonzero (supply : list R) (u v : R) (draws : list R) :
  nonzero supply = u :: v :: draws ->
  exists rest,
    gaussianRandom supply = Return (boxMuller u v, rest) /\ nonzero rest = draws.
Proof.
  intros H. unfold gaussianRandom.
  destruct (reroll_nonzero _ _ _ H) as [s1 [-> H1]].
  destruct (reroll_nonzero _ _ _ H1) as [s2 [-> H2]].
  now exists s2.
Qed.

Lemma dailyLoop_shocks (n : nat) (volatility : R) (days : Z) :
  forall (price : R) (supply : list R),
    (2 * n <= length (nonzero supply))%nat ->
    exists rest,
      dailyLoop n price volatility days supply
      = Return ((price * shocks volatility days (firstn n (gaussians (nonzero supply))))%R,
                rest) /\
      nonzero rest = skipn (2 * n) (nonzero supply).
Proof.
  induction n as [|n IH]; intros price supply Hlen.
  - exists supply. cbn. split; [|reflexivity]. f_equal. f_equal. lra.
  - destruct (nonzero supply) as [|u [|v draws]] eqn:Hnz; cbn in Hlen; try lia.
    destruct (gaussianRandom_nonzero _ _ _ _ Hnz) as [s1 [Hg H1]].
    cbn [dailyLoop]. rewrite Hg.
    destruct (IH (price * dailyChange volatility days (boxMuller u v))%R s1)
      as [rest [Hloop Hrest]].
    { rewrite H1. lia. }
    exists rest. rewrite Hloop, Hrest, H1. split.
    + f_equal. f_equal. cbn [gaussians firstn shocks].
      unfold dailyChange, boxMuller, standard_normal. ring.
    + replace (2 * S n)%nat with (S (S (2 * n))) by lia. reflexivity.
Qed.

(** C8. One sampled terminal price is the start price multiplied by the
    daily shocks of the [H] days, one after the other, each of the form
    exp(v * Z / sqrt(H)) with Z the Box-Muller transform
    sqrt(-2 ln u) cos(2 pi v) of the next two draws u and v that are not
    0 (draws of exactly 0 are passed over, so that draws in [0,1) are
    used only when they are in (0,1)); the sampler is a function of its
    inputs and of the draws alone, and returns the supply after the last
    draw it used.  [shocks] and [gaussians] spell the product and the
    transform out, apart from the code. *)
Theorem sampler_multiplies_daily_shocks
    (startPrice volatility : R) (days : Z) (supply : list R) :
  (2 * Z.to_nat days <= length (nonzero supply))%nat ->
  exists rest,
    simulatePrice startPrice volatility days supply
    = Return ((startPrice
               * shocks volatility days
                   (firstn (Z.to_nat days) (gaussians (nonzero supply))))%R,
              rest) /\
    nonzero rest = skipn (2 * Z.to_nat days) (nonzero supply) /\
    (forall d, In d (nonzero supply) -> d <> 0%R) /\
    ((forall d, In d supply -> (0 <= d < 1)%R) ->
     forall d, In d (nonzero supply) -> (0 < d < 1)%R).
Proof.
  intros Hlen. unfold simulatePrice.
  destruct (dailyLoop_shocks (Z.to_nat days) volatility days startPrice supply Hlen)
    as [rest [Hloop Hrest]].
  exists rest. split; [exact Hloop|]. split; [exact Hrest|]. split.
  - intros d Hd. now apply (nonzero_not_zero supply d).
  - intros Hunit d Hd.
    destruct (nonzero_not_zero supply d Hd) as [Hnz Hin].
    destruct (Hunit d Hin). lra.
Qed.

(** C8 on one day and a supply in which draws of 0 come before and
    between the two draws that are used, 1/2 and 1/8; their variate is
    not 0. *)
Lemma sampler_multiplies_daily_shocks_witness :
  exists rest,
    simulatePrice 50000 (1 / 5) 1 [0; / 2; 0; 0; / 8; / 4]%R
    = Return ((50000
               * shocks (1 / 5) 1
                   (firstn (Z.to_nat 1) (gaussians (nonzero [0; / 2; 0; 0; / 8; / 4]))))%R,
              rest) /\
    nonzero rest = skipn (2 * Z.to_nat 1) (nonzero [0; / 2; 0; 0; / 8; / 4]%R) /\
    (forall d, In d (nonzero [0; / 2; 0; 0; / 8; / 4]%R) -> d <> 0%R) /\
    ((forall d, In d [0; / 2; 0; 0; / 8; / 4]%R -> (0 <= d < 1)%R) ->
     forall d, In d (nonzero [0; / 2; 0; 0; / 8; / 4]%R) -> (0 < d < 1)%R).
Proof.
  apply (sampler_multiplies_daily_shocks 50000 (1 / 5) 1 [0; / 2; 0; 0; / 8; / 4]%R).
  cbn. repeat (destruct (Req_dec_T _ _) as [?|?]; try lra); cbn; lia.
Defined.

Lemma nonzero_example :
  nonzero [0; / 2; 0; 0; / 8; / 4]%R = [/ 2; / 8; / 4]%R.
Proof.
  cbn. repeat (destruct (Req_dec_T _ _) as [?|?]; try lra). reflexivity.
Qed.

(** The variate of the draws 1/2 and 1/8 is positive. *)
Lemma standard_normal_example : (0 < sqrt (-2 * ln (/ 2)) * cos (2 * PI * / 8))%R.
Proof.
  apply Rmult_lt_0_compat.
  - apply sqrt_lt_R0. rewrite ln_Rinv by lra.
    pose proof ln_lt_2. lra.
  - replace (2 * PI * / 8)%R with (PI / 4)%R by lra.
    rewrite cos_PI4. apply Rdiv_lt_0_compat; [lra|]. apply sqrt_lt_R0. lra.
Qed.

Example simulatePrice_rerolls_zero_draws :
  simulatePrice 50000 (1 / 5) 1 [0; / 2; 0; 0; / 8; / 4]%R
  = Return ((50000 * exp (1 / 5 * (sqrt (-2 * ln (/ 2)) * cos (2 * PI * / 8)) / sqrt 1))%R,
            [/ 4]%R).
Proof.
  unfold simulatePrice. change (Z.to_nat 1) with 1%nat.
  cbn [dailyLoop]. unfold gaussianRandom.
  repeat (cbn [reroll]; destruct (Req_dec_T _ _) as [?|?]; try lra).
  reflexivity.
Qed.

End SamplerFacts.

(** ** The batches of a full simulation *)

Section BatchFacts.
Import MonteCarloEngine Engine.

Lemma length_skipn_nonzero (k : nat) (rest supply : list R) :
  nonzero rest = skipn k (nonzero supply) ->
  length (nonzero rest) = (length (nonzero supply) - k)%nat.
Proof. intros ->. apply length_skipn. Qed.

Lemma worker_length (slots : nat) (price volatility : R) (days : Z) :
  forall supply : list R,
    (slots * (2 * Z.to_nat days) <= length (nonzero supply))%nat ->
    exists prices rest,
      worker slots price volatility days supply = Return (prices, rest) /\
      length prices = slots /\
      length (nonzero rest)
      = (length (nonzero supply) - slots * (2 * Z.to_nat days))%nat.
Proof.
  induction slots as [|slots IH]; intros supply Hlen.
  - exists [], supply. cbn. repeat split. lia.
  - cbn [worker]. unfold simulatePrice.
    destruct (dailyLoop_shocks (Z.to_nat days) volatility days price supply)
      as [s1 [-> H1]]; [lia|].
    apply length_skipn_nonzero in H1.
    destruct (IH s1) as [prices [rest [-> [Hp Hrest]]]]; [lia|].
    eexists _, rest. split; [reflexivity|]. cbn [length]. split; [now rewrite Hp | lia].
Qed.

Lemma validateInputs_valid (currentPrice : option R) (count : Z) (volatility : R) (days : Z) :
  (0 < ToNumber currentPrice)%R -> 1 <= count -> (0 < volatility)%R -> 1 <= days ->
  validateInputs currentPrice count volatility days = Return tt.
Proof.
  intros Hp Hc Hv Hd. unfold validateInputs.
  destruct (Rle_dec (ToNumber currentPrice) 0); [lra|].
  replace (count <=? 0) with false by (symmetry; apply Z.leb_gt; lia).
  destruct (Rle_dec volatility 0); [lra|].
  replace (days <=? 0) with false by (symmetry; apply Z.leb_gt; lia).
  reflexivity.
Qed.

Lemma simulatePrices_length (currentPrice : option R) (count : Z) (volatility : R)
    (days power : Z) (supply : list R) :
  (0 < ToNumber currentPrice)%R -> 1 <= count -> (0 < volatility)%R -> 1 <= days ->
  (Z.to_nat count * (2 * Z.to_nat days) <= length (nonzero supply))%nat ->
  exists prices rest,
    simulatePrices currentPrice count volatility days power supply
    = Return (prices, rest) /\
    Z.of_nat (length prices) = count /\
    length (nonzero rest)
    = (length (nonzero supply) - Z.to_nat count * (2 * Z.to_nat days))%nat.
Proof.
  intros Hp Hc Hv Hd Hlen. unfold simulatePrices.
  rewrite validateInputs_valid by assumption.
  destruct (worker_length (Z.to_nat count) (ToNumber currentPrice) volatility days
                          supply Hlen) as [prices [rest [-> [Hl Hrest]]]].
  exists prices, rest. repeat split; [lia | exact Hrest].
Qed.

Lemma runBatches_lengths (currentPrice : option R) (volatility : R) (days power : Z) :
  (0 < ToNumber currentPrice)%R -> (0 < volatility)%R -> 1 <= days ->
  forall (sizes : list Z) (supply : list R),
    (forall size, In size sizes -> 1 <= size) ->
    (slotsOf sizes * (2 * Z.to_nat days) <= length (nonzero supply))%nat ->
    exists batches rest,
      runBatches sizes currentPrice volatility days power supply
      = Return (batches, rest) /\
      map (fun batch => Z.of_nat (length batch)) batches = sizes /\
      length (concat batches) = slotsOf sizes.
Proof.
  intros Hp Hv Hd. induction sizes as [|size sizes IH]; intros supply Hsizes Hlen.
  - exists [], supply. now cbn.
  - cbn [runBatches]. cbn [slotsOf] in Hlen.
    destruct (simulatePrices_length currentPrice size volatility days power supply)
      as [prices [s1 [-> [Hl H1]]]]; try assumption.
    { apply Hsizes. now left. }
    { nia. }
    destruct (IH s1) as [batches [rest [-> [Hmap Hcat]]]].
    { intros s Hs. apply Hsizes. now right. }
    { rewrite H1. nia. }
    exists (prices :: batches), rest. split; [reflexivity|]. cbn [map concat slotsOf].
    split; [now rewrite Hl, Hmap|]. rewrite length_app, Hcat. lia.
Qed.

Lemma batchLoop_runBatches (count batchCount : Z) (currentPrice : option R)
    (volatility : R) (days power : Z) (n : nat) :
  forall (k : nat) (allPrices supply : list R),
    batchLoop n (Z.of_nat k) batchCount currentPrice count volatility days power
              allPrices supply
    = match runBatches
              (map (fun i => batchSize count batchCount (Z.of_nat i)) (seq k n))
              currentPrice volatility days power supply with
      | Return (batches, rest) => Return (allPrices ++ concat batches, rest)
      | Throw e => Throw e
      end.
Proof.
  induction n as [|n IH]; intros k allPrices supply.
  - cbn. now rewrite app_nil_r.
  - cbn [batchLoop seq map runBatches].
    destruct (simulatePrices currentPrice (batchSize count batchCount (Z.of_nat k))
                             volatility days power supply) as [[prices s1]|e];
      [|reflexivity].
    replace (Z.of_nat k + 1) with (Z.of_nat (S k)) by lia. rewrite IH.
    destruct (runBatches _ currentPrice volatility days power s1) as [[batches rest]|e];
      [|reflexivity].
    cbn [concat]. now rewrite app_assoc.
Qed.

Lemma executeFullSimulation_runBatches (currentPrice : option R) (count : Z)
    (volatility : R) (days power : Z) (supply : list R) :
  executeFullSimulation currentPrice count volatility days power supply
  = match runBatches (batchSizes count) currentPrice volatility days power supply with
    | Return (batches, rest) => Return (concat batches, rest)
    | Throw e => Throw e
    end.
Proof.
  unfold executeFullSimulation, batchSizes, desiredBatchSize.
  change 0 with (Z.of_nat 0). now rewrite batchLoop_runBatches.
Qed.

Lemma Math_ceil_div_bounds (count : Z) :
  5000 * (Math_ceil_div count 5000 - 1) < count <= 5000 * Math_ceil_div count 5000.
Proof.
  unfold Math_ceil_div.
  pose proof (Z.div_mod (- count) 5000 ltac:(lia)).
  pose proof (Z.mod_pos_bound (- count) 5000 ltac:(lia)). lia.
Qed.

Lemma map_constant {A B : Type} (f : A -> B) (b : B) (l : list A) :
  (forall a, In a l -> f a = b) -> map f l = repeat b (length l).
Proof.
  induction l as [|a l IH]; intros H; cbn; [reflexivity|].
  rewrite (H a) by now left. f_equal. apply IH. intros. apply H. now right.
Qed.

Lemma batchSizes_shape (count : Z) :
  1 <= count ->
  let batchCount := Math_ceil_div count 5000 in
  batchSizes count
  = repeat 5000 (Z.to_nat (batchCount - 1)) ++ [count - 5000 * (batchCount - 1)].
Proof.
  intros Hc batchCount. pose proof (Math_ceil_div_bounds count) as Hb.
  fold batchCount in Hb. unfold batchSizes. fold batchCount.
  replace (Z.to_nat batchCount) with (S (Z.to_nat (batchCount - 1))) by lia.
  rewrite seq_S, map_app. cbn [map plus]. f_equal.
  - rewrite (map_constant _ 5000).
    + now rewrite length_seq.
    + intros i Hi. apply in_seq in Hi. unfold batchSize, desiredBatchSize.
      replace (Z.of_nat i =? batchCount - 1) with false
        by (symmetry; apply Z.eqb_neq; lia).
      reflexivity.
  - unfold batchSize, desiredBatchSize.
    replace (Z.of_nat (Z.to_nat (batchCount - 1))) with (batchCount - 1) by lia.
    rewrite Z.eqb_refl. f_equal. lia.
Qed.

Lemma slotsOf_app (l1 l2 : list Z) : slotsOf (l1 ++ l2) = (slotsOf l1 + slotsOf l2)%nat.
Proof. induction l1 as [|x l1 IH]; cbn; [reflexivity|]. rewrite IH. lia. Qed.

Lemma slotsOf_repeat (n : nat) : slotsOf (repeat 5000 n) = (5000 * n)%nat.
Proof. induction n as [|n IH]; cbn [repeat slotsOf]; [lia|]. rewrite IH. lia. Qed.

Lemma slotsOf_batchSizes (count : Z) : 1 <= count -> slotsOf (batchSizes count) = Z.to_nat count.
Proof.
  intros Hc. rewrite batchSizes_shape by assumption.
  pose proof (Math_ceil_div_bounds count) as Hb.
  rewrite slotsOf_app, slotsOf_repeat. cbn [slotsOf]. lia.
Qed.

Lemma batchSizes_positive (count : Z) :
  1 <= count -> forall size, In size (batchSizes count) -> 1 <= size.
Proof.
  intros Hc size. rewrite batchSizes_shape by assumption.
  pose proof (Math_ceil_div_bounds count) as Hb.
  rewrite in_app_iff. intros [H|[<-|[]]].
  - apply repeat_spec in H. lia.
  - lia.
Qed.

(** C7. For a valid request with simulation count N, the full simulation
    runs ceil(N/5000) batches, each of size 5000 except the last, which
    takes the remainder N - 5000 * (ceil(N/5000) - 1); it returns the
    prices of the batches concatenated in the order of the batches,
    exactly N prices. *)
Theorem full_simulation_runs_batches_in_order
    (currentPrice : option R) (count : Z) (volatility : R) (days power : Z)
    (supply : list R) :
  (0 < ToNumber currentPrice)%R -> 1 <= count -> (0 < volatility)%R -> 1 <= days ->
  (Z.to_nat count * (2 * Z.to_nat days) <= length (nonzero supply))%nat ->
  let batchCount := Math_ceil_div count 5000 in
  5000 * (batchCount - 1) < count <= 5000 * batchCount /\
  batchSizes count
  = repeat 5000 (Z.to_nat (batchCount - 1)) ++ [count - 5000 * (batchCount - 1)] /\
  length (batchSizes count) = Z.to_nat batchCount /\
  exists batches rest,
    runBatches (batchSizes count) currentPrice volatility days power supply
    = Return (batches, rest) /\
    map (fun batch => Z.of_nat (length batch)) batches = batchSizes count /\
    executeFullSimulation currentPrice count volatility days power supply
    = Return (concat batches, rest) /\
    Z.of_nat (length (concat batches)) = count.
Proof.
  intros Hp Hc Hv Hd Hlen batchCount.
  split; [apply Math_ceil_div_bounds|]. split; [now apply batchSizes_shape|].
  split; [unfold batchSizes; now rewrite length_map, length_seq|].
  destruct (runBatches_lengths currentPrice volatility days power Hp Hv Hd
              (batchSizes count) supply) as [batches [rest [Hrun [Hmap Hcat]]]].
  - now apply batchSizes_positive.
  - now rewrite slotsOf_batchSizes.
  - exists batches, rest. repeat split; try assumption.
    + now rewrite executeFullSimulation_runBatches, Hrun.
    + rewrite Hcat, slotsOf_batchSizes by assumption. lia.
Qed.

End BatchFacts.

(** ** Files *)

Section FsFacts.
Import Fs.

Lemma readFileSync_writeFileSync (d : directory) (f : string) (t : text) :
  readFileSync (writeFileSync d f t) f = Some t.
Proof.
  induction d as [|[n c] d IH]; cbn.
  - now rewrite String.eqb_refl.
  - destruct (String.eqb n f) eqn:E; cbn; now rewrite E.
Qed.

Lemma readFileSync_appendFileSync (d : directory) (f : string) (a : text) :
  readFileSync (appendFileSync d f a) f
  = Some (match readFileSync d f with Some c => c ++ a | None => a end).
Proof.
  induction d as [|[n c] d IH]; cbn.
  - now rewrite String.eqb_refl.
  - destruct (String.eqb n f) eqn:E; cbn; now rewrite E.
Qed.

Lemma readFileSync_writeFileSync_other (d : directory) (f g : string) (t : text) :
  f <> g -> readFileSync (writeFileSync d f t) g = readFileSync d g.
Proof.
  intros Hfg. induction d as [|[n c] d IH]; cbn.
  - now replace (String.eqb f g) with false by (symmetry; now apply String.eqb_neq).
  - destruct (String.eqb n f) eqn:E; cbn.
    + apply String.eqb_eq in E. subst n.
      now replace (String.eqb f g) with false by (symmetry; now apply String.eqb_neq).
    + now rewrite IH.
Qed.

Lemma readFileSync_appendFileSync_other (d : directory) (f g : string) (a : text) :
  f <> g -> readFileSync (appendFileSync d f a) g = readFileSync d g.
Proof.
  intros Hfg. induction d as [|[n c] d IH]; cbn.
  - now replace (String.eqb f g) with false by (symmetry; now apply String.eqb_neq).
  - destruct (String.eqb n f) eqn:E; cbn.
    + apply String.eqb_eq in E. subst n.
      now replace (String.eqb f g) with false by (symmetry; now apply String.eqb_neq).
    + now rewrite IH.
Qed.

Lemma appendFileSync_twice (d : directory) (f : string) (a b : text) :
  appendFileSync (appendFileSync d f a) f b = appendFileSync d f (a ++ b).
Proof.
  induction d as [|[n c] d IH]; cbn.
  - now rewrite String.eqb_refl.
  - destruct (String.eqb n f) eqn:E; cbn; rewrite E.
    + now rewrite app_assoc.
    + now rewrite IH.
Qed.

Lemma appendFileSync_nothing (d : directory) (f : string) :
  existsSync d f = true -> appendFileSync d f [] = d.
Proof.
  unfold existsSync. induction d as [|[n c] d IH]; cbn; [discriminate|].
  destruct (String.eqb n f) eqn:E.
  - now rewrite app_nil_r.
  - intros H. now rewrite IH.
Qed.

Lemma existsSync_writeFileSync (d : directory) (f : string) (t : text) :
  existsSync (writeFileSync d f t) f = true.
Proof. unfold existsSync. now rewrite readFileSync_writeFileSync. Qed.

Lemma existsSync_appendFileSync (d : directory) (f : string) (a : text) :
  existsSync (appendFileSync d f a) f = true.
Proof. unfold existsSync. now rewrite readFileSync_appendFileSync. Qed.

Lemma readFileSync_absent (d : directory) (f : string) :
  ~ In f (readdirSync d) -> readFileSync d f = None.
Proof.
  unfold readdirSync. induction d as [|[n c] d IH]; cbn; [reflexivity|].
  intros H. destruct (String.eqb n f) eqn:E.
  - apply String.eqb_eq in E. tauto.
  - apply IH. tauto.
Qed.

Lemma readFileSync_present (d : directory) (f : string) :
  In f (readdirSync d) -> exists c, readFileSync d f = Some c.
Proof.
  unfold readdirSync. induction d as [|[n c] d IH]; cbn; [intros []|].
  intros H. destruct (String.eqb n f) eqn:E; [now exists c|].
  apply String.eqb_neq in E. apply IH. tauto.
Qed.

Lemma writeFileSync_fresh (d : directory) (f : string) (t : text) :
  ~ In f (readdirSync d) -> writeFileSync d f t = d ++ [(f, t)].
Proof.
  unfold readdirSync. induction d as [|[n c] d IH]; cbn; [reflexivity|].
  intros H. destruct (String.eqb n f) eqn:E.
  - apply String.eqb_eq in E. tauto.
  - rewrite IH by tauto. reflexivity.
Qed.

Lemma appendFileSync_last (d : directory) (f : string) (c a : text) :
  ~ In f (readdirSync d) -> appendFileSync (d ++ [(f, c)]) f a = d ++ [(f, c ++ a)].
Proof.
  unfold readdirSync. induction d as [|[n c0] d IH]; cbn.
  - now rewrite String.eqb_refl.
  - intros H. destruct (String.eqb n f) eqn:E.
    + apply String.eqb_eq in E. tauto.
    + rewrite IH by tauto. reflexivity.
Qed.

Lemma readFileSync_app_present (d : directory) (f g : string) (c : text) :
  In g (readdirSync d) -> readFileSync (d ++ [(f, c)]) g = readFileSync d g.
Proof.
  unfold readdirSync. induction d as [|[n c0] d IH]; cbn; [intros []|].
  intros H. destruct (String.eqb n g) eqn:E; [reflexivity|].
  apply String.eqb_neq in E. apply IH. tauto.
Qed.

End FsFacts.

(** ** The raw-output file of a run *)

Section RawOutputFacts.
Import MonteCarloEngine SynthBTC Engine.

Lemma writeChunks_appends (n : nat) :
  forall (i : Z) (allPrices : list R) (currentPrice : option R)
         (d : directory) (file : string),
    Fs.existsSync d file = true ->
    writeChunks n i allPrices currentPrice d file
    = Fs.appendFileSync d file (chunksText n i allPrices currentPrice).
Proof.
  induction n as [|n IH]; intros i allPrices currentPrice d file Hex.
  - cbn. now rewrite appendFileSync_nothing.
  - cbn [writeChunks chunksText]. unfold CSVHandler.appendCSV.
    rewrite IH by apply existsSync_appendFileSync.
    apply appendFileSync_twice.
Qed.

Lemma rowIds_app (a b : text) : rowIds (a ++ b) = rowIds a ++ rowIds b.
Proof.
  induction a as [|[h|id p c|e] a IH]; cbn; [reflexivity| | |]; now rewrite ?IH.
Qed.

Lemma rowIds_mapi (currentPrice : option R) (l : list R) (start : Z) :
  rowIds (js_mapi (fun price index =>
                     PriceRow (index + 1) (Math_round price)
                              (Utils.calculateChangePercentage (Some price) currentPrice))
                  start l)
  = map (fun k => start + Z.of_nat k + 1) (seq 0 (length l)).
Proof.
  revert start. induction l as [|x l IH]; intros start; [reflexivity|].
  cbn [js_mapi rowIds length seq map]. rewrite IH, <- seq_shift, map_map.
  f_equal; [lia|]. apply map_ext. intros k. lia.
Qed.

Lemma rowIds_chunkRows (slicedPrices : list R) (currentPrice : option R) :
  rowIds (chunkRows slicedPrices currentPrice)
  = map (fun k => Z.of_nat k + 1) (seq 0 (length slicedPrices)).
Proof. unfold chunkRows. rewrite rowIds_mapi. apply map_ext. intros k. lia. Qed.

Lemma length_js_slice_chunk {A : Type} (l : list A) (j : nat) :
  length (js_slice l (Z.of_nat j * 5000) ((Z.of_nat j + 1) * 5000))
  = Nat.min 5000 (length l - 5000 * j).
Proof. unfold js_slice. rewrite length_skipn, length_firstn. lia. Qed.

Lemma rowIds_chunks (currentPrice : option R) (allPrices : list R) (n : nat) :
  forall j : nat,
    let ids := rowIds (chunksText n (Z.of_nat j) allPrices currentPrice) in
    length ids = Nat.min (5000 * n) (length allPrices - 5000 * j) /\
    forall k, (k < length ids)%nat ->
      nth_error ids k = Some (Z.of_nat (k mod 5000) + 1).
Proof.
  induction n as [|n IH]; intros j; cbn zeta.
  - cbn. split; [reflexivity|]. intros k Hk. lia.
  - cbn [chunksText]. rewrite rowIds_app, rowIds_chunkRows, length_js_slice_chunk.
    replace (Z.of_nat j + 1) with (Z.of_nat (S j)) by lia.
    destruct (IH (S j)) as [Hlen Hnth].
    set (m := Nat.min 5000 (length allPrices - 5000 * j)) in *.
    set (rest := rowIds (chunksText n (Z.of_nat (S j)) allPrices currentPrice)) in *.
    assert (Hm : length (map (fun k => Z.of_nat k + 1) (seq 0 m)) = m)
      by now rewrite length_map, length_seq.
    split.
    + rewrite length_app, Hm, Hlen. lia.
    + intros k Hk. rewrite length_app, Hm in Hk.
      destruct (Nat.lt_ge_cases k m) as [Hlt|Hge].
      * rewrite nth_error_app1 by (rewrite Hm; exact Hlt).
        rewrite nth_error_map, nth_error_seq.
        replace (k <? m)%nat with true by (symmetry; apply Nat.ltb_lt; lia).
        cbn [option_map Nat.add]. rewrite Nat.mod_small by lia. reflexivity.
      * rewrite nth_error_app2 by (rewrite Hm; exact Hge). rewrite Hm.
        assert (Hfull : m = 5000%nat) by lia.
        rewrite Hnth by lia. rewrite Hfull.
        rewrite <- (Nat.Div0.mod_add (k - 5000) 1 5000).
        replace (k - 5000 + 1 * 5000)%nat with k by lia. reflexivity.
Qed.

Lemma worker_returns_length (slots : nat) (price volatility : R) (days : Z) :
  forall (supply : list R) (prices rest : list R),
    worker slots price volatility days supply = Return (prices, rest) ->
    length prices = slots.
Proof.
  induction slots as [|slots IH]; intros supply prices rest; cbn [worker].
  - intros [= <- _]. reflexivity.
  - destruct (simulatePrice price volatility days supply) as [[p s1]|]; [|discriminate].
    destruct (worker slots price volatility days s1) as [[ps s2]|] eqn:E; [|discriminate].
    intros [= <- _]. cbn. f_equal. eapply IH. exact E.
Qed.

Lemma runBatches_returns_length (currentPrice : option R) (volatility : R)
    (days power : Z) (sizes : list Z) :
  forall (supply : list R) (batches : list (list R)) (rest : list R),
    runBatches sizes currentPrice volatility days power supply = Return (batches, rest) ->
    length (concat batches) = slotsOf sizes.
Proof.
  induction sizes as [|size sizes IH]; intros supply batches rest; cbn [runBatches].
  - intros [= <- _]. reflexivity.
  - unfold simulatePrices.
    destruct (validateInputs currentPrice size volatility days); [|discriminate].
    destruct (worker (Z.to_nat size) (ToNumber currentPrice) volatility days supply)
      as [[prices s1]|] eqn:Ew; [|discriminate].
    destruct (runBatches sizes currentPrice volatility days power s1)
      as [[bs s2]|] eqn:Er; [|discriminate].
    intros [= <- _]. cbn [concat slotsOf]. rewrite length_app.
    rewrite (worker_returns_length _ _ _ _ _ _ _ Ew). f_equal. eapply IH. exact Er.
Qed.

Lemma slotsOf_batchSizes_any (count : Z) : slotsOf (batchSizes count) = Z.to_nat count.
Proof.
  destruct (Z.le_gt_cases 1 count) as [H|H]; [now apply slotsOf_batchSizes|].
  pose proof (Math_ceil_div_bounds count) as Hb. unfold batchSizes.
  replace (Z.to_nat (Math_ceil_div count 5000)) with O by lia.
  cbn. lia.
Qed.

Lemma executeFullSimulation_returns_length (currentPrice : option R) (count : Z)
    (volatility : R) (days power : Z) (supply allPrices rest : list R) :
  executeFullSimulation currentPrice count volatility days power supply
  = Return (allPrices, rest) ->
  length allPrices = Z.to_nat count.
Proof.
  rewrite executeFullSimulation_runBatches.
  destruct (runBatches (batchSizes count) currentPrice volatility days power supply)
    as [[batches s]|] eqn:E; [|discriminate].
  intros [= <- _]. rewrite (runBatches_returns_length _ _ _ _ _ _ _ _ E).
  apply slotsOf_batchSizes_any.
Qed.

Lemma persistRun_rawFile (cfg : Config) (env : Env) (currentPrice : option R)
    (allPrices : list R) (hi tg av lo : option R) (index : Z) (st : State) :
  Fs.readFileSync
    (dataPrivateDir (snd (persistRun cfg env currentPrice allPrices hi tg av lo index st)))
    (rawFileName index)
  = Some (csvHeader
          ++ chunksText (Z.to_nat (Math_ceil_div (totalSimulations cfg) 5000)) 0
                        allPrices currentPrice).
Proof.
  unfold persistRun. cbn [snd set_status set_dirs set_fileIndex dataPrivateDir fileIndex].
  unfold CSVHandler.writeCSV.
  rewrite writeChunks_appends by apply existsSync_appendFileSync.
  rewrite appendFileSync_twice, readFileSync_appendFileSync, readFileSync_writeFileSync.
  reflexivity.
Qed.

(** The rows of the raw-output file of a run of [count] simulations: as
    many as [allPrices] has prices, and numbered from 1 within each chunk
    of 5000. *)
Lemma rawFile_rows (currentPrice : option R) (allPrices : list R) :
  let ids := rowIds (csvHeader
                     ++ chunksText (Z.to_nat (Math_ceil_div
                                                (Z.of_nat (length allPrices)) 5000)) 0
                                   allPrices currentPrice) in
  length ids = length allPrices /\
  forall k, (k < length allPrices)%nat ->
    nth_error ids k = Some (Z.of_nat (k mod 5000) + 1).
Proof.
  cbn zeta. rewrite rowIds_app. cbn [csvHeader rowIds app].
  pose proof (Math_ceil_div_bounds (Z.of_nat (length allPrices))) as Hb.
  destruct (rowIds_chunks currentPrice allPrices
              (Z.to_nat (Math_ceil_div (Z.of_nat (length allPrices)) 5000)) 0)
    as [Hlen Hnth].
  change (Z.of_nat 0) with 0 in *.
  assert (Hl : length (rowIds (chunksText
                (Z.to_nat (Math_ceil_div (Z.of_nat (length allPrices)) 5000)) 0
                allPrices currentPrice)) = length allPrices) by lia.
  split; [exact Hl|]. intros k Hk. apply Hnth. now rewrite Hl.
Qed.

End RawOutputFacts.

(** ** The names of the raw-output files *)

Section NameFacts.
Import Str.

Lemma chars_append (a b : string) : chars (a ++ b) = chars a ++ chars b.
Proof. unfold chars. induction a as [|c a IH]; cbn; [reflexivity|]. now rewrite IH. Qed.

Lemma starts_with_app (p l : list ascii) : starts_with p (p ++ l) = true.
Proof.
  induction p as [|c p IH]; cbn; [reflexivity|]. now rewrite Ascii.eqb_refl, IH.
Qed.

Lemma strip_app (p l : list ascii) : strip p (p ++ l) = Some l.
Proof.
  induction p as [|c p IH]; cbn; [reflexivity|]. now rewrite Ascii.eqb_refl, IH.
Qed.

Lemma span_digits_app (ds : list ascii) (c : ascii) (rest : list ascii) :
  Forall (fun a => is_digit a = true) ds -> is_digit c = false ->
  span_digits (ds ++ c :: rest) = (ds, c :: rest).
Proof.
  intros Hds Hc. induction Hds as [|a ds Ha _ IH]; cbn.
  - now rewrite Hc.
  - now rewrite Ha, IH.
Qed.

Lemma string_of_uint_digits (d : Decimal.uint) :
  Forall (fun a => is_digit a = true) (chars (NilEmpty.string_of_uint d)).
Proof.
  unfold chars. induction d; cbn [NilEmpty.string_of_uint list_ascii_of_string];
    constructor; (reflexivity || assumption).
Qed.

Lemma string_of_uint_nonempty (d : Decimal.uint) :
  d <> Decimal.Nil -> chars (NilEmpty.string_of_uint d) <> [].
Proof. destruct d; cbn; congruence. Qed.

Lemma to_int_nonneg (k : Z) :
  0 <= k -> exists d, Z.to_int k = Decimal.Pos d /\ d <> Decimal.Nil.
Proof.
  destruct k as [|p|p]; intros Hk; cbn.
  - eexists. split; [reflexivity|discriminate].
  - eexists. split; [reflexivity|apply DecimalPos.Unsigned.to_uint_nonnil].
  - lia.
Qed.

Lemma startsWith_append (a b : string) : startsWith (a ++ b) a = true.
Proof. unfold startsWith. rewrite chars_append. apply starts_with_app. Qed.

Lemma endsWith_append (a b : string) : endsWith (a ++ b) b = true.
Proof. unfold endsWith. rewrite chars_append, rev_app_distr. apply starts_with_app. Qed.

Lemma append_assoc (a b c : string) : ((a ++ b) ++ c = a ++ (b ++ c))%string.
Proof. induction a as [|x a IH]; cbn; [reflexivity|]. now rewrite IH. Qed.

Lemma rawFileName_indexed (k : Z) :
  startsWith (SynthBTC.rawFileName k) (SynthBTC.outputFileSources ++ "_") = true /\
  startsWith (SynthBTC.rawFileName k) SynthBTC.outputFileSources = true /\
  endsWith (SynthBTC.rawFileName k) ".csv" = true.
Proof.
  unfold SynthBTC.rawFileName. split; [|split].
  - rewrite <- append_assoc. apply startsWith_append.
  - apply startsWith_append.
  - rewrite <- !append_assoc. apply endsWith_append.
Qed.

Lemma fileIndexOf_rawFileName (k : Z) :
  0 <= k -> Utils.fileIndexOf (SynthBTC.rawFileName k) = Return k.
Proof.
  intros Hk. destruct (to_int_nonneg k Hk) as [d [Hd Hnil]].
  unfold Utils.fileIndexOf, match_index, SynthBTC.rawFileName, of_Z.
  rewrite Hd. cbn [NilEmpty.string_of_int].
  rewrite !chars_append, !rev_app_distr, <- !app_assoc, strip_app.
  change (rev (chars "_")) with ["_"%char]. cbn [app].
  rewrite span_digits_app.
  - destruct (rev (chars (NilEmpty.string_of_uint d))) as [|c ds] eqn:E.
    + apply (f_equal (@rev ascii)) in E. rewrite rev_involutive in E.
      now apply string_of_uint_nonempty in E.
    + rewrite <- E, rev_involutive. unfold chars.
      rewrite string_of_list_ascii_of_string. unfold parseInt_digits.
      rewrite NilEmpty.usu. f_equal.
      change (Z.of_N (N.of_uint d)) with (Z.of_int (Decimal.Pos d)).
      rewrite <- Hd. apply DecimalZ.of_to.
  - apply Forall_rev. apply string_of_uint_digits.
  - reflexivity.
Qed.

Lemma rawFileName_injective (j k : Z) :
  0 <= j -> 0 <= k -> SynthBTC.rawFileName j = SynthBTC.rawFileName k -> j = k.
Proof.
  intros Hj Hk H. pose proof (fileIndexOf_rawFileName j Hj) as Ej.
  rewrite H, (fileIndexOf_rawFileName k Hk) in Ej. congruence.
Qed.

End NameFacts.

(** ** One run *)

Section PricedStateFacts.
Import SynthBTC Engine.

Lemma pricedState_keeps (env : Env) (st : State) :
  let st' := snd (pricedState env st) in
  simulationStatus st' = "PROCESSING"%string /\
  fileIndex st' = fileIndex st /\
  simulatedData st' = simulatedData st /\
  simulationCounter st' = simulationCounter st /\
  latestOutput st' = latestOutput st /\
  privateDir st' = privateDir st /\
  dataPrivateDir st' = dataPrivateDir st.
Proof.
  unfold pricedState, currentPriceBTC.
  destruct (PriceFetcher.getCurrentPrice _ _); cbn; repeat split.
Qed.

End PricedStateFacts.

(** Brings in what [pricedState] keeps of [st]. *)
Ltac keeps env st :=
  let Hk := fresh "Hk" in
  pose proof (pricedState_keeps env st) as Hk; cbn zeta in Hk;
  destruct Hk as [Hstatus [Hindex [Hsd [Hsc [Hlo [Hpriv Hdata]]]]]].

Section RunFacts.
Import MonteCarloEngine SynthBTC Engine.

Lemma pricedState_feedsDown (env : Env) (st : State) :
  fetchCoinGecko env = None -> fetchEtherscan env = None ->
  fst (pricedState env st) = lastKnownPrice st /\
  lastKnownPrice (snd (pricedState env st)) = lastKnownPrice st /\
  connectionLost (snd (pricedState env st)) = true.
Proof.
  intros Hg He. unfold pricedState, currentPriceBTC. rewrite Hg, He. cbn. repeat split.
Qed.

Lemma generateSimulations_throws (cfg : Config) (env : Env) (st : State) (e : exn) :
  executeFullSimulation (fst (pricedState env st)) (totalSimulations cfg)
    (volatilityPercentage cfg / 100)%R (simulationDays cfg) (turbitPower cfg)
    (randomDraws env) = Throw e ->
  generateSimulations cfg env st = (Throw e, snd (pricedState env st)).
Proof.
  unfold generateSimulations, pricedState.
  destruct (currentPriceBTC env (set_status "PROCESSING" st)) as [cp st2].
  cbn [fst snd]. now intros ->.
Qed.

Lemma generateSimulations_completes (cfg : Config) (env : Env) (st : State)
    (allPrices rest : list R) (index : Z) :
  executeFullSimulation (fst (pricedState env st)) (totalSimulations cfg)
    (volatilityPercentage cfg / 100)%R (simulationDays cfg) (turbitPower cfg)
    (randomDraws env) = Return (allPrices, rest) ->
  Utils.determineNextFileIndex (Fs.readdirSync (dataPrivateDir st)) outputFileSources
  = Return index ->
  generateSimulations cfg env st
  = (Return (fst (completedRun cfg env st allPrices index)),
     snd (completedRun cfg env st allPrices index)).
Proof.
  keeps env st.
  unfold generateSimulations, completedRun. unfold pricedState in *.
  destruct (currentPriceBTC env (set_status "PROCESSING" st)) as [cp st2].
  cbn [fst snd] in *. intros -> Hidx.
  cbn [set_counters dataPrivateDir]. rewrite Hdata, Hidx.
  now destruct (persistRun _ _ _ _ _ _ _ _ _ _).
Qed.

Lemma generateSimulations_index_throws (cfg : Config) (env : Env) (st : State)
    (allPrices rest : list R) (e : exn) :
  executeFullSimulation (fst (pricedState env st)) (totalSimulations cfg)
    (volatilityPercentage cfg / 100)%R (simulationDays cfg) (turbitPower cfg)
    (randomDraws env) = Return (allPrices, rest) ->
  Utils.determineNextFileIndex (Fs.readdirSync (dataPrivateDir st)) outputFileSources
  = Throw e ->
  exists st', generateSimulations cfg env st = (Throw e, st') /\
              privateDir st' = privateDir st /\ dataPrivateDir st' = dataPrivateDir st.
Proof.
  keeps env st.
  unfold generateSimulations. unfold pricedState in *.
  destruct (currentPriceBTC env (set_status "PROCESSING" st)) as [cp st2].
  cbn [fst snd] in *. intros -> Hidx.
  cbn [set_counters dataPrivateDir]. rewrite Hdata, Hidx.
  eexists. split; [reflexivity|]. cbn. now split.
Qed.

Lemma entries_app (a b : text) : entries (a ++ b) = entries a ++ entries b.
Proof.
  induction a as [|[h|id p c|e] a IH]; cbn; [reflexivity| | |]; now rewrite ?IH.
Qed.

(** What a run that returns leaves behind. *)
Lemma completedRun_effects (cfg : Config) (env : Env) (st : State)
    (allPrices : list R) (index : Z) :
  let out := fst (completedRun cfg env st allPrices index) in
  let st' := snd (completedRun cfg env st allPrices index) in
  status out = "OK"%string /\
  details_totalSimulations (details out) = simulationCounter st + 1 /\
  simulationStatus st' = "OK"%string /\
  simulationCounter st' = simulationCounter st + 1 /\
  simulatedData st' = simulatedData st + totalSimulations cfg /\
  fileIndex st' = index /\
  latestOutput st' = latestOutput st /\
  lastKnownPrice st' = fst (pricedState env st) /\
  connectionLost st' = connectionLost (snd (pricedState env st)) /\
  dataPrivateDir st'
  = writeChunks (Z.to_nat (Math_ceil_div (totalSimulations cfg) 5000)) 0 allPrices
      (fst (pricedState env st))
      (CSVHandler.writeCSV (dataPrivateDir st) (rawFileName index) csvHeader [])
      (rawFileName index) /\
  exists e,
    runLog st' = runLog st ++ [e] /\
    simulation_id e = simulationCounter st + 1 /\
    simulated_data e = totalSimulations cfg /\
    total_simulated e = simulatedData st + totalSimulations cfg /\
    current_price e = Math_round (ToNumber (fst (pricedState env st))) /\
    data_source e = rawFileName index.
Proof.
  keeps env st.
  assert (Hlast : lastKnownPrice (snd (pricedState env st)) = fst (pricedState env st)).
  { unfold pricedState, currentPriceBTC.
    now destruct (PriceFetcher.getCurrentPrice _ _). }
  unfold completedRun.
  destruct (pricedState env st) as [cp st2]. cbn [fst snd] in *.
  unfold persistRun.
  cbn [fst snd set_status set_dirs set_fileIndex set_counters status details
       details_totalSimulations simulationStatus simulationCounter simulatedData
       fileIndex latestOutput lastKnownPrice connectionLost dataPrivateDir privateDir].
  rewrite Hsd, Hsc, Hlo, Hpriv, Hdata, Hlast.
  repeat (split; [reflexivity|]).
  eexists. split.
  - unfold runLog. cbn [privateDir set_status set_dirs].
    unfold Fs.existsSync, CSVHandler.writeCSV, CSVHandler.appendCSV.
    destruct (Fs.readFileSync (privateDir st) coreFileName) as [t|] eqn:E; cbn [negb].
    + rewrite readFileSync_appendFileSync, E, entries_app. reflexivity.
    + rewrite readFileSync_appendFileSync, readFileSync_writeFileSync. reflexivity.
  - cbn. repeat split.
Qed.

End RunFacts.

(** ** Runs that return, runs that are rejected *)

Section OutcomeFacts.
Import MonteCarloEngine SynthBTC Engine.

Lemma executeFullSimulation_returns (currentPrice : option R) (count : Z)
    (volatility : R) (days power : Z) (supply : list R) :
  (0 < ToNumber currentPrice)%R -> 1 <= count -> (0 < volatility)%R -> 1 <= days ->
  (Z.to_nat count * (2 * Z.to_nat days) <= length (nonzero supply))%nat ->
  exists allPrices rest,
    executeFullSimulation currentPrice count volatility days power supply
    = Return (allPrices, rest) /\
    Z.of_nat (length allPrices) = count.
Proof.
  intros Hp Hc Hv Hd Hlen.
  destruct (runBatches_lengths currentPrice volatility days power Hp Hv Hd
              (batchSizes count) supply) as [batches [rest [Hrun [_ Hcat]]]].
  - now apply batchSizes_positive.
  - now rewrite slotsOf_batchSizes.
  - exists (concat batches), rest. split.
    + now rewrite executeFullSimulation_runBatches, Hrun.
    + rewrite Hcat, slotsOf_batchSizes by assumption. lia.
Qed.

Lemma validateInputs_rejects (currentPrice : option R) (count : Z) (volatility : R)
    (days : Z) :
  1 <= count ->
  (ToNumber currentPrice <= 0)%R \/ (volatility <= 0)%R \/ days <= 0 ->
  exists message,
    validateInputs currentPrice count volatility days = Throw (Error message) /\
    In message ["Current price must be greater than 0";
                "Volatility must be greater than 0";
                "Days must be greater than 0"]%string.
Proof.
  intros Hc H. unfold validateInputs.
  destruct (Rle_dec (ToNumber currentPrice) 0) as [_|Hp].
  { eexists. split; [reflexivity|]. now left. }
  replace (count <=? 0) with false by (symmetry; apply Z.leb_gt; lia).
  destruct (Rle_dec volatility 0) as [_|Hv].
  { eexists. split; [reflexivity|]. right. now left. }
  destruct (days <=? 0) eqn:Hd.
  { eexists. split; [reflexivity|]. right. right. now left. }
  apply Z.leb_gt in Hd. destruct H as [H|[H|H]]; [tauto | tauto | lia].
Qed.

Lemma executeFullSimulation_rejects (currentPrice : option R) (count : Z)
    (volatility : R) (days power : Z) (supply : list R) :
  1 <= count ->
  (ToNumber currentPrice <= 0)%R \/ (volatility <= 0)%R \/ days <= 0 ->
  exists message,
    executeFullSimulation currentPrice count volatility days power supply
    = Throw (Error message) /\
    In message ["Current price must be greater than 0";
                "Volatility must be greater than 0";
                "Days must be greater than 0"]%string.
Proof.
  intros Hc H. unfold executeFullSimulation, desiredBatchSize.
  pose proof (Math_ceil_div_bounds count) as Hb.
  destruct (Z.to_nat (Math_ceil_div count 5000)) as [|n] eqn:En; [lia|].
  cbn [batchLoop]. unfold simulatePrices.
  destruct (validateInputs_rejects currentPrice
              (batchSize count (Math_ceil_div count 5000) 0) volatility days)
    as [message [-> Hin]]; [|exact H|now exists message].
  unfold batchSize, desiredBatchSize.
  destruct (0 =? Math_ceil_div count 5000 - 1); lia.
Qed.

Lemma getSimulationData_completes (cfg : Config) (env : Env) (st : State)
    (allPrices rest : list R) (index : Z) :
  executeFullSimulation (fst (pricedState env st)) (totalSimulations cfg)
    (volatilityPercentage cfg / 100)%R (simulationDays cfg) (turbitPower cfg)
    (randomDraws env) = Return (allPrices, rest) ->
  Utils.determineNextFileIndex (Fs.readdirSync (dataPrivateDir st)) outputFileSources
  = Return index ->
  getSimulationData cfg env st
  = (Return (fst (completedRun cfg env st allPrices index)),
     set_latestOutput (Some (fst (completedRun cfg env st allPrices index)))
                      (snd (completedRun cfg env st allPrices index))).
Proof.
  intros Hexec Hidx. unfold getSimulationData.
  now rewrite (generateSimulations_completes cfg env st allPrices rest index Hexec Hidx).
Qed.

Lemma getSimulationData_throws (cfg : Config) (env : Env) (st : State) (e : exn) :
  executeFullSimulation (fst (pricedState env st)) (totalSimulations cfg)
    (volatilityPercentage cfg / 100)%R (simulationDays cfg) (turbitPower cfg)
    (randomDraws env) = Throw e ->
  getSimulationData cfg env st = (Throw e, snd (pricedState env st)).
Proof.
  intros Hexec. unfold getSimulationData.
  now rewrite (generateSimulations_throws cfg env st e Hexec).
Qed.

Lemma completedRun_rawFile (cfg : Config) (env : Env) (st : State)
    (allPrices : list R) (index : Z) :
  Z.of_nat (length allPrices) = totalSimulations cfg ->
  exists t,
    Fs.readFileSync (dataPrivateDir (snd (completedRun cfg env st allPrices index)))
                    (rawFileName index) = Some t /\
    length (rowIds t) = length allPrices /\
    forall k, (k < length allPrices)%nat ->
      nth_error (rowIds t) k = Some (Z.of_nat (k mod 5000) + 1).
Proof.
  intros Hlen. unfold completedRun.
  destruct (pricedState env st) as [cp st2].
  rewrite persistRun_rawFile. eexists. split; [reflexivity|].
  rewrite <- Hlen. apply rawFile_rows.
Qed.

Lemma nonzero_halves (n : nat) : nonzero (repeat (/ 2)%R n) = repeat (/ 2)%R n.
Proof.
  induction n as [|n IH]; cbn; [reflexivity|].
  destruct (Req_dec_T (/ 2) 0); [lra|]. now rewrite IH.
Qed.

Lemma getSimulationData_rejects (cfg : Config) (env : Env) (st : State) :
  1 <= totalSimulations cfg ->
  (ToNumber (fst (pricedState env st)) <= 0)%R \/
  (volatilityPercentage cfg <= 0)%R \/ simulationDays cfg <= 0 ->
  exists message,
    getSimulationData cfg env st = (Throw (Error message), snd (pricedState env st)) /\
    In message ["Current price must be greater than 0";
                "Volatility must be greater than 0";
                "Days must be greater than 0"]%string.
Proof.
  intros Hc H.
  destruct (executeFullSimulation_rejects (fst (pricedState env st))
              (totalSimulations cfg) (volatilityPercentage cfg / 100)%R
              (simulationDays cfg) (turbitPower cfg) (randomDraws env) Hc)
    as [message [Hexec Hin]].
  { destruct H as [H|[H|H]]; [now left | right; left; lra | right; now right]. }
  exists message. now rewrite (getSimulationData_throws _ _ _ _ Hexec).
Qed.

Lemma getSimulationData_returns (cfg : Config) (env : Env) (st : State) (index : Z) :
  (0 < ToNumber (fst (pricedState env st)))%R ->
  1 <= totalSimulations cfg ->
  (0 < volatilityPercentage cfg)%R ->
  1 <= simulationDays cfg ->
  (Z.to_nat (totalSimulations cfg) * (2 * Z.to_nat (simulationDays cfg))
   <= length (nonzero (randomDraws env)))%nat ->
  Utils.determineNextFileIndex (Fs.readdirSync (dataPrivateDir st)) outputFileSources
  = Return index ->
  exists allPrices,
    Z.of_nat (length allPrices) = totalSimulations cfg /\
    getSimulationData cfg env st
    = (Return (fst (completedRun cfg env st allPrices index)),
       set_latestOutput (Some (fst (completedRun cfg env st allPrices index)))
                        (snd (completedRun cfg env st allPrices index))).
Proof.
  intros Hp Hc Hv Hd Hlen Hidx.
  destruct (executeFullSimulation_returns (fst (pricedState env st))
              (totalSimulations cfg) (volatilityPercentage cfg / 100)%R
              (simulationDays cfg) (turbitPower cfg) (randomDraws env))
    as [allPrices [rest [Hexec Hl]]]; try assumption; [lra|].
  exists allPrices. split; [exact Hl|].
  now apply (getSimulationData_completes cfg env st allPrices rest index).
Qed.

Lemma readdirSync_appendFileSync (d : directory) (f : string) (a : text) :
  Fs.existsSync d f = true ->
  Fs.readdirSync (Fs.appendFileSync d f a) = Fs.readdirSync d.
Proof.
  unfold Fs.existsSync, Fs.readdirSync.
  induction d as [|[n c] d IH]; cbn; [discriminate|].
  destruct (String.eqb n f); cbn; [reflexivity|]. intros H. now rewrite IH.
Qed.

Lemma completedRun_dataDir (cfg : Config) (env : Env) (st : State)
    (allPrices : list R) (index : Z) :
  ~ In (rawFileName index) (Fs.readdirSync (dataPrivateDir st)) ->
  dataPrivateDir (snd (completedRun cfg env st allPrices index))
  = dataPrivateDir st
    ++ [(rawFileName index,
         csvHeader
         ++ chunksText (Z.to_nat (Math_ceil_div (totalSimulations cfg) 5000)) 0
                       allPrices (fst (pricedState env st)))].
Proof.
  intros Hfresh.
  destruct (completedRun_effects cfg env st allPrices index)
    as [_ [_ [_ [_ [_ [_ [_ [_ [_ [-> _]]]]]]]]]].
  unfold CSVHandler.writeCSV.
  rewrite writeChunks_appends by apply existsSync_appendFileSync.
  rewrite appendFileSync_twice, writeFileSync_fresh by assumption.
  now rewrite appendFileSync_last.
Qed.

(** C3, as amended. A request for at least one simulation in which the
    reference price (also a missing one), the volatility or the horizon
    is not positive is rejected with a validation error before a price is
    sampled: the counters, the file index, the cached output and the
    persisted files are as before the call.  (The run status and the
    fields of the price source are written before the engine validates.) *)
Theorem invalid_request_is_rejected (cfg : Config) (env : Env) (st : State) :
  1 <= totalSimulations cfg ->
  (ToNumber (fst (pricedState env st)) <= 0)%R \/
  (volatilityPercentage cfg <= 0)%R \/ simulationDays cfg <= 0 ->
  exists message st',
    getSimulationData cfg env st = (Throw (Error message), st') /\
    In message ["Current price must be greater than 0";
                "Volatility must be greater than 0";
                "Days must be greater than 0"]%string /\
    simulationCounter st' = simulationCounter st /\
    simulatedData st' = simulatedData st /\
    fileIndex st' = fileIndex st /\
    latestOutput st' = latestOutput st /\
    privateDir st' = privateDir st /\
    dataPrivateDir st' = dataPrivateDir st.
Proof.
  intros Hc H.
  destruct (getSimulationData_rejects cfg env st Hc H) as [message [Hrun Hin]].
  exists message, (snd (pricedState env st)).
  keeps env st.
  repeat split; assumption.
Qed.

(** C3 on a request with volatility 0, on a fresh engine. *)
Lemma invalid_request_is_rejected_witness :
  exists message st',
    getSimulationData (mkConfig 10 0 1 4) (Scenario.feedsUp 20) Scenario.boot
    = (Throw (Error message), st') /\
    In message ["Current price must be greater than 0";
                "Volatility must be greater than 0";
                "Days must be greater than 0"]%string /\
    simulationCounter st' = simulationCounter Scenario.boot /\
    simulatedData st' = simulatedData Scenario.boot /\
    fileIndex st' = fileIndex Scenario.boot /\
    latestOutput st' = latestOutput Scenario.boot /\
    privateDir st' = privateDir Scenario.boot /\
    dataPrivateDir st' = dataPrivateDir Scenario.boot.
Proof.
  apply (invalid_request_is_rejected (mkConfig 10 0 1 4) (Scenario.feedsUp 20)
                                     Scenario.boot).
  - cbn. lia.
  - right. left. cbn. lra.
Defined.

(** C3, the claim as stated fails twice.  A request with volatility 0 is
    rejected, but the run status is no longer the one before the call;
    and a request for 0 simulations is not rejected at all: the run
    returns with status OK, the counter advanced, a row in the run log
    and the output cached. *)
Lemma invalid_request_changes_state_or_runs :
  (exists message st',
     getSimulationData (mkConfig 10 0 1 4) (Scenario.feedsUp 20) Scenario.boot
     = (Throw (Error message), st') /\
     simulationStatus st' <> simulationStatus Scenario.boot) /\
  (exists out st',
     getSimulationData (Scenario.request 0) (Scenario.feedsUp 0) Scenario.boot
     = (Return out, st') /\
     status out = "OK"%string /\
     simulationCounter st' = simulationCounter Scenario.boot + 1 /\
     length (runLog st') = S (length (runLog Scenario.boot)) /\
     latestOutput st' = Some out).
Proof.
  split.
  - destruct (getSimulationData_rejects (mkConfig 10 0 1 4) (Scenario.feedsUp 20)
                                        Scenario.boot) as [message [Hrun _]].
    + cbn. lia.
    + right. left. cbn. lra.
    + exists message, (snd (pricedState (Scenario.feedsUp 20) Scenario.boot)).
      split; [exact Hrun|]. cbn. discriminate.
  - rewrite (getSimulationData_completes (Scenario.request 0) (Scenario.feedsUp 0)
               Scenario.boot [] [] 1); [|reflexivity|reflexivity].
    destruct (completedRun_effects (Scenario.request 0) (Scenario.feedsUp 0)
                                   Scenario.boot [] 1)
      as [Hst [_ [_ [Hsc [_ [_ [_ [_ [_ [_ [e [Hlog _]]]]]]]]]]]].
    eexists _, _. split; [reflexivity|]. split; [exact Hst|].
    split; [exact Hsc|]. split; [|reflexivity].
    change (runLog (set_latestOutput ?o ?s)) with (runLog s).
    rewrite Hlog, length_app. cbn. lia.
Qed.

End OutcomeFacts.

(** ** Runs without a price source *)

Section PriceSourceFacts.
Import MonteCarloEngine SynthBTC Engine.

Lemma runLog_set_latestOutput (o : option Output) (st : State) :
  runLog (set_latestOutput o st) = runLog st.
Proof. reflexivity. Qed.

(** What a run does when both feeds fail and a price is known from
    before. *)
Lemma feedsDown_known_price (cfg : Config) (env : Env) (st : State) (p : R) (index : Z) :
  fetchCoinGecko env = None -> fetchEtherscan env = None ->
  lastKnownPrice st = Some p -> (0 < p)%R ->
  1 <= totalSimulations cfg -> (0 < volatilityPercentage cfg)%R ->
  1 <= simulationDays cfg ->
  (Z.to_nat (totalSimulations cfg) * (2 * Z.to_nat (simulationDays cfg))
   <= length (nonzero (randomDraws env)))%nat ->
  Utils.determineNextFileIndex (Fs.readdirSync (dataPrivateDir st)) outputFileSources
  = Return index ->
  exists out st' e,
    getSimulationData cfg env st = (Return out, st') /\
    status out = "OK"%string /\
    details_totalSimulations (details out) = simulationCounter st + 1 /\
    connectionLost st' = true /\
    lastKnownPrice st' = Some p /\
    runLog st' = runLog st ++ [e] /\
    simulation_id e = simulationCounter st + 1 /\
    current_price e = Math_round p /\
    latestOutput st' = Some out.
Proof.
  intros Hg He Hlast Hp Hc Hv Hd Hlen Hidx.
  destruct (pricedState_feedsDown env st Hg He) as [Hfst [_ Hlost]].
  rewrite Hlast in Hfst.
  destruct (getSimulationData_returns cfg env st index) as [allPrices [_ Hrun]];
    try assumption.
  { rewrite Hfst. exact Hp. }
  destruct (completedRun_effects cfg env st allPrices index)
    as [Hst [Hdt [_ [_ [_ [_ [_ [Hprice [Hconn [_ [e [Hlog [Hid [_ [_ [Hcur _]]]]]]]]]]]]]]]].
  exists (fst (completedRun cfg env st allPrices index)),
    (set_latestOutput (Some (fst (completedRun cfg env st allPrices index)))
                      (snd (completedRun cfg env st allPrices index))), e.
  split; [exact Hrun|]. split; [exact Hst|]. split; [exact Hdt|].
  rewrite runLog_set_latestOutput.
  change (connectionLost (set_latestOutput ?o ?s)) with (connectionLost s).
  change (lastKnownPrice (set_latestOutput ?o ?s)) with (lastKnownPrice s).
  rewrite Hconn, Hlost, Hprice, Hfst, Hcur, Hfst.
  repeat split; assumption.
Qed.

(** C2, as amended. When both feeds fail, the run falls back on the last
    known price.  If there is one (and the request is valid), the run
    completes: it returns status OK, appends one row to the run log,
    computed from that price, and replaces the cached output, with the
    connection marked as lost.  If there is none, the run throws the
    validation error on the current price: the run log, the files and
    the cached output are as before the call. *)
Theorem price_source_down_falls_back (cfg : Config) (env : Env) (st : State) :
  fetchCoinGecko env = None -> fetchEtherscan env = None ->
  1 <= totalSimulations cfg ->
  match lastKnownPrice st with
  | Some p =>
      (0 < p)%R -> (0 < volatilityPercentage cfg)%R -> 1 <= simulationDays cfg ->
      (Z.to_nat (totalSimulations cfg) * (2 * Z.to_nat (simulationDays cfg))
       <= length (nonzero (randomDraws env)))%nat ->
      forall index,
        Utils.determineNextFileIndex (Fs.readdirSync (dataPrivateDir st))
                                     outputFileSources = Return index ->
        exists out st' e,
          getSimulationData cfg env st = (Return out, st') /\
          status out = "OK"%string /\
          connectionLost st' = true /\
          lastKnownPrice st' = Some p /\
          runLog st' = runLog st ++ [e] /\
          simulation_id e = simulationCounter st + 1 /\
          current_price e = Math_round p /\
          latestOutput st' = Some out
  | None =>
      exists st',
        getSimulationData cfg env st
        = (Throw (Error "Current price must be greater than 0"), st') /\
        connectionLost st' = true /\
        runLog st' = runLog st /\
        privateDir st' = privateDir st /\
        dataPrivateDir st' = dataPrivateDir st /\
        simulationCounter st' = simulationCounter st /\
        latestOutput st' = latestOutput st
  end.
Proof.
  intros Hg He Hc. destruct (lastKnownPrice st) as [p|] eqn:Hlast.
  - intros Hp Hv Hd Hlen index Hidx.
    destruct (feedsDown_known_price cfg env st p index)
      as [out [st' [e [H1 [H2 [_ H3]]]]]]; try assumption.
    exists out, st', e. split; [exact H1|]. split; [exact H2|]. exact H3.
  - destruct (pricedState_feedsDown env st Hg He) as [Hfst [_ Hlost]].
    rewrite Hlast in Hfst.
    keeps env st.
    exists (snd (pricedState env st)). split.
    + apply getSimulationData_throws.
      rewrite Hfst. unfold executeFullSimulation, desiredBatchSize.
      pose proof (Math_ceil_div_bounds (totalSimulations cfg)) as Hb.
      destruct (Z.to_nat (Math_ceil_div (totalSimulations cfg) 5000)) as [|n] eqn:En;
        [lia|].
      cbn [batchLoop]. unfold simulatePrices, validateInputs. cbn [ToNumber].
      destruct (Rle_dec 0 0) as [_|Hn]; [reflexivity | lra].
    + unfold runLog. rewrite Hpriv. repeat split; assumption.
Qed.

(** C2 with both feeds down: on a fresh engine, where no price is known,
    and on an engine that knows the price 50000. *)
Lemma price_source_down_falls_back_witness :
  (exists st',
     getSimulationData (Scenario.request 3) (Scenario.feedsDown 6) Scenario.boot
     = (Throw (Error "Current price must be greater than 0"), st') /\
     connectionLost st' = true /\
     runLog st' = runLog Scenario.boot /\
     privateDir st' = privateDir Scenario.boot /\
     dataPrivateDir st' = dataPrivateDir Scenario.boot /\
     simulationCounter st' = simulationCounter Scenario.boot /\
     latestOutput st' = latestOutput Scenario.boot) /\
  (exists out st' e,
     getSimulationData (Scenario.request 3) (Scenario.feedsDown 6) Scenario.priced
     = (Return out, st') /\
     status out = "OK"%string /\
     connectionLost st' = true /\
     lastKnownPrice st' = Some 50000%R /\
     runLog st' = runLog Scenario.priced ++ [e] /\
     simulation_id e = simulationCounter Scenario.priced + 1 /\
     current_price e = Math_round 50000 /\
     latestOutput st' = Some out).
Proof.
  split.
  - apply (price_source_down_falls_back (Scenario.request 3) (Scenario.feedsDown 6)
                                        Scenario.boot);
      [reflexivity | reflexivity | cbn; lia].
  - assert (Hc : 1 <= totalSimulations (Scenario.request 3)) by (cbn; lia).
    pose proof (price_source_down_falls_back (Scenario.request 3)
                  (Scenario.feedsDown 6) Scenario.priced eq_refl eq_refl Hc) as H.
    cbn [lastKnownPrice Scenario.priced] in H. apply (H ltac:(lra)) with (index := 1).
    + cbn. lra.
    + cbn. lia.
    + cbn [Scenario.feedsDown randomDraws]. rewrite nonzero_halves, repeat_length.
      cbn. lia.
    + reflexivity.
Defined.

Lemma afterFirstRun_state :
  lastKnownPrice Scenario.afterFirstRun = Some ((50000 + 50000) / 2)%R /\
  simulationCounter Scenario.afterFirstRun = 1 /\
  length (runLog Scenario.afterFirstRun) = 1%nat /\
  Fs.readdirSync (dataPrivateDir Scenario.afterFirstRun) = [rawFileName 1] /\
  exists out,
    latestOutput Scenario.afterFirstRun = Some out /\
    details_totalSimulations (details out) = 1.
Proof.
  unfold Scenario.afterFirstRun.
  destruct (getSimulationData_returns (Scenario.request 1) (Scenario.feedsUp 2)
                                      Scenario.boot 1)
    as [allPrices [_ ->]].
  - cbn. lra.
  - cbn. lia.
  - cbn. lra.
  - cbn. lia.
  - cbn [Scenario.feedsUp randomDraws]. rewrite nonzero_halves, repeat_length.
    cbn. lia.
  - reflexivity.
  - cbn [snd].
    destruct (completedRun_effects (Scenario.request 1) (Scenario.feedsUp 2)
                                   Scenario.boot allPrices 1)
      as [_ [Hdt [_ [Hsc [_ [_ [_ [Hprice [_ [_ [e [Hlog _]]]]]]]]]]]].
    change (lastKnownPrice (set_latestOutput ?o ?s)) with (lastKnownPrice s).
    change (simulationCounter (set_latestOutput ?o ?s)) with (simulationCounter s).
    change (dataPrivateDir (set_latestOutput ?o ?s)) with (dataPrivateDir s).
    rewrite runLog_set_latestOutput, Hprice, Hsc, Hlog.
    rewrite completedRun_dataDir by (cbn; tauto).
    repeat split. eexists. split; [reflexivity|exact Hdt].
Qed.

(** C2, the claim as stated fails: after a first run, a run during which
    both feeds fail does not fail.  It returns status OK, the run log
    gains a row, and the cached output is replaced. *)
Lemma price_source_down_run_completes :
  exists out st',
    getSimulationData (Scenario.request 1) (Scenario.feedsDown 2) Scenario.afterFirstRun
    = (Return out, st') /\
    status out = "OK"%string /\
    status out <> "FAILED"%string /\
    length (runLog st') = S (length (runLog Scenario.afterFirstRun)) /\
    latestOutput st' <> latestOutput Scenario.afterFirstRun.
Proof.
  destruct afterFirstRun_state as [Hlast [Hsc [_ [Hdir [out1 [Hout1 Hd1]]]]]].
  assert (Hp : (0 < (50000 + 50000) / 2)%R) by lra.
  assert (Hc : 1 <= totalSimulations (Scenario.request 1)) by (cbn; lia).
  assert (Hv : (0 < volatilityPercentage (Scenario.request 1))%R) by (cbn; lra).
  assert (Hd : 1 <= simulationDays (Scenario.request 1)) by (cbn; lia).
  assert (Hlen : (Z.to_nat (totalSimulations (Scenario.request 1))
                  * (2 * Z.to_nat (simulationDays (Scenario.request 1)))
                  <= length (nonzero (randomDraws (Scenario.feedsDown 2))))%nat).
  { cbn [Scenario.feedsDown randomDraws]. rewrite nonzero_halves, repeat_length.
    cbn. lia. }
  assert (Hidx : Utils.determineNextFileIndex
                   (Fs.readdirSync (dataPrivateDir Scenario.afterFirstRun))
                   outputFileSources = Return 2).
  { rewrite Hdir. vm_compute. reflexivity. }
  destruct (feedsDown_known_price (Scenario.request 1) (Scenario.feedsDown 2)
              Scenario.afterFirstRun ((50000 + 50000) / 2)%R 2
              eq_refl eq_refl Hlast Hp Hc Hv Hd Hlen Hidx)
    as [out [st' [e [Hrun [Hst [Hdt [_ [_ [Hlog [_ [_ Hout]]]]]]]]]]].
  exists out, st'. split; [exact Hrun|]. split; [exact Hst|].
  split; [rewrite Hst; discriminate|]. split.
  - rewrite Hlog, length_app. cbn. lia.
  - rewrite Hout, Hout1. intros [= Heq]. rewrite Heq, Hd1, Hsc in Hdt. lia.
Qed.

End PriceSourceFacts.

(** ** The numbering of the raw-output rows *)

Section NumberingFacts.
Import MonteCarloEngine SynthBTC Engine.

(** The raw-output file of a valid run: as many rows as simulations, and
    the row at position [k + 1] numbered [(k mod 5000) + 1]. *)
Lemma raw_output_rows (cfg : Config) (env : Env) (st : State) (index : Z) :
  (0 < ToNumber (fst (pricedState env st)))%R ->
  1 <= totalSimulations cfg ->
  (0 < volatilityPercentage cfg)%R ->
  1 <= simulationDays cfg ->
  (Z.to_nat (totalSimulations cfg) * (2 * Z.to_nat (simulationDays cfg))
   <= length (nonzero (randomDraws env)))%nat ->
  Utils.determineNextFileIndex (Fs.readdirSync (dataPrivateDir st)) outputFileSources
  = Return index ->
  exists out st' t,
    getSimulationData cfg env st = (Return out, st') /\
    details_dataSource (details out) = rawFileName index /\
    Fs.readFileSync (dataPrivateDir st') (rawFileName index) = Some t /\
    Z.of_nat (length (rowIds t)) = totalSimulations cfg /\
    forall k, (k < Z.to_nat (totalSimulations cfg))%nat ->
      nth_error (rowIds t) k = Some (Z.of_nat (k mod 5000) + 1).
Proof.
  intros Hp Hc Hv Hd Hlen Hidx.
  destruct (getSimulationData_returns cfg env st index Hp Hc Hv Hd Hlen Hidx)
    as [allPrices [Hl Hrun]].
  destruct (completedRun_rawFile cfg env st allPrices index Hl) as [t [Hread [Hrows Hnth]]].
  eexists _, _, t. split; [exact Hrun|]. split.
  - unfold completedRun. destruct (pricedState env st). reflexivity.
  - change (dataPrivateDir (set_latestOutput ?o ?s)) with (dataPrivateDir s).
    split; [exact Hread|]. split; [lia|].
    intros k Hk. apply Hnth. lia.
Qed.

(** C1, at the failing input: a run of 5001 simulations on a fresh
    engine.  The raw-output file has 5001 rows, but the row at position
    5001 carries the number 1: the numbering starts again with each chunk
    of 5000 rows. *)
Theorem raw_output_numbering_restarts_at_row_5001 :
  exists out st' t,
    getSimulationData (Scenario.request 5001) (Scenario.feedsUp (Z.to_nat 10002))
                      Scenario.boot
    = (Return out, st') /\
    details_dataSource (details out) = "source_simulation_1.csv"%string /\
    Fs.readFileSync (dataPrivateDir st') "source_simulation_1.csv" = Some t /\
    Z.of_nat (length (rowIds t)) = 5001 /\
    nth_error (rowIds t) (Z.to_nat 4999) = Some 5000 /\
    nth_error (rowIds t) (Z.to_nat 5000) = Some 1.
Proof.
  destruct (raw_output_rows (Scenario.request 5001) (Scenario.feedsUp (Z.to_nat 10002))
                            Scenario.boot 1)
    as [out [st' [t [Hrun [Hsrc [Hread [Hrows Hnth]]]]]]].
  - cbn. lra.
  - cbn. lia.
  - cbn. lra.
  - cbn. lia.
  - cbn [Scenario.feedsUp randomDraws]. rewrite nonzero_halves, repeat_length.
    cbn [Scenario.request totalSimulations simulationDays]. lia.
  - reflexivity.
  - exists out, st', t. split; [exact Hrun|]. split; [exact Hsrc|].
    split; [exact Hread|]. cbn [Scenario.request totalSimulations] in *.
    split; [exact Hrows|]. split.
    + rewrite (Hnth (Z.to_nat 4999)) by lia. reflexivity.
    + rewrite (Hnth (Z.to_nat 5000)) by lia. reflexivity.
Qed.

End NumberingFacts.

(** ** The run log over the life of the engine *)

Section LedgerFacts.
Import MonteCarloEngine SynthBTC Engine.

Lemma consecutive_snoc (log : list RunSummary) (e : RunSummary) :
  forall id cumulative : Z,
    consecutive id cumulative log ->
    simulation_id e
    = fst (fold_left (fun _ e => (simulation_id e, total_simulated e)) log
                     (id, cumulative)) + 1 ->
    total_simulated e
    = snd (fold_left (fun _ e => (simulation_id e, total_simulated e)) log
                     (id, cumulative)) + simulated_data e ->
    consecutive id cumulative (log ++ [e]).
Proof.
  induction log as [|x log IH]; intros id cumulative Hlog Hid Hcum.
  - cbn in *. auto.
  - cbn [app consecutive fold_left] in *. destruct Hlog as [H1 [H2 H3]].
    repeat split; try assumption. now apply IH.
Qed.

Lemma endOf_snoc (log : list RunSummary) (e : RunSummary) :
  endOf (log ++ [e]) = (simulation_id e, total_simulated e).
Proof. unfold endOf. now rewrite fold_left_app. Qed.

Lemma filter_all {A : Type} (f : A -> bool) (l : list A) :
  (forall x, In x l -> f x = true) -> filter f l = l.
Proof.
  induction l as [|x l IH]; intros H; cbn; [reflexivity|].
  rewrite (H x) by now left. f_equal. apply IH. intros. apply H. now right.
Qed.

Lemma wellNamed_indexedFiles (d : directory) :
  wellNamed d ->
  Utils.indexedFiles (Fs.readdirSync d) outputFileSources = Fs.readdirSync d /\
  CSVHandler.getCSVFiles d outputFileSources = Fs.readdirSync d.
Proof.
  intros Hd. unfold Utils.indexedFiles, CSVHandler.getCSVFiles.
  split; apply filter_all; intros name Hin; destruct (Hd name Hin) as [k [_ ->]];
    destruct (rawFileName_indexed k) as [H1 [H2 H3]].
  - now rewrite H1, H3.
  - now rewrite H2, H3.
Qed.

Lemma fileIndices_wellNamed (names : list string) :
  (forall name, In name names -> exists k, 0 <= k /\ name = rawFileName k) ->
  exists ks,
    Utils.fileIndices names = Return ks /\
    names = map rawFileName ks /\
    forall k, In k ks -> 0 <= k.
Proof.
  induction names as [|name names IH]; intros H.
  - exists []. cbn. repeat split. intros k [].
  - destruct (H name (or_introl eq_refl)) as [k [Hk ->]].
    destruct IH as [ks [Hks [Hnames Hpos]]].
    { intros n Hn. apply H. now right. }
    exists (k :: ks). cbn [Utils.fileIndices map].
    rewrite fileIndexOf_rawFileName by assumption. rewrite Hks.
    split; [reflexivity|]. split; [now rewrite <- Hnames|].
    intros j [<-|Hj]; [assumption | now apply Hpos].
Qed.

Lemma determineNextFileIndex_wellNamed (d : directory) :
  wellNamed d ->
  exists index,
    Utils.determineNextFileIndex (Fs.readdirSync d) outputFileSources = Return index /\
    0 <= index /\
    ~ In (rawFileName index) (Fs.readdirSync d).
Proof.
  intros Hd. unfold Utils.determineNextFileIndex.
  destruct (wellNamed_indexedFiles d Hd) as [-> _].
  destruct (fileIndices_wellNamed (Fs.readdirSync d) Hd) as [ks [-> [Hnames Hpos]]].
  destruct ks as [|k ks].
  - exists 1. rewrite Hnames. cbn. repeat split; [lia | tauto].
  - destruct (Math_max_spec ks k) as [Hin Hall].
    pose proof (Hpos _ Hin) as Hmax.
    exists (Utils.Math_max k ks + 1). split; [reflexivity|]. split; [lia|].
    rewrite Hnames, in_map_iff. intros [j [Hj Hinj]].
    apply rawFileName_injective in Hj; [| now apply Hpos | lia].
    specialize (Hall j Hinj). lia.
Qed.

Lemma readFileSync_app_absent (d : directory) (f : string) (c : text) :
  ~ In f (Fs.readdirSync d) -> Fs.readFileSync (d ++ [(f, c)]) f = Some c.
Proof.
  unfold Fs.readdirSync. induction d as [|[n c0] d IH]; cbn.
  - now rewrite String.eqb_refl.
  - intros H. destruct (String.eqb n f) eqn:E.
    + apply String.eqb_eq in E. tauto.
    + apply IH. tauto.
Qed.

Lemma readCSV_read (d : directory) (f : string) :
  CSVHandler.readCSV d f = Fs.readFileSync d f.
Proof.
  unfold CSVHandler.readCSV, Fs.existsSync. now destruct (Fs.readFileSync d f).
Qed.

Lemma simulatedData_fold_ext (d d' : directory) (files : list string) :
  (forall f, In f files -> Fs.readFileSync d' f = Fs.readFileSync d f) ->
  forall acc : outcome Z,
    fold_left (CSVHandler.addFile d') files acc
    = fold_left (CSVHandler.addFile d) files acc.
Proof.
  induction files as [|f files IH]; intros H acc; cbn [fold_left]; [reflexivity|].
  rewrite IH by (intros; apply H; now right).
  unfold CSVHandler.addFile. rewrite !readCSV_read, (H f) by now left. reflexivity.
Qed.

Lemma calculateSimulatedData_new_file (d : directory) (f : string) (c : text) (total : Z) :
  wellNamed d ->
  ~ In f (Fs.readdirSync d) ->
  Str.startsWith f outputFileSources && Str.endsWith f ".csv" = true ->
  CSVHandler.calculateSimulatedData d outputFileSources = Return total ->
  CSVHandler.getCSVFiles (d ++ [(f, c)]) outputFileSources
  = CSVHandler.getCSVFiles d outputFileSources ++ [f] /\
  CSVHandler.calculateSimulatedData (d ++ [(f, c)]) outputFileSources
  = Return (total + Z.of_nat (length c) - 1).
Proof.
  intros Hd Hfresh Hf Hcalc.
  assert (Hfiles : CSVHandler.getCSVFiles (d ++ [(f, c)]) outputFileSources
                   = CSVHandler.getCSVFiles d outputFileSources ++ [f]).
  { unfold CSVHandler.getCSVFiles, Fs.readdirSync.
    rewrite map_app, filter_app. cbn [map filter fst]. now rewrite Hf. }
  split; [exact Hfiles|].
  unfold CSVHandler.calculateSimulatedData in *. rewrite Hfiles, fold_left_app.
  rewrite (simulatedData_fold_ext d (d ++ [(f, c)])
             (CSVHandler.getCSVFiles d outputFileSources)).
  - rewrite Hcalc. cbn [fold_left]. unfold CSVHandler.addFile.
    rewrite readCSV_read, readFileSync_app_absent by assumption.
    unfold CSVHandler.split_lines. do 2 f_equal.
    destruct c; cbn [map app tl length]; [reflexivity|].
    rewrite length_app, length_map. cbn. lia.
  - intros g Hg. apply readFileSync_app_present.
    destruct (wellNamed_indexedFiles d Hd) as [_ Hall]. now rewrite Hall in Hg.
Qed.

Lemma length_js_mapi {A B : Type} (f : A -> Z -> B) (l : list A) (start : Z) :
  length (js_mapi f start l) = length l.
Proof. revert start. induction l as [|x l IH]; intros; cbn; [reflexivity|]. now rewrite IH. Qed.

Lemma chunksText_all_rows (n : nat) (allPrices : list R) (currentPrice : option R) :
  forall i : Z,
    length (chunksText n i allPrices currentPrice)
    = length (rowIds (chunksText n i allPrices currentPrice)).
Proof.
  induction n as [|n IH]; intros i; cbn [chunksText]; [reflexivity|].
  rewrite rowIds_app, !length_app, IH, rowIds_chunkRows, length_map, length_seq.
  unfold chunkRows. now rewrite length_js_mapi.
Qed.

Lemma consistent_boot : consistent Scenario.boot.
Proof. unfold consistent. cbn. repeat split. intros name []. Qed.

Lemma consistent_run (cfg : Config) (env : Env) (st : State)
    (r : outcome Output) (st' : State) :
  consistent st ->
  0 <= totalSimulations cfg ->
  getSimulationData cfg env st = (r, st') ->
  consistent st'.
Proof.
  intros [Hlog [Hend [Hnamed [Hcount Hcalc]]]] Hc Hrun.
  keeps env st.
  destruct (executeFullSimulation (fst (pricedState env st)) (totalSimulations cfg)
              (volatilityPercentage cfg / 100)%R (simulationDays cfg)
              (turbitPower cfg) (randomDraws env)) as [[allPrices rest]|e] eqn:Hexec.
  - destruct (determineNextFileIndex_wellNamed _ Hnamed) as [index [Hidx [Hpos Hfresh]]].
    rewrite (getSimulationData_completes cfg env st allPrices rest index Hexec Hidx)
      in Hrun.
    injection Hrun as _ <-.
    pose proof (executeFullSimulation_returns_length _ _ _ _ _ _ _ _ Hexec) as Hlen.
    destruct (completedRun_effects cfg env st allPrices index)
      as [_ [_ [_ [Hsc' [Hsd' [_ [_ [_ [_ [_ [e [Hlog' [Hid [Hown [Hcum _]]]]]]]]]]]]]]].
    pose proof (completedRun_dataDir cfg env st allPrices index Hfresh) as Hdir.
    destruct (rawFileName_indexed index) as [_ [Hn1 Hn2]].
    destruct (calculateSimulatedData_new_file (dataPrivateDir st) (rawFileName index)
                (csvHeader
                 ++ chunksText (Z.to_nat (Math_ceil_div (totalSimulations cfg) 5000)) 0
                               allPrices (fst (pricedState env st)))
                (simulatedData st) Hnamed Hfresh)
      as [Hfiles Hcalc']; [now rewrite Hn1, Hn2 | exact Hcalc |].
    unfold consistent.
    rewrite runLog_set_latestOutput.
    change (simulationCounter (set_latestOutput ?o ?s)) with (simulationCounter s).
    change (simulatedData (set_latestOutput ?o ?s)) with (simulatedData s).
    change (dataPrivateDir (set_latestOutput ?o ?s)) with (dataPrivateDir s).
    rewrite Hlog', Hsc', Hsd', Hdir, Hfiles, Hcalc'.
    split; [|split; [|split; [|split]]].
    + apply consecutive_snoc; [exact Hlog| |].
      * fold (endOf (runLog st)). rewrite Hend. exact Hid.
      * fold (endOf (runLog st)). rewrite Hend, Hown. exact Hcum.
    + rewrite endOf_snoc, Hid, Hcum. reflexivity.
    + intros name Hin. unfold Fs.readdirSync in Hin. rewrite map_app in Hin.
      apply in_app_iff in Hin. destruct Hin as [Hin|[<-|[]]].
      * now apply Hnamed.
      * now exists index.
    + rewrite length_app. cbn [length]. lia.
    + f_equal. rewrite length_app. cbn [csvHeader length].
      rewrite chunksText_all_rows.
      pose proof (rawFile_rows (fst (pricedState env st)) allPrices) as Hrows.
      cbn zeta in Hrows. destruct Hrows as [Hrows _].
      rewrite rowIds_app in Hrows. cbn [csvHeader rowIds app] in Hrows.
      replace (Z.of_nat (length allPrices)) with (totalSimulations cfg) in Hrows by lia.
      rewrite Hrows. lia.
  - rewrite (getSimulationData_throws cfg env st e Hexec) in Hrun.
    injection Hrun as _ <-. unfold consistent, runLog.
    rewrite Hpriv, Hdata, Hsc, Hsd.
    split; [exact Hlog | split; [exact Hend | split; [exact Hnamed | split;
      [exact Hcount | exact Hcalc]]]].
Qed.

Lemma consistent_restart (st st' : State) :
  consistent st ->
  init (privateDir st) (dataPrivateDir st) = Return st' ->
  consistent st'.
Proof.
  intros [Hlog [Hend [Hnamed [Hcount Hcalc]]]]. unfold init.
  destruct (Utils.getLastFileIndex _ _) as [index|]; [|discriminate].
  rewrite Hcalc. intros [= <-]. unfold consistent, runLog.
  cbn [privateDir dataPrivateDir simulationCounter simulatedData].
  rewrite Hcount.
  split; [exact Hlog | split; [exact Hend | split; [exact Hnamed | split;
    [reflexivity | exact Hcalc]]]].
Qed.

Lemma reachable_consistent (st : State) : reachable st -> consistent st.
Proof.
  induction 1 as [st Hboot|cfg env st r st' _ IH Hc Hrun|st st' _ IH Hinit].
  - cbn in Hboot. injection Hboot as <-. apply consistent_boot.
  - now apply (consistent_run cfg env st r st').
  - now apply (consistent_restart st st').
Qed.

(** C4. Whatever runs the engine has served, and across restarts, the
    run ids in the run log are the consecutive integers from 1 on, and
    the cumulative count of each row is that of the row before plus the
    row's own count. *)
Theorem run_log_is_consecutive (st : State) :
  reachable st -> consecutive 0 0 (runLog st).
Proof. intros H. apply (reachable_consistent st H). Qed.

End LedgerFacts.

(** ** The properties at concrete inputs *)

Section Instances.
Import MonteCarloEngine SynthBTC Engine APICore.

(** C7 on 5001 simulations: a batch of 5000, then a batch of 1. *)
Lemma full_simulation_runs_batches_in_order_witness :
  let supply := repeat (/ 2)%R (Z.to_nat 10002) in
  let batchCount := Math_ceil_div 5001 5000 in
  5000 * (batchCount - 1) < 5001 <= 5000 * batchCount /\
  batchSizes 5001
  = repeat 5000 (Z.to_nat (batchCount - 1)) ++ [5001 - 5000 * (batchCount - 1)] /\
  length (batchSizes 5001) = Z.to_nat batchCount /\
  exists batches rest,
    runBatches (batchSizes 5001) (Some 50000%R) (/ 5)%R 1 4 supply
    = Return (batches, rest) /\
    map (fun batch => Z.of_nat (length batch)) batches = batchSizes 5001 /\
    executeFullSimulation (Some 50000%R) 5001 (/ 5)%R 1 4 supply
    = Return (concat batches, rest) /\
    Z.of_nat (length (concat batches)) = 5001.
Proof.
  apply (full_simulation_runs_batches_in_order (Some 50000%R) 5001 (/ 5)%R 1 4
           (repeat (/ 2)%R (Z.to_nat 10002))).
  - cbn. lra.
  - lia.
  - lra.
  - lia.
  - rewrite nonzero_halves, repeat_length. lia.
Defined.

Example batchSizes_5001 : batchSizes 5001 = [5000; 1].
Proof. reflexivity. Qed.

Example batchSizes_12000 : batchSizes 12000 = [5000; 5000; 2000].
Proof. reflexivity. Qed.

Example getSimulationsByIds_example :
  let e1 := mkRunSummary 1 1300 50000 (Some 61000) (Some 55000) (Some 50100)
                         (Some 41000) 1000 1000 250 "source_simulation_1.csv" in
  let e2 := mkRunSummary 2 2300 50500 (Some 62000) (Some 56000) (Some 50600)
                         (Some 42000) 1000 2000 240 "source_simulation_2.csv" in
  let data := [HeaderLine "simulation_id,timestamp"; LogEntry e1; LogEntry e2] in
  let st := mkState None false 0 0 0 "OK" None [(coreFileName, data)] [] in
  getSimulationsByIds st "2,0,7,x,1"
  = Json [Found (LogEntry e2); NotAvailable (Some 0); NotAvailable (Some 7);
          NotAvailable None; Found (LogEntry e1)].
Proof. vm_compute. reflexivity. Qed.

Example getSimulationsByIds_without_log :
  getSimulationsByIds Scenario.boot "1"
  = Status500 (Error "Core log file does not exist.").
Proof. reflexivity. Qed.

End Instances.

(** * Further properties *)

(** ** Rounding *)

Section RoundingFacts.
Local Open Scope R_scope.

Lemma Int_part_le (x y : R) : x <= y -> (Int_part x <= Int_part y)%Z.
Proof.
  intros Hxy. destruct (base_Int_part x) as [Hx1 Hx2], (base_Int_part y) as [Hy1 Hy2].
  destruct (Z_lt_le_dec (Int_part y) (Int_part x)) as [Hlt|Hle]; [|exact Hle].
  assert (H : (Int_part y + 1 <= Int_part x)%Z) by lia.
  apply IZR_le in H. rewrite plus_IZR in H. lra.
Qed.

Lemma Int_part_nonneg (x : R) : 0 <= x -> (0 <= Int_part x)%Z.
Proof.
  intros H. destruct (base_Int_part x) as [_ Hb].
  assert (Hlt : IZR (-1) < IZR (Int_part x)) by lra.
  apply lt_IZR in Hlt. lia.
Qed.

Lemma Math_round_le (x y : R) : x <= y -> (Math_round x <= Math_round y)%Z.
Proof. intros H. unfold Math_round. apply Int_part_le. lra. Qed.

Lemma Math_round_nonneg (x : R) : 0 <= x -> (0 <= Math_round x)%Z.
Proof. intros H. unfold Math_round. apply Int_part_nonneg. lra. Qed.

Lemma Int_part_IZR_div (a k : Z) : (0 < k)%Z -> Int_part (IZR a / IZR k) = (a / k)%Z.
Proof.
  intros Hk. symmetry. apply Int_part_spec.
  pose proof (Z.mul_div_le a k Hk) as H1.
  pose proof (Z.mul_succ_div_gt a k Hk) as H2. unfold Z.succ in H2.
  apply IZR_le in H1. apply IZR_lt in H2.
  rewrite mult_IZR in H1, H2. rewrite plus_IZR in H2.
  assert (Hpos : 0 < IZR k) by (apply IZR_lt; lia).
  set (x := IZR a / IZR k).
  assert (Hx : x * IZR k = IZR a) by (unfold x; field; lra).
  rewrite <- Hx in H1, H2. split; nra.
Qed.

Lemma Int_part_minus_IZR (x : R) (n : Z) : Int_part (x - IZR n) = (Int_part x - n)%Z.
Proof.
  symmetry. apply Int_part_spec. destruct (base_Int_part x) as [H1 H2].
  rewrite minus_IZR. lra.
Qed.

End RoundingFacts.


(** ** The CSV files *)

Section CsvFacts.
Import Fs CSVHandler.

Lemma writeFileSync_writeCSV (d : directory) (f : string) (header data t : text) :
  writeFileSync (writeCSV d f header data) f t = writeFileSync d f t.
Proof.
  unfold writeCSV. induction d as [|[n c] d IH]; cbn.
  - now rewrite String.eqb_refl; cbn; rewrite String.eqb_refl.
  - destruct (String.eqb n f) eqn:E; cbn; rewrite E; cbn; rewrite ?E; [reflexivity|].
    now rewrite IH.
Qed.

Lemma readdirSync_writeFileSync (d : directory) (f : string) (t : text) :
  readdirSync (writeFileSync d f t)
  = if existsSync d f then readdirSync d else readdirSync d ++ [f].
Proof.
  unfold existsSync, readdirSync. induction d as [|[n c] d IH]; cbn; [reflexivity|].
  destruct (String.eqb n f) eqn:E; cbn; [reflexivity|].
  rewrite IH. now destruct (readFileSync d f).
Qed.

Lemma readFileSync_in (d : directory) (f : string) :
  readFileSync d f = None <-> ~ In f (readdirSync d).
Proof.
  split; [|apply readFileSync_absent].
  intros H Hin. destruct (readFileSync_present d f Hin) as [c Hc]. congruence.
Qed.

(** X1. A file written by [writeCSV] reads back as the header followed
    by the data, whatever the file held before; the other files of the
    directory read as before; the directory lists the names it listed
    before and, when the file is new, its name once more (the order of
    the listing left aside); and a second [writeCSV] replaces the
    first. *)
Theorem written_csv_reads_back (d : directory) (f : string) (header data : text) :
  readCSV (writeCSV d f header data) f = Some (header ++ data) /\
  (forall g, g <> f -> readCSV (writeCSV d f header data) g = readCSV d g) /\
  Permutation (readdirSync (writeCSV d f header data))
              (if existsSync d f then readdirSync d else f :: readdirSync d) /\
  forall header' data',
    writeCSV (writeCSV d f header data) f header' data' = writeCSV d f header' data'.
Proof.
  split; [|split; [|split]].
  - rewrite readCSV_read. unfold writeCSV.
    now rewrite readFileSync_appendFileSync, readFileSync_writeFileSync.
  - intros g Hg. rewrite !readCSV_read. unfold writeCSV.
    rewrite readFileSync_appendFileSync_other by congruence.
    apply readFileSync_writeFileSync_other. congruence.
  - unfold writeCSV.
    rewrite readdirSync_appendFileSync by apply existsSync_writeFileSync.
    rewrite readdirSync_writeFileSync. destruct (existsSync d f); [reflexivity|].
    apply Permutation_sym, Permutation_cons_append.
  - intros header' data'. unfold writeCSV at 1 3.
    now rewrite writeFileSync_writeCSV.
Qed.

(** X2. [appendCSV] creates a file that does not exist, and the file
    then holds the appended lines only, without any header; on a file
    that exists it adds the lines after those the file holds.  The other
    files read as before, and appending to a file just written is writing
    it with the longer data. *)
Theorem appended_csv_reads_back (d : directory) (f : string) (data : text) :
  readCSV (appendCSV d f data) f
  = Some (match readCSV d f with Some old => old ++ data | None => data end) /\
  (forall g, g <> f -> readCSV (appendCSV d f data) g = readCSV d g) /\
  forall header first,
    appendCSV (writeCSV d f header first) f data = writeCSV d f header (first ++ data).
Proof.
  split; [|split].
  - rewrite !readCSV_read. apply readFileSync_appendFileSync.
  - intros g Hg. rewrite !readCSV_read. unfold appendCSV.
    apply readFileSync_appendFileSync_other. congruence.
  - intros header first. unfold appendCSV, writeCSV. apply appendFileSync_twice.
Qed.

Lemma readFileSync_middle (pre suf : directory) (f : string) (c : text) :
  ~ In f (readdirSync pre) -> readFileSync (pre ++ (f, c) :: suf) f = Some c.
Proof.
  unfold readdirSync. induction pre as [|[n c'] pre IH]; cbn; intros H.
  - now rewrite String.eqb_refl.
  - destruct (String.eqb n f) eqn:E.
    + apply String.eqb_eq in E. tauto.
    + apply IH. tauto.
Qed.

Lemma simulatedData_fold (prefix : string) (suf : directory) :
  forall (pre : directory) (acc : Z),
    NoDup (readdirSync (pre ++ suf)) ->
    fold_left (addFile (pre ++ suf))
              (filter (fun file => Str.startsWith file prefix && Str.endsWith file ".csv")
                      (readdirSync suf))
              (Return acc)
    = Return (acc + Store.linesLessOne suf prefix).
Proof.
  induction suf as [|[n c] suf IH]; intros pre acc Hnd; cbn [readdirSync map filter fst].
  - cbn. f_equal. lia.
  - assert (Hpre : ~ In n (readdirSync pre)).
    { unfold readdirSync in *. rewrite map_app in Hnd. cbn in Hnd.
      apply NoDup_remove_2 in Hnd. rewrite in_app_iff in Hnd. tauto. }
    assert (Hshift : pre ++ (n, c) :: suf = (pre ++ [(n, c)]) ++ suf)
      by now rewrite <- app_assoc.
    cbn [Store.linesLessOne].
    destruct (Str.startsWith n prefix && Str.endsWith n ".csv") eqn:E.
    + cbn [fold_left]. unfold addFile at 2. rewrite readCSV_read.
      rewrite readFileSync_middle by exact Hpre.
      unfold split_lines. rewrite Hshift.
      replace (acc + Z.of_nat (length (tl (map Some c ++ [None]))) - 1)
        with (acc + (Z.of_nat (length c) - 1)).
      * rewrite IH by (rewrite <- Hshift; exact Hnd). f_equal. lia.
      * destruct c as [|l c]; cbn [map app tl length]; [lia|].
        rewrite length_app, length_map. cbn [length]. lia.
    + rewrite Hshift. apply IH. rewrite <- Hshift. exact Hnd.
Qed.

(** X3. On a directory (no name listed twice) [calculateSimulatedData]
    does not throw: it returns the sum, over the files whose name begins
    with the prefix and ends in [.csv], of their number of lines less
    one.  A file of that name without any line counts for [-1]. *)
Theorem simulated_data_sums_lines (d : directory) (prefix : string) :
  NoDup (readdirSync d) ->
  calculateSimulatedData d prefix = Return (Store.linesLessOne d prefix).
Proof.
  intros Hnd. unfold calculateSimulatedData, getCSVFiles.
  apply (simulatedData_fold prefix d [] 0). exact Hnd.
Qed.

Lemma simulated_data_sums_lines_witness :
  calculateSimulatedData
    [("source_simulation_1.csv"%string,
      [HeaderLine "simulation_id,price,percentage_change";
       PriceRow 1 50100 (PctNumber "+" 20); PriceRow 2 49900 (PctNumber EmptyString (-20))]);
     ("notes.txt"%string, [HeaderLine "n"; HeaderLine "m"]);
     ("source_simulation_2.csv"%string, [])]
    "source_simulation"
  = Return 1.
Proof.
  apply (simulated_data_sums_lines
           [("source_simulation_1.csv"%string,
             [HeaderLine "simulation_id,price,percentage_change";
              PriceRow 1 50100 (PctNumber "+" 20);
              PriceRow 2 49900 (PctNumber EmptyString (-20))]);
            ("notes.txt"%string, [HeaderLine "n"; HeaderLine "m"]);
            ("source_simulation_2.csv"%string, [])]
           "source_simulation").
  cbn. repeat constructor; cbn; intuition discriminate.
Defined.

End CsvFacts.

(** ** File names and their indices *)

Section IndexFacts.
Import Str Utils.

Lemma fileNameOf_indexed (prefix : string) (k : Z) :
  startsWith (Format.fileNameOf prefix k) (prefix ++ "_") = true /\
  endsWith (Format.fileNameOf prefix k) ".csv" = true.
Proof.
  unfold Format.fileNameOf. split.
  - rewrite <- append_assoc. apply startsWith_append.
  - rewrite <- !append_assoc. apply endsWith_append.
Qed.

Lemma to_int_negative (k : Z) :
  k < 0 -> exists d, Z.to_int k = Decimal.Neg d /\ d <> Decimal.Nil.
Proof.
  destruct k as [|p|p]; intros Hk; cbn; try lia.
  eexists. split; [reflexivity|apply DecimalPos.Unsigned.to_uint_nonnil].
Qed.

Lemma fileIndexOf_fileNameOf (prefix : string) (k : Z) :
  0 <= k -> fileIndexOf (Format.fileNameOf prefix k) = Return k.
Proof.
  intros Hk. destruct (to_int_nonneg k Hk) as [d [Hd Hnil]].
  unfold fileIndexOf, match_index, Format.fileNameOf, of_Z.
  rewrite Hd. cbn [NilEmpty.string_of_int].
  rewrite !chars_append, !rev_app_distr, <- !app_assoc, strip_app.
  change (rev (chars "_")) with ["_"%char]. cbn [app].
  rewrite span_digits_app.
  - destruct (rev (chars (NilEmpty.string_of_uint d))) as [|c ds] eqn:E.
    + apply (f_equal (@rev ascii)) in E. rewrite rev_involutive in E.
      now apply string_of_uint_nonempty in E.
    + rewrite <- E, rev_involutive. unfold chars.
      rewrite string_of_list_ascii_of_string. unfold parseInt_digits.
      rewrite NilEmpty.usu. f_equal.
      change (Z.of_N (N.of_uint d)) with (Z.of_int (Decimal.Pos d)).
      rewrite <- Hd. apply DecimalZ.of_to.
  - apply Forall_rev. apply string_of_uint_digits.
  - reflexivity.
Qed.

Lemma fileIndexOf_negative (prefix : string) (k : Z) :
  k < 0 -> fileIndexOf (Format.fileNameOf prefix k) = Throw TypeError.
Proof.
  intros Hk. destruct (to_int_negative k Hk) as [d [Hd Hnil]].
  unfold fileIndexOf, match_index, Format.fileNameOf, of_Z.
  rewrite Hd. cbn [NilEmpty.string_of_int].
  change (String "-" (NilEmpty.string_of_uint d))
    with ("-" ++ NilEmpty.string_of_uint d)%string.
  rewrite !chars_append, !rev_app_distr, <- !app_assoc, strip_app.
  change (rev (chars "-")) with ["-"%char]. cbn [app].
  rewrite span_digits_app.
  - now destruct (rev (chars (NilEmpty.string_of_uint d))).
  - apply Forall_rev. apply string_of_uint_digits.
  - reflexivity.
Qed.

(** X4. The name built from a prefix and an index is one that the
    index helpers keep.  When the index is not negative, it reads back
    from the name as the number the name was built from.  The name of a
    negative index is kept as well, but it has no index that the pattern
    matches, and reading it throws.  The raw-output files of the engine
    have names of this form. *)
Theorem file_index_reads_back (prefix : string) (k : Z) :
  indexedFiles [Format.fileNameOf prefix k] prefix = [Format.fileNameOf prefix k] /\
  fileIndexOf (Format.fileNameOf prefix k)
  = (if 0 <=? k then Return k else Throw TypeError) /\
  SynthBTC.rawFileName k = Format.fileNameOf SynthBTC.outputFileSources k.
Proof.
  split; [|split].
  - destruct (fileNameOf_indexed prefix k) as [Hs He].
    unfold indexedFiles. cbn [filter]. now rewrite Hs, He.
  - destruct (0 <=? k) eqn:E.
    + apply fileIndexOf_fileNameOf. lia.
    + apply fileIndexOf_negative. lia.
  - reflexivity.
Qed.

Lemma fileIndexOf_nonneg (file : string) (i : Z) :
  fileIndexOf file = Return i -> 0 <= i.
Proof.
  unfold fileIndexOf. destruct (match_index file); [|discriminate].
  intros H. injection H as <-. unfold parseInt_digits.
  destruct (NilEmpty.uint_of_string s); lia.
Qed.

Lemma fileIndices_in (files : list string) :
  forall (indices : list Z) (file : string) (i : Z),
    fileIndices files = Return indices ->
    In file files -> fileIndexOf file = Return i -> In i indices.
Proof.
  induction files as [|f files IH]; intros indices file i H Hin Hi; [destruct Hin|].
  cbn in H. destruct (fileIndexOf f) as [j|] eqn:Ej; [|discriminate].
  destruct (fileIndices files) as [rest|] eqn:Er; [|discriminate].
  injection H as <-. destruct Hin as [->|Hin].
  - left. congruence.
  - right. now apply (IH rest file i).
Qed.

Lemma fileIndices_nonneg (files : list string) :
  forall indices : list Z,
    fileIndices files = Return indices -> forall j, In j indices -> 0 <= j.
Proof.
  induction files as [|f files IH]; intros indices H j Hj; cbn in H.
  - injection H as <-. destruct Hj.
  - destruct (fileIndexOf f) as [i|] eqn:Ei; [|discriminate].
    destruct (fileIndices files) as [rest|] eqn:Er; [|discriminate].
    injection H as <-. destruct Hj as [<-|Hj].
    + now apply (fileIndexOf_nonneg f).
    + now apply (IH rest).
Qed.

(** X5. When every file of the listing that carries the prefix has an
    index, and the indices are below 2^53 (so that the numbers the code
    computes with are the integers themselves),
    [determineNextFileIndex] returns an index that is at least 1, at
    most 2^53 and greater than every index in use, and no file of the
    listing has the name built from it: the file of a new run never
    replaces one that is there. *)
Theorem next_file_index_is_fresh (files : list string) (prefix : string) (indices : list Z) :
  fileIndices (indexedFiles files prefix) = Return indices ->
  (forall j, In j indices -> j < 2 ^ 53) ->
  exists index,
    determineNextFileIndex files prefix = Return index /\
    1 <= index <= 2 ^ 53 /\
    (forall j, In j indices -> j < index) /\
    ~ In (Format.fileNameOf prefix index) files.
Proof.
  intros H Hbound. change (2 ^ 53) with 9007199254740992 in *.
  assert (Hfresh : forall index, 0 <= index -> (forall j, In j indices -> j < index) ->
                                 ~ In (Format.fileNameOf prefix index) files).
  { intros index H0 Hlt Hin. destruct (fileNameOf_indexed prefix index) as [Hs He].
    assert (Hin' : In (Format.fileNameOf prefix index) (indexedFiles files prefix)).
    { unfold indexedFiles. apply filter_In. split; [exact Hin|]. now rewrite Hs, He. }
    pose proof (fileIndices_in _ _ _ _ H Hin' (fileIndexOf_fileNameOf prefix index H0)) as Hi.
    apply Hlt in Hi. lia. }
  unfold determineNextFileIndex. rewrite H. destruct indices as [|i rest].
  - exists 1. split; [reflexivity|]. split; [lia|]. split; [intros j []|].
    apply Hfresh; [lia|intros j []].
  - destruct (Math_max_spec rest i) as [Hin Hmax]. cbn zeta in Hin, Hmax.
    pose proof (fileIndices_nonneg _ _ H _ Hin) as Hnn.
    assert (Hlt : forall j, In j (i :: rest) -> j < Math_max i rest + 1).
    { intros j Hj. apply Hmax in Hj. lia. }
    pose proof (Hbound _ Hin) as Hb.
    exists (Math_max i rest + 1). split; [reflexivity|]. split; [lia|].
    split; [exact Hlt|]. apply Hfresh; [lia|exact Hlt].
Qed.

Lemma next_file_index_is_fresh_witness :
  exists index,
    determineNextFileIndex
      ["source_simulation_3.csv"; "notes.txt"; "source_simulation_12.csv"]%string
      "source_simulation" = Return index /\
    1 <= index <= 2 ^ 53 /\
    (forall j, In j [3; 12] -> j < index) /\
    ~ In (Format.fileNameOf "source_simulation" index)
         ["source_simulation_3.csv"; "notes.txt"; "source_simulation_12.csv"]%string.
Proof.
  apply (next_file_index_is_fresh
           ["source_simulation_3.csv"; "notes.txt"; "source_simulation_12.csv"]%string
           "source_simulation" [3; 12]).
  - reflexivity.
  - intros j [<-|[<-|[]]]; reflexivity.
Defined.

End IndexFacts.

(** ** Every way a run can end *)

Section RunCases.
Import MonteCarloEngine SynthBTC Engine.

Lemma getSimulationData_cases (cfg : Config) (env : Env) (st : State) :
  match executeFullSimulation (fst (pricedState env st)) (totalSimulations cfg)
          (volatilityPercentage cfg / 100)%R (simulationDays cfg) (turbitPower cfg)
          (randomDraws env) with
  | Throw e => getSimulationData cfg env st = (Throw e, snd (pricedState env st))
  | Return (allPrices, _) =>
      match Utils.determineNextFileIndex (Fs.readdirSync (dataPrivateDir st))
                                         outputFileSources with
      | Throw e =>
          getSimulationData cfg env st
          = (Throw e,
             set_counters (simulatedData st + totalSimulations cfg)
                          (simulationCounter st + 1) (snd (pricedState env st)))
      | Return index =>
          getSimulationData cfg env st
          = (Return (fst (completedRun cfg env st allPrices index)),
             set_latestOutput (Some (fst (completedRun cfg env st allPrices index)))
                              (snd (completedRun cfg env st allPrices index)))
      end
  end.
Proof.
  destruct (executeFullSimulation _ _ _ _ _ _) as [[allPrices rest]|e] eqn:Hexec.
  - destruct (Utils.determineNextFileIndex _ _) as [index|e] eqn:Hidx.
    + now apply (getSimulationData_completes cfg env st allPrices rest index).
    + revert Hexec Hidx. keeps env st.
      unfold getSimulationData, generateSimulations. unfold pricedState in *.
      destruct (currentPriceBTC env (set_status "PROCESSING" st)) as [cp st2].
      cbn [fst snd] in *. intros -> Hidx.
      cbn [set_counters dataPrivateDir]. rewrite Hdata, Hidx, Hsd, Hsc. reflexivity.
  - now apply getSimulationData_throws.
Qed.

Lemma pricedState_price (env : Env) (st : State) :
  match PriceFetcher.getCurrentPrice (fetchCoinGecko env) (fetchEtherscan env) with
  | Return p =>
      fst (pricedState env st) = Some p /\
      lastKnownPrice (snd (pricedState env st)) = Some p /\
      connectionLost (snd (pricedState env st)) = false
  | Throw _ =>
      fst (pricedState env st) = lastKnownPrice st /\
      lastKnownPrice (snd (pricedState env st)) = lastKnownPrice st /\
      connectionLost (snd (pricedState env st)) = true
  end.
Proof.
  unfold pricedState, currentPriceBTC.
  destruct (PriceFetcher.getCurrentPrice _ _); cbn; repeat split.
Qed.

Lemma run_keeps_price (cfg : Config) (env : Env) (st : State)
    (r : outcome Output) (st' : State) :
  getSimulationData cfg env st = (r, st') ->
  lastKnownPrice st' = lastKnownPrice (snd (pricedState env st)) /\
  connectionLost st' = connectionLost (snd (pricedState env st)).
Proof.
  intros Hrun. pose proof (getSimulationData_cases cfg env st) as Hcases.
  assert (Hlast : lastKnownPrice (snd (pricedState env st)) = fst (pricedState env st)).
  { unfold pricedState, currentPriceBTC. now destruct (PriceFetcher.getCurrentPrice _ _). }
  destruct (executeFullSimulation _ _ _ _ _ _) as [[allPrices rest]|e].
  - destruct (Utils.determineNextFileIndex _ _) as [index|e].
    + rewrite Hcases in Hrun. injection Hrun as _ <-.
      destruct (completedRun_effects cfg env st allPrices index)
        as [_ [_ [_ [_ [_ [_ [_ [Hp [Hc _]]]]]]]]].
      cbn [set_latestOutput lastKnownPrice connectionLost].
      rewrite Hp, Hc, Hlast. now split.
    + rewrite Hcases in Hrun. injection Hrun as _ <-. now split.
  - rewrite Hcases in Hrun. injection Hrun as _ <-. now split.
Qed.

(** X6. Whatever a run does afterwards, and whether it returns or
    throws, it leaves the price it asked for behind.  When both feeds
    answered, the last known price is the mean of the two answers; when
    one feed answered, it is that answer; in both cases the connection
    is marked as up.  When both feeds failed the price fetcher throws
    its warning, which reads, colour codes included,
    [ESC[0m- ESC[31mWARNING ESC[0m | ESC[37mFailed to fetch BTC price
    from both sources. ESC[0m] without the spaces around the codes; then
    the last known price is the one from before, never erased, and the
    connection is marked as lost. *)
Theorem run_leaves_the_price_behind (cfg : Config) (env : Env) (st : State)
    (r : outcome Output) (st' : State) :
  getSimulationData cfg env st = (r, st') ->
  match fetchCoinGecko env, fetchEtherscan env with
  | Some a, Some b =>
      lastKnownPrice st' = Some ((a + b) / 2)%R /\ connectionLost st' = false
  | Some a, None => lastKnownPrice st' = Some a /\ connectionLost st' = false
  | None, Some b => lastKnownPrice st' = Some b /\ connectionLost st' = false
  | None, None =>
      PriceFetcher.getCurrentPrice (fetchCoinGecko env) (fetchEtherscan env)
      = Throw (Error (String "027" "[0m- " ++ String "027" "[31mWARNING"
                      ++ String "027" "[0m | "
                      ++ String "027" "[37mFailed to fetch BTC price from both sources."
                      ++ String "027" "[0m")%string) /\
      lastKnownPrice st' = lastKnownPrice st /\ connectionLost st' = true
  end.
Proof.
  intros Hrun. destruct (run_keeps_price cfg env st r st' Hrun) as [Hp Hc].
  pose proof (pricedState_price env st) as Hpriced.
  rewrite Hp, Hc. unfold PriceFetcher.getCurrentPrice in *.
  destruct (fetchCoinGecko env) as [g|], (fetchEtherscan env) as [e|];
    destruct Hpriced as [_ [H1 H2]].
  - now split.
  - now split.
  - now split.
  - split; [reflexivity|]. now split.
Qed.

(** X6 with both feeds down, and with the feeds at 50000 and 50200. *)
Lemma run_leaves_the_price_behind_witness :
  (PriceFetcher.getCurrentPrice None None
   = Throw (Error (String "027" "[0m- " ++ String "027" "[31mWARNING"
                   ++ String "027" "[0m | "
                   ++ String "027" "[37mFailed to fetch BTC price from both sources."
                   ++ String "027" "[0m")%string) /\
   lastKnownPrice
     (snd (getSimulationData (Scenario.request 1) (Scenario.feedsDown 2) Scenario.priced))
   = Some 50000%R /\
   connectionLost
     (snd (getSimulationData (Scenario.request 1) (Scenario.feedsDown 2) Scenario.priced))
   = true) /\
  (lastKnownPrice
     (snd (getSimulationData (Scenario.request 1)
             (mkEnv (Some 50000%R) (Some 50200%R) [/ 2; / 8]%R 1000 1250 1300)
             Scenario.boot))
   = Some ((50000 + 50200) / 2)%R /\
   connectionLost
     (snd (getSimulationData (Scenario.request 1)
             (mkEnv (Some 50000%R) (Some 50200%R) [/ 2; / 8]%R 1000 1250 1300)
             Scenario.boot))
   = false).
Proof.
  split.
  - apply (run_leaves_the_price_behind (Scenario.request 1) (Scenario.feedsDown 2)
             Scenario.priced
             (fst (getSimulationData (Scenario.request 1) (Scenario.feedsDown 2)
                                     Scenario.priced))).
    now destruct (getSimulationData _ _ _).
  - apply (run_leaves_the_price_behind (Scenario.request 1)
             (mkEnv (Some 50000%R) (Some 50200%R) [/ 2; / 8]%R 1000 1250 1300)
             Scenario.boot
             (fst (getSimulationData (Scenario.request 1)
                     (mkEnv (Some 50000%R) (Some 50200%R) [/ 2; / 8]%R 1000 1250 1300)
                     Scenario.boot))).
    now destruct (getSimulationData _ _ _).
Defined.

End RunCases.

(** ** The simulation as a whole *)

Section SimulationFacts.
Import MonteCarloEngine SynthBTC Engine.
Local Open Scope R_scope.

Lemma validateInputs_count (currentPrice : option R) (count count' : Z)
    (volatility : R) (days : Z) :
  (1 <= count)%Z -> (1 <= count')%Z ->
  validateInputs currentPrice count volatility days
  = validateInputs currentPrice count' volatility days.
Proof.
  intros H H'. unfold validateInputs.
  destruct (Rle_dec (ToNumber currentPrice) 0); [reflexivity|].
  replace (count <=? 0)%Z with false by (symmetry; apply Z.leb_gt; lia).
  replace (count' <=? 0)%Z with false by (symmetry; apply Z.leb_gt; lia).
  reflexivity.
Qed.

Lemma worker_app (price volatility : R) (days : Z) (a b : nat) :
  forall supply : list R,
    worker (a + b) price volatility days supply
    = match worker a price volatility days supply with
      | Throw e => Throw e
      | Return (first, supply1) =>
          match worker b price volatility days supply1 with
          | Throw e => Throw e
          | Return (second, supply2) => Return (first ++ second, supply2)
          end
      end.
Proof.
  induction a as [|a IH]; intros supply; cbn [Nat.add worker].
  - now destruct (worker b price volatility days supply) as [[second supply2]|e].
  - destruct (simulatePrice price volatility days supply) as [[p supply1]|e];
      [|reflexivity].
    rewrite IH. destruct (worker a price volatility days supply1) as [[first s1]|e];
      [|reflexivity].
    now destruct (worker b price volatility days s1) as [[second s2]|e].
Qed.

Lemma runBatches_worker (currentPrice : option R) (volatility : R) (days power : Z)
    (sizes : list Z) :
  validateInputs currentPrice 1 volatility days = Return tt ->
  (forall size, In size sizes -> (1 <= size)%Z) ->
  forall supply : list R,
    match runBatches sizes currentPrice volatility days power supply with
    | Return (batches, rest) => Return (concat batches, rest)
    | Throw e => Throw e
    end
    = worker (slotsOf sizes) (ToNumber currentPrice) volatility days supply.
Proof.
  intros Hvalid. induction sizes as [|size sizes IH]; intros Hsizes supply.
  - reflexivity.
  - cbn [runBatches slotsOf]. rewrite worker_app. unfold simulatePrices.
    assert (Hsize : (1 <= size)%Z) by (apply Hsizes; now left).
    rewrite (validateInputs_count currentPrice size 1 volatility days Hsize), Hvalid
      by lia.
    destruct (worker (Z.to_nat size) _ _ _ _) as [[first supply1]|e]; [|reflexivity].
    rewrite <- IH by (intros s Hs; apply Hsizes; now right).
    now destruct (runBatches sizes _ _ _ _ supply1) as [[batches rest]|e].
Qed.

(** X7. Cutting the work into batches of 5000 changes nothing that can
    be observed: for a count of one or more, [executeFullSimulation]
    returns or throws exactly what a single call of [simulatePrices] on
    the whole count does, on the same supply of draws; the prices, their
    order, the draws left over and the error are the same. *)
Theorem batching_is_transparent (currentPrice : option R) (count : Z)
    (volatility : R) (days power : Z) (supply : list R) :
  (1 <= count)%Z ->
  executeFullSimulation currentPrice count volatility days power supply
  = simulatePrices currentPrice count volatility days power supply.
Proof.
  intros Hcount. rewrite executeFullSimulation_runBatches. unfold simulatePrices.
  rewrite (validateInputs_count currentPrice count 1) by lia.
  destruct (validateInputs currentPrice 1 volatility days) as [[]|e] eqn:Hvalid.
  - rewrite runBatches_worker by (try exact Hvalid; apply batchSizes_positive; lia).
    now rewrite slotsOf_batchSizes_any.
  - pose proof (batchSizes_shape count Hcount) as Hshape. cbn zeta in Hshape.
    pose proof (batchSizes_positive count Hcount) as Hpos.
    destruct (batchSizes count) as [|size sizes].
    + now destruct (repeat 5000%Z _).
    + cbn [runBatches]. unfold simulatePrices.
      assert (Hsize : (1 <= size)%Z) by (apply Hpos; now left).
      rewrite (validateInputs_count currentPrice size 1 volatility days Hsize), Hvalid
        by lia.
      reflexivity.
Qed.

Lemma batching_is_transparent_witness :
  executeFullSimulation (Some 50000) 5001 (/ 5) 1 4 (repeat (/ 2) 7)
  = simulatePrices (Some 50000) 5001 (/ 5) 1 4 (repeat (/ 2) 7).
Proof. apply (batching_is_transparent (Some 50000) 5001 (/ 5) 1 4 (repeat (/ 2) 7)). lia. Defined.

(** X8. A count of zero or less is not an error of
    [executeFullSimulation]: no batch is run, so nothing is validated and
    no draw is taken; whatever the price, the volatility and the days,
    the call returns no price and the supply as it was. *)
Theorem empty_request_is_not_validated (currentPrice : option R) (count : Z)
    (volatility : R) (days power : Z) (supply : list R) :
  (count <= 0)%Z ->
  executeFullSimulation currentPrice count volatility days power supply
  = Return ([], supply) /\
  exists e,
    simulatePrices currentPrice count volatility days power supply = Throw e.
Proof.
  intros Hcount. split.
  - unfold executeFullSimulation.
    pose proof (Math_ceil_div_bounds count) as Hb.
    replace (Z.to_nat (Math_ceil_div count desiredBatchSize)) with O; [reflexivity|].
    unfold desiredBatchSize. lia.
  - unfold simulatePrices, validateInputs.
    destruct (Rle_dec (ToNumber currentPrice) 0); [eexists; reflexivity|].
    replace (count <=? 0)%Z with true by (symmetry; apply Z.leb_le; lia).
    eexists; reflexivity.
Qed.

Lemma empty_request_is_not_validated_witness :
  executeFullSimulation None 0 (-1) 0 4 [/ 2] = Return ([], [/ 2]) /\
  exists e, simulatePrices None 0 (-1) 0 4 [/ 2] = Throw e.
Proof. apply (empty_request_is_not_validated None 0 (-1) 0 4 [/ 2]). lia. Defined.

End SimulationFacts.

(** ** What a run that returns has written *)

Section ReturnedRunFacts.
Import MonteCarloEngine SynthBTC Engine.

Lemma returned_run (cfg : Config) (env : Env) (st : State) (out : Output) (st' : State) :
  getSimulationData cfg env st = (Return out, st') ->
  exists allPrices rest index,
    executeFullSimulation (fst (pricedState env st)) (totalSimulations cfg)
      (volatilityPercentage cfg / 100)%R (simulationDays cfg) (turbitPower cfg)
      (randomDraws env) = Return (allPrices, rest) /\
    Utils.determineNextFileIndex (Fs.readdirSync (dataPrivateDir st)) outputFileSources
    = Return index /\
    out = fst (completedRun cfg env st allPrices index) /\
    st' = set_latestOutput (Some out) (snd (completedRun cfg env st allPrices index)).
Proof.
  intros Hrun. pose proof (getSimulationData_cases cfg env st) as Hcases.
  destruct (executeFullSimulation _ _ _ _ _ _) as [[allPrices rest]|e].
  - destruct (Utils.determineNextFileIndex _ _) as [index|e].
    + rewrite Hcases in Hrun. injection Hrun as <- <-.
      exists allPrices, rest, index. repeat split.
    + rewrite Hcases in Hrun. discriminate.
  - rewrite Hcases in Hrun. discriminate.
Qed.

(** The output of a run and the entry it adds to the log, field by
    field. *)
Lemma completedRun_entry (cfg : Config) (env : Env) (st : State)
    (allPrices : list R) (index : Z) :
  let out := fst (completedRun cfg env st allPrices index) in
  let st' := snd (completedRun cfg env st allPrices index) in
  let cp := fst (pricedState env st) in
  out = mkOutput "OK"
          (getUpdatedOverview cp (Stats.highestPrice allPrices)
             (Stats.calculateTargetPrice allPrices) (Stats.averagePrice allPrices)
             (Stats.lowestPrice allPrices))
          (mkDetails (simulatedData st + totalSimulations cfg)
                     (clockEnd env - clockStart env) (simulationCounter st + 1)
                     (simulationDays cfg) (rawFileName index)) /\
  Fs.readFileSync (privateDir st') coreFileName
  = Some (match Fs.readFileSync (privateDir st) coreFileName with
          | Some t => t
          | None => logHeader
          end
          ++ [LogEntry
                (mkRunSummary (simulationCounter st + 1) (clockLog env)
                   (Math_round (ToNumber cp))
                   (Math_round_nan (Stats.highestPrice allPrices))
                   (Math_round_nan (Stats.calculateTargetPrice allPrices))
                   (Math_round_nan (Stats.averagePrice allPrices))
                   (Math_round_nan (Stats.lowestPrice allPrices))
                   (totalSimulations cfg) (simulatedData st + totalSimulations cfg)
                   (clockEnd env - clockStart env) (rawFileName index))]).
Proof.
  keeps env st. unfold completedRun.
  destruct (pricedState env st) as [cp st2]. cbn [fst snd] in *.
  unfold persistRun.
  cbn [fst snd set_status set_dirs set_fileIndex set_counters status details
       simulationStatus simulationCounter simulatedData
       fileIndex latestOutput lastKnownPrice connectionLost dataPrivateDir privateDir].
  rewrite Hsd, Hsc, Hpriv. split; [reflexivity|].
  unfold Fs.existsSync, CSVHandler.writeCSV, CSVHandler.appendCSV.
  destruct (Fs.readFileSync (privateDir st) coreFileName) as [t|] eqn:E; cbn [negb].
  - now rewrite readFileSync_appendFileSync, E.
  - now rewrite readFileSync_appendFileSync, readFileSync_writeFileSync.
Qed.

Lemma entries_logHeader : entries logHeader = [].
Proof. reflexivity. Qed.

(** X10. The object that a run returns and the row that it adds to the
    run log say the same: the row is added last, and its run id,
    cumulative count, processing time, file name, current price and four
    statistics are those of the returned object, whose status is OK and
    which is the one kept as the latest output.  The field
    [totalSimulations] of the details is the id of the run, not a number
    of simulations; the count asked for is in the row only. *)
Theorem output_agrees_with_log_row (cfg : Config) (env : Env) (st : State)
    (out : Output) (st' : State) :
  getSimulationData cfg env st = (Return out, st') ->
  status out = "OK"%string /\ latestOutput st' = Some out /\
  details_totalSimulationDays (details out) = simulationDays cfg /\
  exists e,
    runLog st' = runLog st ++ [e] /\
    simulation_id e = details_totalSimulations (details out) /\
    simulation_id e = simulationCounter st + 1 /\
    total_simulated e = details_simulatedData (details out) /\
    processing_time e = details_processingTime (details out) /\
    data_source e = details_dataSource (details out) /\
    current_price e = current (overview out) /\
    highest_price e = view_price (highest (overview out)) /\
    target_price e = view_price (target (overview out)) /\
    average_price e = view_price (average (overview out)) /\
    lowest_price e = view_price (lowest (overview out)) /\
    simulated_data e = totalSimulations cfg /\
    timestamp e = clockLog env.
Proof.
  intros Hrun.
  destruct (returned_run cfg env st out st' Hrun)
    as [allPrices [rest [index [_ [_ [Hout Hst]]]]]].
  destruct (completedRun_entry cfg env st allPrices index) as [Hshape Hcore].
  cbn zeta in Hshape, Hcore. rewrite <- Hout in Hshape.
  split; [now rewrite Hshape|]. split; [now rewrite Hst|].
  split; [now rewrite Hshape|].
  eexists. split.
  - rewrite Hst, runLog_set_latestOutput. unfold runLog. rewrite Hcore.
    rewrite entries_app. destruct (Fs.readFileSync (privateDir st) coreFileName).
    + reflexivity.
    + reflexivity.
  - rewrite Hshape. cbn. repeat split.
Qed.

Lemma firstRun_returns :
  exists out st',
    getSimulationData (Scenario.request 1) (Scenario.feedsUp 2) Scenario.boot
    = (Return out, st').
Proof.
  destruct (getSimulationData_returns (Scenario.request 1) (Scenario.feedsUp 2)
              Scenario.boot 1) as [allPrices [_ Hrun]].
  - cbn. lra.
  - cbn. lia.
  - cbn. lra.
  - cbn. lia.
  - cbn [Scenario.feedsUp randomDraws]. rewrite nonzero_halves, repeat_length.
    cbn. lia.
  - reflexivity.
  - eexists. eexists. exact Hrun.
Qed.

Lemma output_agrees_with_log_row_witness :
  exists out st',
    getSimulationData (Scenario.request 1) (Scenario.feedsUp 2) Scenario.boot
    = (Return out, st') /\
    status out = "OK"%string /\ latestOutput st' = Some out /\
    details_totalSimulationDays (details out) = simulationDays (Scenario.request 1) /\
    exists e,
      runLog st' = runLog Scenario.boot ++ [e] /\
      simulation_id e = details_totalSimulations (details out) /\
      simulation_id e = simulationCounter Scenario.boot + 1 /\
      total_simulated e = details_simulatedData (details out) /\
      processing_time e = details_processingTime (details out) /\
      data_source e = details_dataSource (details out) /\
      current_price e = current (overview out) /\
      highest_price e = view_price (highest (overview out)) /\
      target_price e = view_price (target (overview out)) /\
      average_price e = view_price (average (overview out)) /\
      lowest_price e = view_price (lowest (overview out)) /\
      simulated_data e = totalSimulations (Scenario.request 1) /\
      timestamp e = clockLog (Scenario.feedsUp 2).
Proof.
  destruct firstRun_returns as [out [st' Hrun]].
  exists out, st'. split; [exact Hrun|].
  apply (output_agrees_with_log_row (Scenario.request 1) (Scenario.feedsUp 2)
           Scenario.boot out st' Hrun).
Defined.

Lemma rowCells_app (a b : text) :
  Store.rowCells (a ++ b) = Store.rowCells a ++ Store.rowCells b.
Proof.
  induction a as [|[h|id p c|e] a IH]; cbn; [reflexivity| | |]; now rewrite ?IH.
Qed.

Lemma rowCells_mapi (currentPrice : option R) (l : list R) :
  forall start : Z,
    Store.rowCells
      (js_mapi (fun price index =>
                  PriceRow (index + 1) (Math_round price)
                           (Utils.calculateChangePercentage (Some price) currentPrice))
               start l)
    = map (fun p => (Math_round p, Utils.calculateChangePercentage (Some p) currentPrice)) l.
Proof.
  induction l as [|x l IH]; intros start; [reflexivity|].
  cbn [js_mapi Store.rowCells map]. now rewrite IH.
Qed.

Lemma slice_app {A : Type} (l : list A) (a b c : nat) :
  (a <= b)%nat -> (b <= c)%nat ->
  skipn a (firstn b l) ++ skipn b (firstn c l) = skipn a (firstn c l).
Proof.
  intros Hab Hbc.
  rewrite <- (firstn_skipn b (firstn c l)) at 2.
  rewrite firstn_firstn, Nat.min_l by exact Hbc.
  rewrite skipn_app. f_equal.
  rewrite length_firstn.
  destruct (Nat.le_gt_cases b (length l)) as [Hl|Hl].
  - replace (a - Nat.min b (length l))%nat with O by lia. reflexivity.
  - rewrite (skipn_all2 (n := b)) by (rewrite length_firstn; lia).
    now rewrite skipn_nil.
Qed.

Lemma js_slice_app {A : Type} (l : list A) (a b c : Z) :
  0 <= a <= b -> b <= c ->
  js_slice l a b ++ js_slice l b c = js_slice l a c.
Proof. intros Hab Hbc. unfold js_slice. apply slice_app; lia. Qed.

Lemma rowCells_chunks (currentPrice : option R) (allPrices : list R) (n : nat) :
  forall i : Z,
    0 <= i ->
    Store.rowCells (chunksText n i allPrices currentPrice)
    = map (fun p => (Math_round p, Utils.calculateChangePercentage (Some p) currentPrice))
          (js_slice allPrices (i * 5000) ((i + Z.of_nat n) * 5000)).
Proof.
  induction n as [|n IH]; intros i Hi.
  - cbn [chunksText Store.rowCells]. unfold js_slice.
    rewrite skipn_all2; [reflexivity|]. rewrite length_firstn. lia.
  - cbn [chunksText]. rewrite rowCells_app. unfold chunkRows at 1. rewrite rowCells_mapi.
    rewrite IH by lia. rewrite <- map_app. f_equal.
    replace ((i + Z.of_nat (S n)) * 5000) with ((i + 1 + Z.of_nat n) * 5000) by lia.
    apply js_slice_app; lia.
Qed.

Lemma rawFile_cells (currentPrice : option R) (allPrices : list R) (count : Z) :
  length allPrices = Z.to_nat count ->
  Store.rowCells (chunksText (Z.to_nat (Math_ceil_div count 5000)) 0 allPrices currentPrice)
  = map (fun p => (Math_round p, Utils.calculateChangePercentage (Some p) currentPrice))
        allPrices.
Proof.
  intros Hlen. pose proof (Math_ceil_div_bounds count) as Hb.
  rewrite rowCells_chunks by lia. f_equal.
  unfold js_slice. change (Z.to_nat (0 * 5000)) with O. cbn [skipn].
  apply firstn_all2. lia.
Qed.

Lemma chunksText_all_cells (n : nat) (allPrices : list R) (currentPrice : option R) :
  forall i : Z,
    length (chunksText n i allPrices currentPrice)
    = length (Store.rowCells (chunksText n i allPrices currentPrice)).
Proof.
  induction n as [|n IH]; intros i; [reflexivity|].
  cbn [chunksText]. rewrite rowCells_app, !length_app, IH. f_equal.
  unfold chunkRows. rewrite rowCells_mapi, length_map. apply length_js_mapi.
Qed.

Lemma returned_run_prices (cfg : Config) (env : Env) (st : State)
    (out : Output) (st' : State) :
  getSimulationData cfg env st = (Return out, st') ->
  exists (allPrices rest : list R) (rows : list Line),
    executeFullSimulation (lastKnownPrice st') (totalSimulations cfg)
      (volatilityPercentage cfg / 100)%R (simulationDays cfg) (turbitPower cfg)
      (randomDraws env)
    = Return (allPrices, rest) /\
    length allPrices = Z.to_nat (totalSimulations cfg) /\
    Fs.readFileSync (dataPrivateDir st') (details_dataSource (details out))
    = Some (csvHeader ++ rows) /\
    length rows = length allPrices /\
    Store.rowCells rows
    = map (fun p => (Math_round p,
                     Utils.calculateChangePercentage (Some p) (lastKnownPrice st')))
          allPrices /\
    overview out
    = getUpdatedOverview (lastKnownPrice st') (Stats.highestPrice allPrices)
        (Stats.calculateTargetPrice allPrices) (Stats.averagePrice allPrices)
        (Stats.lowestPrice allPrices).
Proof.
  intros Hrun.
  destruct (returned_run cfg env st out st' Hrun)
    as [allPrices [rest [index [Hexec [_ [Hout Hst]]]]]].
  destruct (completedRun_entry cfg env st allPrices index) as [Hshape _].
  cbn zeta in Hshape. rewrite <- Hout in Hshape.
  destruct (completedRun_effects cfg env st allPrices index)
    as [_ [_ [_ [_ [_ [_ [_ [Hprice _]]]]]]]].
  pose proof (executeFullSimulation_returns_length _ _ _ _ _ _ _ _ Hexec) as Hlen.
  assert (Hcp : lastKnownPrice st' = fst (pricedState env st)) by now rewrite Hst.
  assert (Hfile : Fs.readFileSync (dataPrivateDir st') (rawFileName index)
                  = Some (csvHeader
                          ++ chunksText (Z.to_nat (Math_ceil_div (totalSimulations cfg) 5000))
                               0 allPrices (fst (pricedState env st)))).
  { rewrite Hst. cbn [set_latestOutput dataPrivateDir]. unfold completedRun.
    destruct (pricedState env st) as [cp st2]. cbn [fst]. apply persistRun_rawFile. }
  exists allPrices, rest,
    (chunksText (Z.to_nat (Math_ceil_div (totalSimulations cfg) 5000)) 0 allPrices
                (fst (pricedState env st))).
  pose proof (rawFile_cells (fst (pricedState env st)) allPrices _ Hlen) as Hcells.
  split; [rewrite Hcp; exact Hexec|].
  split; [exact Hlen|].
  split; [rewrite Hshape; exact Hfile|].
  split; [now rewrite chunksText_all_cells, Hcells, length_map|].
  split; [rewrite Hcp; exact Hcells|]. now rewrite Hshape, Hcp.
Qed.

Lemma largeRun_returns :
  exists out st',
    getSimulationData (Scenario.request 5001) (Scenario.feedsUp (Z.to_nat 10002))
                      Scenario.boot
    = (Return out, st').
Proof.
  destruct (getSimulationData_returns (Scenario.request 5001)
              (Scenario.feedsUp (Z.to_nat 10002)) Scenario.boot 1)
    as [allPrices [_ Hrun]].
  - cbn. lra.
  - cbn. lia.
  - cbn. lra.
  - cbn. lia.
  - cbn [Scenario.feedsUp randomDraws]. rewrite nonzero_halves, repeat_length.
    cbn [Scenario.request totalSimulations simulationDays]. lia.
  - reflexivity.
  - eexists. eexists. exact Hrun.
Qed.

(** X11. The raw-output file of a run that returns holds, after its
    header, one row for each simulated price and nothing else.  The
    prices are those that [executeFullSimulation] returned for the
    request, from the price that the run left as last known price and
    the draws of the run; the rows carry these prices, rounded, in the
    order in which the simulation produced them, each with its change
    against that price.  No price is lost, repeated or moved by the
    writing in chunks of 5000, and the overview returned is the summary
    of these very prices. *)
Theorem raw_file_holds_the_prices (cfg : Config) (env : Env) (st : State)
    (out : Output) (st' : State) :
  getSimulationData cfg env st = (Return out, st') ->
  exists (allPrices rest : list R) (rows : list Line),
    executeFullSimulation (lastKnownPrice st') (totalSimulations cfg)
      (volatilityPercentage cfg / 100)%R (simulationDays cfg) (turbitPower cfg)
      (randomDraws env)
    = Return (allPrices, rest) /\
    length allPrices = Z.to_nat (totalSimulations cfg) /\
    Fs.readFileSync (dataPrivateDir st') (details_dataSource (details out))
    = Some (csvHeader ++ rows) /\
    length rows = length allPrices /\
    Store.rowCells rows
    = map (fun p => (Math_round p,
                     Utils.calculateChangePercentage (Some p) (lastKnownPrice st')))
          allPrices /\
    overview out
    = getUpdatedOverview (lastKnownPrice st') (Stats.highestPrice allPrices)
        (Stats.calculateTargetPrice allPrices) (Stats.averagePrice allPrices)
        (Stats.lowestPrice allPrices).
Proof. apply returned_run_prices. Qed.

(** X11 on a run of 5001 simulations, written in two chunks. *)
Lemma raw_file_holds_the_prices_witness :
  exists out st',
    getSimulationData (Scenario.request 5001) (Scenario.feedsUp (Z.to_nat 10002))
                      Scenario.boot
    = (Return out, st') /\
    exists (allPrices rest : list R) (rows : list Line),
      executeFullSimulation (lastKnownPrice st') 5001 (20 / 100)%R 1 4
        (repeat (/ 2)%R (Z.to_nat 10002))
      = Return (allPrices, rest) /\
      length allPrices = Z.to_nat 5001 /\
      Fs.readFileSync (dataPrivateDir st') (details_dataSource (details out))
      = Some (csvHeader ++ rows) /\
      length rows = length allPrices /\
      Store.rowCells rows
      = map (fun p => (Math_round p,
                       Utils.calculateChangePercentage (Some p) (lastKnownPrice st')))
            allPrices /\
      overview out
      = getUpdatedOverview (lastKnownPrice st') (Stats.highestPrice allPrices)
          (Stats.calculateTargetPrice allPrices) (Stats.averagePrice allPrices)
          (Stats.lowestPrice allPrices).
Proof.
  destruct largeRun_returns as [out [st' Hrun]].
  exists out, st'. split; [exact Hrun|].
  apply (raw_file_holds_the_prices (Scenario.request 5001)
           (Scenario.feedsUp (Z.to_nat 10002)) Scenario.boot out st' Hrun).
Defined.

(** X13. A request for no simulation at all is served as a run: when
    the count is zero (or less), nothing is validated, so the run
    returns with status OK whatever the price (even none), the
    volatility and the days are.  It takes a run id, adds a row to the
    log and creates a raw-output file that holds the header only; the
    four statistics are not numbers, and are shown as [NaN]. *)
Theorem empty_run_is_recorded (cfg : Config) (env : Env) (st : State) (index : Z) :
  totalSimulations cfg <= 0 ->
  Utils.determineNextFileIndex (Fs.readdirSync (dataPrivateDir st)) outputFileSources
  = Return index ->
  exists out st' e,
    getSimulationData cfg env st = (Return out, st') /\
    status out = "OK"%string /\
    simulationCounter st' = simulationCounter st + 1 /\
    runLog st' = runLog st ++ [e] /\
    simulation_id e = simulationCounter st + 1 /\
    highest_price e = None /\ target_price e = None /\
    average_price e = None /\ lowest_price e = None /\
    highest (overview out) = mkPriceView None PctNaN /\
    target (overview out) = mkPriceView None PctNaN /\
    average (overview out) = mkPriceView None PctNaN /\
    lowest (overview out) = mkPriceView None PctNaN /\
    Fs.readFileSync (dataPrivateDir st') (rawFileName index) = Some csvHeader.
Proof.
  intros Hcount Hidx.
  assert (Hexec : executeFullSimulation (fst (pricedState env st)) (totalSimulations cfg)
                    (volatilityPercentage cfg / 100)%R (simulationDays cfg)
                    (turbitPower cfg) (randomDraws env)
                  = Return ([], randomDraws env)).
  { unfold executeFullSimulation.
    pose proof (Math_ceil_div_bounds (totalSimulations cfg)) as Hb.
    replace (Z.to_nat (Math_ceil_div (totalSimulations cfg) desiredBatchSize)) with O;
      [reflexivity|]. unfold desiredBatchSize. lia. }
  pose proof (getSimulationData_completes cfg env st [] (randomDraws env) index Hexec Hidx)
    as Hrun.
  destruct (completedRun_entry cfg env st [] index) as [Hshape Hcore].
  cbn zeta in Hshape, Hcore.
  destruct (completedRun_effects cfg env st [] index)
    as [_ [_ [_ [Hsc _]]]].
  eexists. eexists. eexists. split; [exact Hrun|].
  split; [now rewrite Hshape|]. split; [exact Hsc|].
  split.
  { rewrite runLog_set_latestOutput. unfold runLog. rewrite Hcore, entries_app.
    destruct (Fs.readFileSync (privateDir st) coreFileName); reflexivity. }
  rewrite Hshape. cbn [simulation_id highest_price target_price average_price lowest_price
                       overview highest target average lowest getUpdatedOverview
                       Stats.highestPrice Stats.lowestPrice Stats.averagePrice
                       Stats.calculateTargetPrice Math_round_nan option_map
                       Utils.calculateChangePercentage].
  repeat (split; [reflexivity|]).
  cbn [set_latestOutput dataPrivateDir]. unfold completedRun.
  destruct (pricedState env st) as [cp st2]. cbn [fst].
  rewrite persistRun_rawFile.
  pose proof (Math_ceil_div_bounds (totalSimulations cfg)) as Hb.
  replace (Z.to_nat (Math_ceil_div (totalSimulations cfg) 5000)) with O by lia.
  reflexivity.
Qed.

Lemma empty_run_is_recorded_witness :
  exists out st' e,
    getSimulationData (mkConfig 0 (-1) 0 4) (Scenario.feedsDown 0) Scenario.boot
    = (Return out, st') /\
    status out = "OK"%string /\
    simulationCounter st' = simulationCounter Scenario.boot + 1 /\
    runLog st' = runLog Scenario.boot ++ [e] /\
    simulation_id e = simulationCounter Scenario.boot + 1 /\
    highest_price e = None /\ target_price e = None /\
    average_price e = None /\ lowest_price e = None /\
    highest (overview out) = mkPriceView None PctNaN /\
    target (overview out) = mkPriceView None PctNaN /\
    average (overview out) = mkPriceView None PctNaN /\
    lowest (overview out) = mkPriceView None PctNaN /\
    Fs.readFileSync (dataPrivateDir st') (rawFileName 1) = Some csvHeader.
Proof.
  apply (empty_run_is_recorded (mkConfig 0 (-1) 0 4) (Scenario.feedsDown 0)
           Scenario.boot 1); [cbn; lia|reflexivity].
Defined.

End ReturnedRunFacts.

(** ** The store of an engine that has served runs *)

Section StoreFacts.
Import MonteCarloEngine SynthBTC Engine.

Lemma consecutive_max (log : list RunSummary) :
  forall id cumulative : Z,
    consecutive id cumulative log ->
    fold_left Z.max (map simulation_id log) id
    = fst (fold_left (fun _ e => (simulation_id e, total_simulated e)) log
                     (id, cumulative)).
Proof.
  induction log as [|e log IH]; intros id cumulative H; [reflexivity|].
  destruct H as [Hid [_ Hrest]]. cbn [map fold_left].
  replace (Z.max id (simulation_id e)) with (simulation_id e) by lia.
  now apply IH.
Qed.

Lemma consecutive_length (log : list RunSummary) :
  forall id cumulative : Z,
    consecutive id cumulative log ->
    fst (fold_left (fun _ e => (simulation_id e, total_simulated e)) log
                   (id, cumulative))
    = id + Z.of_nat (length log).
Proof.
  induction log as [|e log IH]; intros id cumulative H; cbn [fold_left length fst].
  - lia.
  - destruct H as [Hid [_ Hrest]]. rewrite (IH _ _ Hrest). lia.
Qed.

Lemma consecutive_nth (log : list RunSummary) :
  forall (id cumulative : Z) (k : nat) (e : RunSummary),
    consecutive id cumulative log ->
    nth_error log k = Some e -> simulation_id e = id + Z.of_nat k + 1.
Proof.
  induction log as [|e0 log IH]; intros id cumulative k e H Hk.
  - destruct k; discriminate.
  - destruct H as [Hid [_ Hrest]]. destruct k as [|k]; cbn in Hk.
    + injection Hk as <-. lia.
    + rewrite (IH _ _ k e Hrest Hk). lia.
Qed.

Lemma fileIndices_rawFileName (ks : list Z) :
  (forall k, In k ks -> 0 <= k) ->
  Utils.fileIndices (map rawFileName ks) = Return ks.
Proof.
  induction ks as [|k ks IH]; intros H; [reflexivity|].
  cbn [map Utils.fileIndices].
  rewrite fileIndexOf_rawFileName by (apply H; now left).
  rewrite IH by (intros j Hj; apply H; now right). reflexivity.
Qed.

(** The counter of a consistent state is the number of entries of its
    log, and the entry at position [k] is the run [k + 1]. *)
Lemma consistent_counter (st : State) :
  consistent st ->
  simulationCounter st = Z.of_nat (length (runLog st)) /\
  forall k e, nth_error (runLog st) k = Some e -> simulation_id e = Z.of_nat k + 1.
Proof.
  intros [Hlog [Hend _]]. split.
  - pose proof (consecutive_length _ _ _ Hlog) as H. fold (endOf (runLog st)) in H.
    rewrite Hend in H. cbn [fst] in H. lia.
  - intros k e Hk. rewrite (consecutive_nth _ _ _ _ _ Hlog Hk). lia.
Qed.

Lemma filed_names (st : State) :
  consistent st -> Store.filed st ->
  Fs.readdirSync (dataPrivateDir st) = map rawFileName (map simulation_id (runLog st)) /\
  forall k, In k (map simulation_id (runLog st)) -> 0 <= k.
Proof.
  intros Hcons [Hnames Hfiles]. split.
  - rewrite Hnames, map_map. apply map_ext_in. intros e He. now apply Hfiles.
  - intros k Hk. apply in_map_iff in Hk. destruct Hk as [e [<- He]].
    apply In_nth_error in He. destruct He as [n Hn].
    destruct (consistent_counter st Hcons) as [_ Hnth]. rewrite (Hnth n e Hn). lia.
Qed.

(** The greatest index in use is the run counter. *)
Lemma filed_indices (st : State) :
  consistent st -> Store.filed st ->
  Utils.indexedFiles (Fs.readdirSync (dataPrivateDir st)) outputFileSources
  = Fs.readdirSync (dataPrivateDir st) /\
  Utils.fileIndices (Fs.readdirSync (dataPrivateDir st))
  = Return (map simulation_id (runLog st)) /\
  match map simulation_id (runLog st) with
  | [] => simulationCounter st = 0
  | i :: rest => Utils.Math_max i rest = simulationCounter st
  end.
Proof.
  intros Hcons Hfiled. destruct (filed_names st Hcons Hfiled) as [Hnames Hnn].
  pose proof Hcons as [Hlog [Hend [Hnamed _]]].
  split; [apply (wellNamed_indexedFiles _ Hnamed)|].
  split; [rewrite Hnames; now apply fileIndices_rawFileName|].
  unfold endOf in Hend. destruct (runLog st) as [|e log].
  - cbn in Hend. congruence.
  - cbn [map]. destruct Hlog as [_ [_ Hrest]]. unfold Utils.Math_max.
    rewrite (consecutive_max _ _ _ Hrest). cbn [fold_left] in Hend. now rewrite Hend.
Qed.

Lemma filed_next_index (st : State) :
  consistent st -> Store.filed st ->
  Utils.determineNextFileIndex (Fs.readdirSync (dataPrivateDir st)) outputFileSources
  = Return (simulationCounter st + 1).
Proof.
  intros Hcons Hfiled. destruct (filed_indices st Hcons Hfiled) as [Hind [Hidx Hmax]].
  unfold Utils.determineNextFileIndex. rewrite Hind, Hidx.
  destruct (map simulation_id (runLog st)); now rewrite Hmax.
Qed.

Lemma filed_last_index (st : State) :
  consistent st -> Store.filed st ->
  Utils.getLastFileIndex (Fs.readdirSync (dataPrivateDir st)) outputFileSources
  = Return (if simulationCounter st =? 0 then 0 else simulationCounter st + 1).
Proof.
  intros Hcons Hfiled. destruct (filed_indices st Hcons Hfiled) as [Hind [Hidx Hmax]].
  destruct (filed_names st Hcons Hfiled) as [Hnames Hnn].
  destruct (consistent_counter st Hcons) as [Hcount _].
  unfold Utils.getLastFileIndex. rewrite Hind, Hidx. rewrite Hnames.
  destruct (runLog st) as [|e log]; cbn [map length] in *.
  - now rewrite Hmax.
  - rewrite Hmax. replace (simulationCounter st =? 0) with false; [reflexivity|].
    symmetry. apply Z.eqb_neq. lia.
Qed.

Lemma fresh_index (st : State) :
  consistent st -> Store.filed st ->
  ~ In (rawFileName (simulationCounter st + 1)) (Fs.readdirSync (dataPrivateDir st)).
Proof.
  intros Hcons Hfiled. pose proof Hcons as [_ [_ [Hnamed _]]].
  destruct (determineNextFileIndex_wellNamed _ Hnamed) as [index [Hidx [_ Hfresh]]].
  rewrite (filed_next_index st Hcons Hfiled) in Hidx. now injection Hidx as <-.
Qed.

Lemma shapedLog_run (cfg : Config) (env : Env) (st : State) (allPrices : list R)
    (index : Z) :
  Store.shapedLog st ->
  Store.shapedLog (snd (completedRun cfg env st allPrices index)).
Proof.
  unfold Store.shapedLog, runLog.
  destruct (completedRun_entry cfg env st allPrices index) as [_ Hcore].
  cbn zeta in Hcore. rewrite Hcore. intros Hshape.
  destruct (Fs.readFileSync (privateDir st) coreFileName) as [t|].
  - destruct Hshape as [_ ->]. rewrite entries_app. split.
    + intros H. apply app_eq_nil in H. destruct H as [_ H]. discriminate.
    + rewrite <- app_assoc. f_equal. rewrite entries_app, map_app. f_equal.
      cbn [entries app map]. f_equal.
      assert (Hent : forall l, entries (map LogEntry l) = l)
        by (induction l as [|x l IH]; cbn; congruence).
      now rewrite Hent.
  - split; [discriminate|reflexivity].
Qed.

Lemma filed_run (cfg : Config) (env : Env) (st : State) (allPrices : list R) :
  consistent st -> Store.filed st ->
  0 <= totalSimulations cfg ->
  length allPrices = Z.to_nat (totalSimulations cfg) ->
  Store.filed (snd (completedRun cfg env st allPrices (simulationCounter st + 1))).
Proof.
  intros Hcons Hfiled Hcount Hlen.
  pose proof (fresh_index st Hcons Hfiled) as Hfresh.
  pose proof (completedRun_dataDir cfg env st allPrices _ Hfresh) as Hdir.
  destruct (completedRun_effects cfg env st allPrices (simulationCounter st + 1))
    as [_ [_ [_ [_ [_ [_ [_ [_ [_ [_ [e [Hlog [Hid [Hown [_ [_ Hsrc]]]]]]]]]]]]]]]].
  destruct Hfiled as [Hnames Hfiles]. unfold Store.filed.
  rewrite Hlog, Hdir. split.
  - unfold Fs.readdirSync in *. rewrite !map_app, Hnames. cbn [map fst].
    now rewrite Hsrc.
  - intros e' He'. apply in_app_iff in He'. destruct He' as [He'|[<-|[]]].
    + destruct (Hfiles e' He') as [Hname [rows [Hread Hrows]]].
      split; [exact Hname|]. exists rows. split; [|exact Hrows].
      rewrite readFileSync_app_present; [exact Hread|].
      rewrite Hnames. now apply in_map.
    + split; [now rewrite Hsrc, Hid|].
      eexists. split; [rewrite Hsrc; now apply readFileSync_app_absent|].
      rewrite <- chunksText_all_rows. split; [reflexivity|].
      rewrite chunksText_all_rows.
      pose proof (rawFile_rows (fst (pricedState env st)) allPrices) as Hrows.
      cbn zeta in Hrows. destruct Hrows as [Hrows _].
      rewrite rowIds_app in Hrows. cbn [csvHeader rowIds app] in Hrows.
      replace (Z.of_nat (length allPrices)) with (totalSimulations cfg) in Hrows by lia.
      rewrite Hrows, Hown. lia.
Qed.

(** What holds of every state the engine reaches. *)
Lemma reachable_store (st : State) :
  reachable st -> consistent st /\ Store.shapedLog st /\ Store.filed st.
Proof.
  induction 1 as [st Hboot|cfg env st r st' Hreach IH Hc Hrun|st st' Hreach IH Hinit].
  - cbn in Hboot. injection Hboot as <-. split; [apply consistent_boot|].
    split; [exact I|]. split; [reflexivity|]. intros e [].
  - destruct IH as [Hcons [Hshape Hfiled]].
    split; [now apply (consistent_run cfg env st r st')|].
    pose proof (getSimulationData_cases cfg env st) as Hcases.
    rewrite (filed_next_index st Hcons Hfiled) in Hcases.
    keeps env st.
    destruct (executeFullSimulation _ _ _ _ _ _) as [[allPrices rest]|e] eqn:Hexec.
    + rewrite Hcases in Hrun. injection Hrun as _ <-.
      pose proof (executeFullSimulation_returns_length _ _ _ _ _ _ _ _ Hexec) as Hlen.
      split.
      * apply (shapedLog_run cfg env st allPrices (simulationCounter st + 1)) in Hshape.
        exact Hshape.
      * pose proof (filed_run cfg env st allPrices Hcons Hfiled Hc Hlen) as H.
        unfold Store.filed in *. rewrite runLog_set_latestOutput. exact H.
    + rewrite Hcases in Hrun. injection Hrun as _ <-.
      unfold Store.shapedLog, Store.filed, runLog in *. rewrite Hpriv, Hdata.
      now split.
  - destruct IH as [Hcons [Hshape Hfiled]].
    split; [now apply (consistent_restart st st')|].
    unfold init in Hinit.
    destruct (Utils.getLastFileIndex _ _) as [index|]; [|discriminate].
    destruct (CSVHandler.calculateSimulatedData _ _) as [total|]; [|discriminate].
    injection Hinit as <-. now split.
Qed.

Lemma reachable_afterFirstRun : reachable Scenario.afterFirstRun.
Proof.
  apply (reach_run (Scenario.request 1) (Scenario.feedsUp 2) Scenario.boot
                   (fst (getSimulationData (Scenario.request 1) (Scenario.feedsUp 2)
                                           Scenario.boot))).
  - apply reach_boot. reflexivity.
  - cbn. lia.
  - unfold Scenario.afterFirstRun. apply surjective_pairing.
Qed.

Lemma core_file_counter (st : State) :
  consistent st -> Store.shapedLog st ->
  Fs.readFileSync (privateDir st) coreFileName
  = if simulationCounter st =? 0 then None
    else Some (logHeader ++ map LogEntry (runLog st)).
Proof.
  intros Hcons Hshape. destruct (consistent_counter st Hcons) as [Hcount _].
  unfold Store.shapedLog in Hshape. unfold runLog in *.
  destruct (Fs.readFileSync (privateDir st) coreFileName) as [t|].
  - destruct Hshape as [Hne Ht].
    replace (simulationCounter st =? 0) with false; [now f_equal|].
    symmetry. apply Z.eqb_neq. destruct (entries _); [congruence|]. cbn [length] in Hcount.
    lia.
  - cbn [length] in Hcount. now rewrite Hcount.
Qed.

(** X14. On every state that the engine reaches, the listing of the
    simulations is the run log: before the first run that returns there
    is no log file and the answer is the error 500 [Core log file does
    not exist.]; from then on the answer lists one record for each run
    that returned, in the order of the runs, and the record at position
    [k] is the one of run [k + 1].  The run counter is the number of
    records. *)
Theorem simulations_listing_is_the_log (st : State) :
  reachable st ->
  Routes.getSimulations st
  = (if simulationCounter st =? 0
     then Routes.ListingError (Error "Core log file does not exist.")
     else Routes.Simulations (map LogEntry (runLog st))) /\
  Z.of_nat (length (runLog st)) = simulationCounter st /\
  forall k e, nth_error (runLog st) k = Some e -> simulation_id e = Z.of_nat k + 1.
Proof.
  intros Hreach. destruct (reachable_store st Hreach) as [Hcons [Hshape _]].
  destruct (consistent_counter st Hcons) as [Hcount Hnth].
  split; [|split; [now rewrite Hcount|exact Hnth]].
  pose proof (core_file_counter st Hcons Hshape) as Hcore.
  unfold Routes.getSimulations, CSVHandler.readCoreSimulations, Fs.existsSync.
  rewrite Hcore. now destruct (simulationCounter st =? 0).
Qed.

Lemma simulations_listing_is_the_log_witness :
  Routes.getSimulations Scenario.afterFirstRun
  = (if simulationCounter Scenario.afterFirstRun =? 0
     then Routes.ListingError (Error "Core log file does not exist.")
     else Routes.Simulations (map LogEntry (runLog Scenario.afterFirstRun))) /\
  Z.of_nat (length (runLog Scenario.afterFirstRun))
  = simulationCounter Scenario.afterFirstRun /\
  forall k e, nth_error (runLog Scenario.afterFirstRun) k = Some e ->
              simulation_id e = Z.of_nat k + 1.
Proof.
  apply (simulations_listing_is_the_log Scenario.afterFirstRun).
  apply (reach_run (Scenario.request 1) (Scenario.feedsUp 2) Scenario.boot
                   (fst (getSimulationData (Scenario.request 1) (Scenario.feedsUp 2)
                                           Scenario.boot))).
  - apply reach_boot. reflexivity.
  - cbn. lia.
  - unfold Scenario.afterFirstRun. apply surjective_pairing.
Defined.

Lemma Forall2_map {A B : Type} (P : A -> B -> Prop) (f : A -> B) (l : list A) :
  (forall a, P a (f a)) -> Forall2 P l (map f l).
Proof. intros H. induction l as [|a l IH]; cbn; constructor; auto. Qed.

(** X16. On every state that the engine reaches, the run log and the
    raw-output directory tell the same story: the directory lists
    exactly the files that the rows of the log name, each once (the
    order of the listing left aside); the file of a row is named after
    the run id of the row; it exists, begins with the header, and holds
    after it as many price rows as the row counts simulations, and no
    other line. *)
Theorem log_rows_name_their_files (st : State) :
  reachable st ->
  Permutation (Fs.readdirSync (dataPrivateDir st)) (map data_source (runLog st)) /\
  forall e, In e (runLog st) ->
    data_source e = rawFileName (simulation_id e) /\
    exists rows,
      CSVHandler.readCSV (dataPrivateDir st) (data_source e) = Some (csvHeader ++ rows) /\
      length (rowIds rows) = length rows /\
      Z.of_nat (length rows) = simulated_data e.
Proof.
  intros Hreach. destruct (reachable_store st Hreach) as [_ [_ [Hnames Hfiles]]].
  split; [now rewrite Hnames|]. intros e He. rewrite readCSV_read. now apply Hfiles.
Qed.

(** X17. A restart on what the engine has written never fails, and it
    finds the counters again: the run counter and the cumulative count
    of the new process are those of the old one, and the log is
    untouched.  The file index is the run counter plus one, or 0 when no
    run has returned yet.  What lived in memory only is gone: the new
    process knows no price and has no cached output. *)
Theorem restart_restores_the_counters (st : State) :
  reachable st ->
  exists st',
    init (privateDir st) (dataPrivateDir st) = Return st' /\
    simulationCounter st' = simulationCounter st /\
    simulatedData st' = simulatedData st /\
    fileIndex st' = (if simulationCounter st =? 0 then 0 else simulationCounter st + 1) /\
    runLog st' = runLog st /\
    dataPrivateDir st' = dataPrivateDir st /\
    lastKnownPrice st' = None /\ connectionLost st' = false /\
    latestOutput st' = None /\ simulationStatus st' = "OK"%string.
Proof.
  intros Hreach. destruct (reachable_store st Hreach) as [Hcons [_ Hfiled]].
  pose proof (filed_last_index st Hcons Hfiled) as Hlast.
  destruct Hcons as [_ [_ [_ [Hcount Hcalc]]]].
  unfold init. rewrite Hlast, Hcalc, Hcount. eexists. split; [reflexivity|].
  cbn. repeat split.
Qed.

Lemma restart_restores_the_counters_witness :
  exists st',
    init (privateDir Scenario.afterFirstRun) (dataPrivateDir Scenario.afterFirstRun)
    = Return st' /\
    simulationCounter st' = simulationCounter Scenario.afterFirstRun /\
    simulatedData st' = simulatedData Scenario.afterFirstRun /\
    fileIndex st' = (if simulationCounter Scenario.afterFirstRun =? 0 then 0
                     else simulationCounter Scenario.afterFirstRun + 1) /\
    runLog st' = runLog Scenario.afterFirstRun /\
    dataPrivateDir st' = dataPrivateDir Scenario.afterFirstRun /\
    lastKnownPrice st' = None /\ connectionLost st' = false /\
    latestOutput st' = None /\ simulationStatus st' = "OK"%string.
Proof.
  apply (restart_restores_the_counters Scenario.afterFirstRun).
  apply (reach_run (Scenario.request 1) (Scenario.feedsUp 2) Scenario.boot
                   (fst (getSimulationData (Scenario.request 1) (Scenario.feedsUp 2)
                                           Scenario.boot))).
  - apply reach_boot. reflexivity.
  - cbn. lia.
  - unfold Scenario.afterFirstRun. apply surjective_pairing.
Defined.

(** X18. On every state that the engine reaches, a valid request that
    has a positive price and enough draws always returns: the file index
    never throws on the engine's own files.  The run takes the id after
    the run counter, its raw-output file is named after this id, and no
    file of that name existed, so that no earlier file is written
    over: after the run the directory lists this file and those it
    listed before (the order of the listing left aside). *)
Theorem valid_request_always_completes (cfg : Config) (env : Env) (st : State) :
  reachable st ->
  (0 < ToNumber (fst (pricedState env st)))%R ->
  1 <= totalSimulations cfg ->
  (0 < volatilityPercentage cfg)%R ->
  1 <= simulationDays cfg ->
  (Z.to_nat (totalSimulations cfg) * (2 * Z.to_nat (simulationDays cfg))
   <= length (nonzero (randomDraws env)))%nat ->
  exists out st',
    getSimulationData cfg env st = (Return out, st') /\
    status out = "OK"%string /\
    details_totalSimulations (details out) = simulationCounter st + 1 /\
    details_dataSource (details out) = rawFileName (simulationCounter st + 1) /\
    ~ In (details_dataSource (details out)) (Fs.readdirSync (dataPrivateDir st)) /\
    Permutation (Fs.readdirSync (dataPrivateDir st'))
                (details_dataSource (details out) :: Fs.readdirSync (dataPrivateDir st)) /\
    simulationCounter st' = simulationCounter st + 1 /\
    fileIndex st' = simulationCounter st'.
Proof.
  intros Hreach Hprice Hcount Hvol Hdays Hdraws.
  destruct (reachable_store st Hreach) as [Hcons [_ Hfiled]].
  pose proof (filed_next_index st Hcons Hfiled) as Hidx.
  pose proof (fresh_index st Hcons Hfiled) as Hfresh.
  destruct (getSimulationData_returns cfg env st _ Hprice Hcount Hvol Hdays Hdraws Hidx)
    as [allPrices [_ Hrun]].
  destruct (completedRun_entry cfg env st allPrices (simulationCounter st + 1))
    as [Hshape _]. cbn zeta in Hshape.
  destruct (completedRun_effects cfg env st allPrices (simulationCounter st + 1))
    as [_ [_ [_ [Hsc [_ [Hfi _]]]]]].
  pose proof (completedRun_dataDir cfg env st allPrices _ Hfresh) as Hdir.
  eexists. eexists. split; [exact Hrun|].
  cbn [set_latestOutput dataPrivateDir simulationCounter fileIndex].
  rewrite Hdir, Hsc, Hfi. rewrite Hshape. cbn [status details details_totalSimulations
                                               details_dataSource].
  split; [reflexivity|]. split; [reflexivity|]. split; [reflexivity|].
  split; [exact Hfresh|]. split; [|now split].
  unfold Fs.readdirSync. rewrite map_app. cbn [map fst].
  apply Permutation_sym, Permutation_cons_append.
Qed.

Lemma valid_request_always_completes_witness :
  exists out st',
    getSimulationData (Scenario.request 3) (Scenario.feedsDown 6) Scenario.afterFirstRun
    = (Return out, st') /\
    status out = "OK"%string /\
    details_totalSimulations (details out) = simulationCounter Scenario.afterFirstRun + 1 /\
    details_dataSource (details out)
    = rawFileName (simulationCounter Scenario.afterFirstRun + 1) /\
    ~ In (details_dataSource (details out))
         (Fs.readdirSync (dataPrivateDir Scenario.afterFirstRun)) /\
    Permutation (Fs.readdirSync (dataPrivateDir st'))
                (details_dataSource (details out)
                 :: Fs.readdirSync (dataPrivateDir Scenario.afterFirstRun)) /\
    simulationCounter st' = simulationCounter Scenario.afterFirstRun + 1 /\
    fileIndex st' = simulationCounter st'.
Proof.
  destruct afterFirstRun_state as [Hlast _].
  apply (valid_request_always_completes (Scenario.request 3) (Scenario.feedsDown 6)
           Scenario.afterFirstRun).
  - apply (reach_run (Scenario.request 1) (Scenario.feedsUp 2) Scenario.boot
                     (fst (getSimulationData (Scenario.request 1) (Scenario.feedsUp 2)
                                             Scenario.boot))).
    + apply reach_boot. reflexivity.
    + cbn. lia.
    + unfold Scenario.afterFirstRun. apply surjective_pairing.
  - destruct (pricedState_feedsDown (Scenario.feedsDown 6) Scenario.afterFirstRun
                eq_refl eq_refl) as [Hp _].
    rewrite Hp, Hlast. cbn. lra.
  - cbn. lia.
  - cbn. lra.
  - cbn. lia.
  - cbn [Scenario.feedsDown randomDraws]. rewrite nonzero_halves, repeat_length.
    cbn. lia.
Defined.

End StoreFacts.

(** ** One id in the path *)

Section IdFacts.
Import Str SynthBTC Engine.

Lemma span_digits_all (ds : list ascii) :
  Forall (fun a => is_digit a = true) ds -> span_digits ds = (ds, []).
Proof.
  intros H. induction H as [|a ds Ha _ IH]; cbn; [reflexivity|]. now rewrite Ha, IH.
Qed.

Lemma split_chars_digits (ds cur : list ascii) :
  Forall (fun a => is_digit a = true) ds ->
  split_chars "," ds cur = [string_of_list_ascii (rev cur ++ ds)].
Proof.
  intros H. revert cur. induction H as [|a ds Ha _ IH]; intros cur; cbn [split_chars].
  - now rewrite app_nil_r.
  - assert (Hne : Ascii.eqb a "," = false).
    { destruct (Ascii.eqb a ",") eqn:E; [|reflexivity].
      apply Ascii.eqb_eq in E. subst a. discriminate. }
    rewrite Hne, IH. cbn [rev]. now rewrite <- app_assoc.
Qed.

Lemma digit_first (a : ascii) (l : list ascii) :
  is_digit a = true ->
  skip_spaces (a :: l) = a :: l /\
  match a :: l with
  | "-"%char :: l' => (true, l')
  | "+"%char :: l' => (false, l')
  | _ => (false, a :: l)
  end = (false, a :: l).
Proof.
  intros Ha. split.
  - cbn [skip_spaces]. replace (is_space a) with false; [reflexivity|].
    unfold is_digit in Ha. unfold is_space.
    apply andb_true_iff in Ha. destruct Ha as [H1 H2].
    apply Nat.leb_le in H1. apply Nat.leb_le in H2.
    symmetry. apply orb_false_iff. split; [apply orb_false_iff; split|].
    + apply Nat.eqb_neq. lia.
    + apply andb_false_iff. right. apply Nat.leb_gt. lia.
    + apply Nat.eqb_neq. lia.
  - destruct a as [[] [] [] [] [] [] [] []]; try reflexivity; discriminate.
Qed.

Lemma parseInt_of_Z (k : Z) : 0 <= k -> parseInt (of_Z k) = Some k.
Proof.
  intros Hk. destruct (to_int_nonneg k Hk) as [d [Hd Hnil]].
  unfold parseInt, of_Z. rewrite Hd. cbn [NilEmpty.string_of_int].
  pose proof (string_of_uint_digits d) as Hdigits.
  pose proof (string_of_uint_nonempty d Hnil) as Hne.
  destruct (chars (NilEmpty.string_of_uint d)) as [|a l] eqn:E; [congruence|].
  assert (Ha : is_digit a = true) by now inversion Hdigits.
  destruct (digit_first a l Ha) as [Hskip Hsign]. rewrite Hskip, Hsign.
  rewrite span_digits_all by exact Hdigits. cbn [fst].
  rewrite <- E. unfold chars. rewrite string_of_list_ascii_of_string.
  unfold parseInt_digits. rewrite NilEmpty.usu. f_equal.
  change (Z.of_N (N.of_uint d)) with (Z.of_int (Decimal.Pos d)).
  rewrite <- Hd. apply DecimalZ.of_to.
Qed.

Lemma requestedIds_of_Z (k : Z) : 0 <= k -> APICore.requestedIds (of_Z k) = [Some k].
Proof.
  intros Hk. unfold APICore.requestedIds, split.
  assert (Hdigits : Forall (fun a => is_digit a = true) (chars (of_Z k))).
  { destruct (to_int_nonneg k Hk) as [d [Hd _]]. unfold of_Z. rewrite Hd.
    apply string_of_uint_digits. }
  rewrite split_chars_digits by exact Hdigits. cbn [rev app map].
  unfold chars. rewrite string_of_list_ascii_of_string. now rewrite parseInt_of_Z.
Qed.

(** X19. The path that carries a single id serves that run.  On every
    state that the engine reaches, the query for the printed id [k] of a
    run that returned, from 1 to the run counter, is answered with one
    record, the one of run [k], which names the raw-output file of index
    [k]; that file exists and holds as many price rows as the record
    counts simulations.  The printed id of no run, 0 or one beyond the
    counter, is answered with the entry [not available]. *)
Theorem run_is_served_under_its_id (st : State) (k : Z) :
  reachable st ->
  1 <= simulationCounter st ->
  0 <= k ->
  if (1 <=? k) && (k <=? simulationCounter st)
  then
    exists e rows,
      APICore.getSimulationsByIds st (of_Z k) = APICore.Json [APICore.Found (LogEntry e)] /\
      simulation_id e = k /\
      data_source e = rawFileName k /\
      CSVHandler.readCSV (dataPrivateDir st) (rawFileName k) = Some (csvHeader ++ rows) /\
      Z.of_nat (length rows) = simulated_data e
  else
    APICore.getSimulationsByIds st (of_Z k)
    = APICore.Json [APICore.NotAvailable (Some k)].
Proof.
  intros Hreach Hruns Hk.
  destruct (reachable_store st Hreach) as [Hcons [Hshape [_ Hfiles]]].
  destruct (consistent_counter st Hcons) as [Hcount Hnth].
  pose proof (core_file_counter st Hcons Hshape) as Hcore.
  replace (simulationCounter st =? 0) with false in Hcore
    by (symmetry; apply Z.eqb_neq; lia).
  assert (Hanswer : APICore.getSimulationsByIds st (of_Z k)
                    = APICore.Json [APICore.selectById (map LogEntry (runLog st))
                                                       (Some k)]).
  { unfold APICore.getSimulationsByIds, CSVHandler.readCoreSimulations, Fs.existsSync.
    rewrite Hcore, requestedIds_of_Z by exact Hk. reflexivity. }
  assert (Hl : Z.of_nat (length (map LogEntry (runLog st))) = simulationCounter st)
    by (rewrite length_map; lia).
  rewrite Hanswer.
  destruct ((1 <=? k) && (k <=? simulationCounter st)) eqn:Hin.
  - apply andb_true_iff in Hin. destruct Hin as [H1 H2].
    apply Z.leb_le in H1. apply Z.leb_le in H2.
    destruct (selectById_in_range (map LogEntry (runLog st)) k ltac:(lia))
      as [record [Hrec Hsel]].
    rewrite nth_error_map in Hrec.
    destruct (nth_error (runLog st) (Z.to_nat (k - 1))) as [e|] eqn:He; [|discriminate].
    injection Hrec as <-.
    assert (Hid : simulation_id e = k) by (rewrite (Hnth _ _ He); lia).
    destruct (Hfiles e (nth_error_In _ _ He)) as [Hname [rows [Hread [_ Hrows]]]].
    rewrite Hid in Hname. exists e, rows. rewrite Hsel.
    split; [reflexivity|]. split; [exact Hid|]. split; [exact Hname|].
    split; [|exact Hrows]. rewrite readCSV_read, <- Hname. exact Hread.
  - rewrite selectById_out_of_range; [reflexivity|]. apply andb_false_iff in Hin.
    destruct Hin as [H|H]; apply Z.leb_gt in H; lia.
Qed.

Lemma run_is_served_under_its_id_witness :
  if (1 <=? 1) && (1 <=? simulationCounter Scenario.afterFirstRun)
  then
    exists e rows,
      APICore.getSimulationsByIds Scenario.afterFirstRun (of_Z 1)
      = APICore.Json [APICore.Found (LogEntry e)] /\
      simulation_id e = 1 /\
      data_source e = rawFileName 1 /\
      CSVHandler.readCSV (dataPrivateDir Scenario.afterFirstRun) (rawFileName 1)
      = Some (csvHeader ++ rows) /\
      Z.of_nat (length rows) = simulated_data e
  else
    APICore.getSimulationsByIds Scenario.afterFirstRun (of_Z 1)
    = APICore.Json [APICore.NotAvailable (Some 1)].
Proof.
  destruct afterFirstRun_state as [_ [Hsc _]].
  apply (run_is_served_under_its_id Scenario.afterFirstRun 1).
  - apply (reach_run (Scenario.request 1) (Scenario.feedsUp 2) Scenario.boot
                     (fst (getSimulationData (Scenario.request 1) (Scenario.feedsUp 2)
                                             Scenario.boot))).
    + apply reach_boot. reflexivity.
    + cbn. lia.
    + unfold Scenario.afterFirstRun. apply surjective_pairing.
  - rewrite Hsc. lia.
  - lia.
Defined.

End IdFacts.

(** ** The overview that is served *)

Section OverviewFacts.
Import MonteCarloEngine SynthBTC Engine.

(** X20. The overview endpoint starts a run only when nothing is
    cached.  With an output in the cache it sends that output again,
    with its numbers as they are and the status set to the current
    status of the engine, and it touches neither the counters nor the
    files.  With an empty cache it performs exactly one run: when the
    run returns, its output is sent as it is and stays cached; when the
    run throws, the error is sent with status 500 and the cache stays
    empty, so that the next call runs again. *)
Theorem overview_runs_only_without_cache (cfg : Config) (env : Env)
    (now serverStartTime : Z) (st : State) :
  match latestOutput st with
  | Some cached =>
      exists body st',
        Routes.getOverview cfg env now serverStartTime st
        = (Routes.OverviewJson body
             (Format.defineExecutionTime now serverStartTime), st') /\
        status body = simulationStatus st /\
        overview body = overview cached /\ details body = details cached /\
        latestOutput st' = Some body /\
        simulationCounter st' = simulationCounter st /\
        simulatedData st' = simulatedData st /\
        simulationStatus st' = simulationStatus st /\
        lastKnownPrice st' = lastKnownPrice st /\
        privateDir st' = privateDir st /\ dataPrivateDir st' = dataPrivateDir st
  | None =>
      match getSimulationData cfg env st with
      | (Return out, st') =>
          Routes.getOverview cfg env now serverStartTime st
          = (Routes.OverviewJson out (Format.defineExecutionTime now serverStartTime),
             st') /\
          latestOutput st' = Some out /\ status out = "OK"%string
      | (Throw e, st') =>
          Routes.getOverview cfg env now serverStartTime st
          = (Routes.OverviewError e, st') /\
          latestOutput st' = None
      end
  end.
Proof.
  unfold Routes.getOverview.
  destruct (latestOutput st) as [cached|] eqn:Hcache.
  - eexists. eexists. split; [reflexivity|]. cbn. repeat split.
  - pose proof (getSimulationData_cases cfg env st) as Hcases. keeps env st.
    destruct (executeFullSimulation _ _ _ _ _ _) as [[allPrices rest]|e].
    + destruct (Utils.determineNextFileIndex _ _) as [index|e].
      * rewrite Hcases.
        destruct (completedRun_effects cfg env st allPrices index)
          as [Hst [_ [Hss _]]].
        unfold Routes.serve, Routes.restamp.
        cbn [set_latestOutput simulationStatus latestOutput].
        rewrite Hss, <- Hst.
        destruct (fst (completedRun cfg env st allPrices index)) as [s o d].
        cbn [status overview details]. now split.
      * rewrite Hcases. split; [reflexivity|]. cbn [set_counters latestOutput].
        congruence.
    + rewrite Hcases. split; [reflexivity|]. congruence.
Qed.

(** X21. A request that is rejected leaves its mark on the overview:
    the overview that is served afterwards is the one of the last run
    that returned, number for number, but with the status PROCESSING,
    and serving it starts no run. *)
Theorem rejected_request_shows_in_overview (cfg cfg' : Config) (env env' : Env)
    (now serverStartTime : Z) (st : State) (cached : Output) :
  latestOutput st = Some cached ->
  1 <= totalSimulations cfg ->
  (ToNumber (fst (pricedState env st)) <= 0)%R \/
  (volatilityPercentage cfg <= 0)%R \/ simulationDays cfg <= 0 ->
  exists message st1 body st2,
    getSimulationData cfg env st = (Throw (Error message), st1) /\
    Routes.getOverview cfg' env' now serverStartTime st1
    = (Routes.OverviewJson body (Format.defineExecutionTime now serverStartTime), st2) /\
    status body = "PROCESSING"%string /\
    overview body = overview cached /\ details body = details cached /\
    simulationStatus st2 = "PROCESSING"%string /\
    runLog st2 = runLog st /\
    simulationCounter st2 = simulationCounter st /\
    dataPrivateDir st2 = dataPrivateDir st.
Proof.
  intros Hcache Hcount Hbad.
  destruct (getSimulationData_rejects cfg env st Hcount Hbad) as [message [Hrun _]].
  keeps env st.
  exists message, (snd (pricedState env st)).
  unfold Routes.getOverview. rewrite Hlo, Hcache.
  eexists. eexists. split; [exact Hrun|]. split; [reflexivity|].
  unfold Routes.restamp. cbn [status overview details set_latestOutput simulationStatus
                              simulationCounter dataPrivateDir].
  rewrite runLog_set_latestOutput. unfold runLog. rewrite Hpriv.
  repeat (split; [assumption || reflexivity|]). assumption.
Qed.

Lemma rejected_request_shows_in_overview_witness :
  exists cached message st1 body st2,
    latestOutput Scenario.afterFirstRun = Some cached /\
    getSimulationData (mkConfig 10 0 1 4) (Scenario.feedsUp 20) Scenario.afterFirstRun
    = (Throw (Error message), st1) /\
    Routes.getOverview (Scenario.request 1) (Scenario.feedsUp 2) 5000 1000 st1
    = (Routes.OverviewJson body (Format.defineExecutionTime 5000 1000), st2) /\
    status body = "PROCESSING"%string /\
    overview body = overview cached /\ details body = details cached /\
    simulationStatus st2 = "PROCESSING"%string /\
    runLog st2 = runLog Scenario.afterFirstRun /\
    simulationCounter st2 = simulationCounter Scenario.afterFirstRun /\
    dataPrivateDir st2 = dataPrivateDir Scenario.afterFirstRun.
Proof.
  destruct afterFirstRun_state as [_ [_ [_ [_ [cached [Hcache _]]]]]].
  exists cached.
  destruct (rejected_request_shows_in_overview
              (mkConfig 10 0 1 4) (Scenario.request 1)
              (Scenario.feedsUp 20) (Scenario.feedsUp 2) 5000 1000
              Scenario.afterFirstRun cached Hcache)
    as [message [st1 [body [st2 H]]]].
  - cbn. lia.
  - right. left. cbn. lra.
  - exists message, st1, body, st2. split; [exact Hcache|exact H].
Defined.

End OverviewFacts.

(** ** Sizes and times as they are shown *)

Section FormatFacts.
Import Format.

Lemma Math_floor_js_rem (a k m : Z) :
  0 <= a -> 0 < k -> 0 < m ->
  Math_floor (js_rem (IZR a / IZR k) (IZR m)) = (a / k) mod m.
Proof.
  intros Ha Hk Hm. unfold Math_floor, js_rem, truncate.
  assert (Hkr : (0 < IZR k)%R) by (apply IZR_lt; lia).
  assert (Hmr : (0 < IZR m)%R) by (apply IZR_lt; lia).
  assert (Har : (0 <= IZR a)%R) by (apply IZR_le; lia).
  assert (Hq : (IZR a / IZR k / IZR m = IZR a / IZR (k * m))%R)
    by (rewrite mult_IZR; field; lra).
  destruct (Rle_dec 0 (IZR a / IZR k / IZR m)) as [_|Hneg].
  - rewrite Hq, Int_part_IZR_div by lia. rewrite <- mult_IZR, Int_part_minus_IZR.
    rewrite Int_part_IZR_div by lia. rewrite Z.mod_eq by lia.
    rewrite Z.div_div by lia. reflexivity.
  - exfalso. apply Hneg. apply Rmult_le_pos; [apply Rmult_le_pos; [exact Har|]|];
      left; now apply Rinv_0_lt_compat.
Qed.

Lemma elapsedParts_whole (elapsed : Z) :
  0 <= elapsed ->
  elapsedParts elapsed
  = (elapsed / 86400000, (elapsed / 3600000) mod 24,
     (elapsed / 60000) mod 60, (elapsed / 1000) mod 60).
Proof.
  intros He. unfold elapsedParts. rewrite <- !mult_IZR.
  rewrite !Math_floor_js_rem by lia.
  unfold Math_floor. rewrite Int_part_IZR_div by lia. reflexivity.
Qed.

Lemma pad_length (n : Z) : 0 <= n < 100 -> String.length (pad n) = 2%nat.
Proof.
  intros Hn.
  assert (Hall : forallb (fun k => Nat.eqb (String.length (pad (Z.of_nat k))) 2)
                         (seq 0 100) = true) by (vm_compute; reflexivity).
  rewrite forallb_forall in Hall.
  specialize (Hall (Z.to_nat n)). rewrite Z2Nat.id in Hall by lia.
  apply Nat.eqb_eq. apply Hall. apply in_seq. lia.
Qed.

Lemma length_append (a b : string) :
  String.length (a ++ b) = (String.length a + String.length b)%nat.
Proof. induction a as [|c a IH]; cbn; [reflexivity|]. now rewrite IH. Qed.

(** X22. For a start time that is not in the future,
    [defineExecutionTime] splits the elapsed time, in whole seconds,
    into days, hours, minutes and seconds: the hours are below 24, the
    minutes and the seconds below 60, none is negative, and together
    they make up the number of whole seconds elapsed, the milliseconds
    beyond being dropped.  The text shows the four numbers on two digits
    each, so it has 11 characters as long as fewer than 100 days have
    elapsed; the days are never cut. *)
Theorem execution_time_counts_whole_seconds (now startTime : Z) :
  startTime <= now ->
  exists days hours minutes seconds,
    elapsedParts (now - startTime) = (days, hours, minutes, seconds) /\
    0 <= days /\ 0 <= hours < 24 /\ 0 <= minutes < 60 /\ 0 <= seconds < 60 /\
    ((days * 24 + hours) * 60 + minutes) * 60 + seconds = (now - startTime) / 1000 /\
    defineExecutionTime now startTime
    = (pad days ++ ":" ++ pad hours ++ ":" ++ pad minutes ++ ":" ++ pad seconds)%string /\
    (now - startTime < 8640000000 ->
     String.length (defineExecutionTime now startTime) = 11%nat).
Proof.
  intros Hnow. set (elapsed := now - startTime).
  assert (He : 0 <= elapsed) by (unfold elapsed; lia).
  pose proof (elapsedParts_whole elapsed He) as Hparts.
  exists (elapsed / 86400000), ((elapsed / 3600000) mod 24),
    ((elapsed / 60000) mod 60), ((elapsed / 1000) mod 60).
  split; [exact Hparts|].
  pose proof (Z.mod_pos_bound (elapsed / 3600000) 24 ltac:(lia)) as Hh.
  pose proof (Z.mod_pos_bound (elapsed / 60000) 60 ltac:(lia)) as Hm.
  pose proof (Z.mod_pos_bound (elapsed / 1000) 60 ltac:(lia)) as Hs.
  assert (Hd : 0 <= elapsed / 86400000) by (apply Z.div_pos; lia).
  split; [exact Hd|]. split; [exact Hh|]. split; [exact Hm|]. split; [exact Hs|].
  split.
  - replace (elapsed / 86400000) with (elapsed / 1000 / 60 / 60 / 24)
      by (rewrite !Z.div_div by lia; reflexivity).
    replace (elapsed / 3600000) with (elapsed / 1000 / 60 / 60)
      by (rewrite !Z.div_div by lia; reflexivity).
    replace (elapsed / 60000) with (elapsed / 1000 / 60)
      by (rewrite !Z.div_div by lia; reflexivity).
    pose proof (Z.div_mod (elapsed / 1000) 60 ltac:(lia)).
    pose proof (Z.div_mod (elapsed / 1000 / 60) 60 ltac:(lia)).
    pose proof (Z.div_mod (elapsed / 1000 / 60 / 60) 24 ltac:(lia)).
    lia.
  - assert (Htext : defineExecutionTime now startTime
                    = (pad (elapsed / 86400000) ++ ":" ++ pad ((elapsed / 3600000) mod 24)
                       ++ ":" ++ pad ((elapsed / 60000) mod 60) ++ ":"
                       ++ pad ((elapsed / 1000) mod 60))%string).
    { unfold defineExecutionTime. fold elapsed. now rewrite Hparts. }
    split; [exact Htext|]. intros Hshort. rewrite Htext.
    assert (Hd' : elapsed / 86400000 < 100)
      by (apply Z.div_lt_upper_bound; lia).
    rewrite !length_append, !pad_length by lia. reflexivity.
Qed.

Lemma execution_time_counts_whole_seconds_witness :
  exists days hours minutes seconds,
    elapsedParts (1700090061999 - 1700000000000) = (days, hours, minutes, seconds) /\
    0 <= days /\ 0 <= hours < 24 /\ 0 <= minutes < 60 /\ 0 <= seconds < 60 /\
    ((days * 24 + hours) * 60 + minutes) * 60 + seconds
    = (1700090061999 - 1700000000000) / 1000 /\
    defineExecutionTime 1700090061999 1700000000000
    = (pad days ++ ":" ++ pad hours ++ ":" ++ pad minutes ++ ":" ++ pad seconds)%string /\
    (1700090061999 - 1700000000000 < 8640000000 ->
     String.length (defineExecutionTime 1700090061999 1700000000000) = 11%nat).
Proof. apply (execution_time_counts_whole_seconds 1700090061999 1700000000000). lia. Defined.

Example defineExecutionTime_example :
  defineExecutionTime 1700090061999 1700000000000 = "01:01:01:01"%string.
Proof.
  unfold defineExecutionTime. rewrite elapsedParts_whole by lia. reflexivity.
Qed.

Lemma toFixed2_ratio (bytes d : Z) :
  0 <= bytes -> 0 < d ->
  Utils.toFixed2 (IZR bytes / IZR d) = (200 * bytes + d) / (2 * d).
Proof.
  intros Hb Hd. unfold Utils.toFixed2, Math_round.
  assert (Hdr : (0 < IZR d)%R) by (apply IZR_lt; lia).
  assert (Hbr : (0 <= IZR bytes)%R) by (apply IZR_le; lia).
  destruct (Rlt_dec (IZR bytes / IZR d) 0) as [Hneg|_].
  - exfalso. apply (Rlt_not_le _ _ Hneg).
    apply Rmult_le_pos; [exact Hbr|]. left. now apply Rinv_0_lt_compat.
  - rewrite <- (Int_part_IZR_div (200 * bytes + d) (2 * d)) by lia. f_equal.
    rewrite plus_IZR, !mult_IZR. field. lra.
Qed.

Lemma exponent_bounds (bytes : Z) :
  1 <= bytes ->
  let exponent := Z.log2 bytes / 10 in
  0 <= exponent /\ 1024 ^ exponent <= bytes < 1024 ^ (exponent + 1).
Proof.
  intros Hb. cbn zeta.
  pose proof (Z.log2_nonneg bytes) as Hl.
  pose proof (Z.log2_spec bytes ltac:(lia)) as [H1 H2].
  pose proof (Z.div_mod (Z.log2 bytes) 10 ltac:(lia)) as Hdm.
  pose proof (Z.mod_pos_bound (Z.log2 bytes) 10 ltac:(lia)) as Hm.
  assert (He : 0 <= Z.log2 bytes / 10) by (apply Z.div_pos; lia).
  split; [exact He|].
  change 1024 with (2 ^ 10). rewrite <- !Z.pow_mul_r by lia. split.
  - apply Z.le_trans with (2 ^ Z.log2 bytes); [|exact H1].
    apply Z.pow_le_mono_r; lia.
  - apply Z.lt_le_trans with (2 ^ Z.succ (Z.log2 bytes)); [exact H2|].
    apply Z.pow_le_mono_r; lia.
Qed.

(** X23. Below one terabyte [defineDataSize] shows a size in the unit
    that fits it.  For a size of [bytes] from 1 up to 2^40 - 1 the unit
    is Bytes, KB, MB or GB, the one with [1024 ^ exponent <= bytes <
    1024 ^ (exponent + 1)], and the number is [bytes / 1024 ^ exponent]
    rounded to hundredths, halves upwards: it is at least 1.00 and at
    most 1024.00, a value it can reach.  The size 0 is shown as
    [0 Bytes]. *)
Theorem data_size_fits_its_unit (bytes : Z) :
  1 <= bytes < 2 ^ 40 ->
  exists exponent hundredths unit,
    defineDataSize bytes = (SizeFixed2 hundredths, Some unit) /\
    0 <= exponent <= 3 /\
    nth_error units (Z.to_nat exponent) = Some unit /\
    1024 ^ exponent <= bytes < 1024 ^ (exponent + 1) /\
    hundredths = (200 * bytes + 1024 ^ exponent) / (2 * 1024 ^ exponent) /\
    100 <= hundredths <= 102400 /\
    defineDataSize 0 = (SizeZero, Some "Bytes"%string) /\
    defineDataSize 1048575 = (SizeFixed2 102400, Some "KB"%string).
Proof.
  intros [Hlo Hhi].
  destruct (exponent_bounds bytes Hlo) as [He [Hb1 Hb2]].
  set (exponent := Z.log2 bytes / 10) in *.
  assert (He3 : exponent <= 3).
  { assert (Hlog : Z.log2 bytes < 40) by (apply Z.log2_lt_pow2; lia).
    unfold exponent. apply Z.lt_succ_r. apply Z.div_lt_upper_bound; lia. }
  assert (Hshift : shiftLeft1 (exponent * 10) = 1024 ^ exponent).
  { assert (Hcases : exponent = 0 \/ exponent = 1 \/ exponent = 2 \/ exponent = 3) by lia.
    destruct Hcases as [->|[->|[->| ->]]]; reflexivity. }
  assert (Hunit : exists unit, nth_error units (Z.to_nat exponent) = Some unit).
  { assert (Hcases : exponent = 0 \/ exponent = 1 \/ exponent = 2 \/ exponent = 3) by lia.
    destruct Hcases as [->|[->|[->| ->]]]; eexists; reflexivity. }
  destruct Hunit as [unit Hunit].
  assert (Hd : 0 < 1024 ^ exponent) by (apply Z.pow_pos_nonneg; lia).
  exists exponent, ((200 * bytes + 1024 ^ exponent) / (2 * 1024 ^ exponent)), unit.
  split.
  { unfold defineDataSize. replace (bytes =? 0) with false
      by (symmetry; apply Z.eqb_neq; lia).
    fold exponent. rewrite Hshift, Hunit, toFixed2_ratio by lia. reflexivity. }
  split; [lia|]. split; [exact Hunit|]. split; [now split|]. split; [reflexivity|].
  split.
  { rewrite Z.pow_add_r in Hb2 by lia. change (1024 ^ 1) with 1024 in Hb2.
    split.
    - apply Z.div_le_lower_bound; lia.
    - apply Z.lt_succ_r. apply Z.div_lt_upper_bound; lia. }
  split.
  - reflexivity.
  - unfold defineDataSize.
    change (1048575 =? 0) with false. cbv iota.
    change (Z.log2 1048575 / 10) with 1. change (shiftLeft1 (1 * 10)) with 1024.
    rewrite toFixed2_ratio by lia. reflexivity.
Qed.

Lemma data_size_fits_its_unit_witness :
  exists exponent hundredths unit,
    defineDataSize 1536 = (SizeFixed2 hundredths, Some unit) /\
    0 <= exponent <= 3 /\
    nth_error units (Z.to_nat exponent) = Some unit /\
    1024 ^ exponent <= 1536 < 1024 ^ (exponent + 1) /\
    hundredths = (200 * 1536 + 1024 ^ exponent) / (2 * 1024 ^ exponent) /\
    100 <= hundredths <= 102400 /\
    defineDataSize 0 = (SizeZero, Some "Bytes"%string) /\
    defineDataSize 1048575 = (SizeFixed2 102400, Some "KB"%string).
Proof. apply (data_size_fits_its_unit 1536). lia. Defined.

(** X24. From one terabyte on, the number that [defineDataSize] shows
    is wrong by a factor of 2^32.  The shift [1 << 40] is a shift of
    32-bit integers, which takes the count modulo 32 and yields 256: for
    a size from 2^40 up to 2^49 - 1 the unit is TB, but the number is
    [bytes / 256], rounded to hundredths, and so never below
    4294967296.00. *)
Theorem data_size_of_a_terabyte_is_off (bytes : Z) :
  2 ^ 40 <= bytes < 2 ^ 49 ->
  exists hundredths,
    defineDataSize bytes = (SizeFixed2 hundredths, Some "TB"%string) /\
    hundredths = (200 * bytes + 256) / 512 /\
    429496729600 <= hundredths /\
    hundredths <> (200 * bytes + 2 ^ 40) / (2 * 2 ^ 40).
Proof.
  intros [Hlo Hhi].
  assert (Hlog : 40 <= Z.log2 bytes < 49).
  { split; [apply Z.log2_le_pow2; lia|apply Z.log2_lt_pow2; lia]. }
  assert (He : Z.log2 bytes / 10 = 4).
  { symmetry. apply Z.div_unique with (Z.log2 bytes - 40); lia. }
  exists ((200 * bytes + 256) / 512).
  assert (Hh : 429496729600 <= (200 * bytes + 256) / 512)
    by (apply Z.div_le_lower_bound; lia).
  split.
  { unfold defineDataSize. replace (bytes =? 0) with false
      by (symmetry; apply Z.eqb_neq; lia).
    rewrite He. change (shiftLeft1 (4 * 10)) with 256.
    rewrite toFixed2_ratio by lia. reflexivity. }
  split; [reflexivity|]. split; [exact Hh|].
  assert (Hsmall : (200 * bytes + 2 ^ 40) / (2 * 2 ^ 40) < 51201)
    by (apply Z.div_lt_upper_bound; lia).
  lia.
Qed.

Lemma data_size_of_a_terabyte_is_off_witness :
  exists hundredths,
    defineDataSize 1099511627776 = (SizeFixed2 hundredths, Some "TB"%string) /\
    hundredths = (200 * 1099511627776 + 256) / 512 /\
    429496729600 <= hundredths /\
    hundredths <> (200 * 1099511627776 + 2 ^ 40) / (2 * 2 ^ 40).
Proof. apply (data_size_of_a_terabyte_is_off 1099511627776). lia. Defined.

End FormatFacts.

(** ** The percentage of change *)

Section ChangeFacts.
Import Utils.
Local Open Scope R_scope.

Lemma toFixed2_near (x : R) : Rabs (IZR (toFixed2 x) - x * 100) <= / 2.
Proof.
  unfold toFixed2, Math_round. destruct (Rlt_dec x 0) as [Hneg|Hpos].
  - destruct (base_Int_part (- x * 100 + / 2)) as [H1 H2].
    rewrite opp_IZR. apply Rabs_le. lra.
  - destruct (base_Int_part (x * 100 + / 2)) as [H1 H2].
    apply Rabs_le. lra.
Qed.

Lemma toFixed2_sign (x : R) :
  (0 <= x -> (0 <= toFixed2 x)%Z) /\ (x < 0 -> (toFixed2 x <= 0)%Z).
Proof.
  unfold toFixed2, Math_round. destruct (Rlt_dec x 0) as [Hneg|Hpos]; split; intros H;
    try lra.
  - pose proof (Int_part_nonneg (- x * 100 + / 2) ltac:(lra)). lia.
  - apply Int_part_nonneg. lra.
Qed.

Lemma toFixed2_mono (x y : R) : x <= y -> (toFixed2 x <= toFixed2 y)%Z.
Proof.
  intros Hxy. destruct (toFixed2_sign x) as [Hx1 Hx2], (toFixed2_sign y) as [Hy1 Hy2].
  unfold toFixed2, Math_round in *.
  destruct (Rlt_dec x 0) as [Hx|Hx], (Rlt_dec y 0) as [Hy|Hy].
  - pose proof (Int_part_le (- y * 100 + / 2) (- x * 100 + / 2) ltac:(lra)). lia.
  - specialize (Hx2 Hx). specialize (Hy1 ltac:(lra)). lia.
  - lra.
  - apply Int_part_le. lra.
Qed.

(** X25. Against a current price that is positive, the percentage of a
    simulated price is a number: it carries the prefix [+] exactly when
    the simulated price is not below the current one, its value is the
    relative change in percent to the nearest hundredth, it has the sign
    of the change, it is zero for the current price itself, and it
    grows with the simulated price. *)
Theorem change_percentage_follows_the_price (currentPrice : option R) :
  0 < ToNumber currentPrice ->
  let c := ToNumber currentPrice in
  (forall s, exists hundredths,
     calculateChangePercentage (Some s) currentPrice
     = PctNumber (if Rle_dec c s then "+" else EmptyString) hundredths /\
     Rabs (IZR hundredths - (s - c) / c * 100 * 100) <= / 2 /\
     (c <= s -> (0 <= hundredths)%Z) /\ (s < c -> (hundredths <= 0)%Z) /\
     (s = c -> hundredths = 0%Z)) /\
  forall s s' prefix prefix' hundredths hundredths',
    s <= s' ->
    calculateChangePercentage (Some s) currentPrice = PctNumber prefix hundredths ->
    calculateChangePercentage (Some s') currentPrice = PctNumber prefix' hundredths' ->
    (hundredths <= hundredths')%Z.
Proof.
  intros Hpos c. fold c in Hpos.
  assert (Hchange : forall s, (0 <= (s - c) / c * 100 <-> c <= s)).
  { intros s. split; intros H.
    - destruct (Rle_dec c s) as [Hle|Hgt]; [exact Hle|]. exfalso.
      assert (Hneg : (s - c) / c * 100 < 0).
      { apply Rmult_neg_pos; [|lra]. apply Rmult_neg_pos; [lra|].
        now apply Rinv_0_lt_compat. }
      lra.
    - apply Rmult_le_pos; [|lra]. apply Rmult_le_pos; [lra|].
      left. now apply Rinv_0_lt_compat. }
  assert (Hcalc : forall s,
             calculateChangePercentage (Some s) currentPrice
             = PctNumber (if Rle_dec c s then "+" else EmptyString)
                         (toFixed2 ((s - c) / c * 100))).
  { intros s. unfold calculateChangePercentage. fold c.
    destruct (Req_dec_T c 0) as [Hz|_]; [lra|]. cbn zeta.
    destruct (Rge_dec ((s - c) / c * 100) 0) as [Hge|Hlt], (Rle_dec c s) as [Hle|Hgt];
      try reflexivity; exfalso.
    - apply Hgt. apply Hchange. lra.
    - apply Hlt. apply Rle_ge. now apply Hchange. }
  split.
  - intros s. exists (toFixed2 ((s - c) / c * 100)). split; [apply Hcalc|].
    split; [apply toFixed2_near|].
    destruct (toFixed2_sign ((s - c) / c * 100)) as [H1 H2].
    split; [intros H; apply H1; now apply Hchange|].
    split.
    + intros H. apply H2. destruct (Rlt_dec ((s - c) / c * 100) 0) as [Hlt|Hge];
        [exact Hlt|]. exfalso. assert (c <= s) by (apply Hchange; lra). lra.
    + intros ->. replace ((c - c) / c * 100) with 0 by (field; lra).
      unfold toFixed2, Math_round. destruct (Rlt_dec 0 0) as [H|_]; [lra|].
      symmetry. apply Int_part_spec. lra.
  - intros s s' prefix prefix' h h' Hle Hs Hs'.
    rewrite Hcalc in Hs, Hs'. injection Hs as _ <-. injection Hs' as _ <-.
    apply toFixed2_mono. apply Rmult_le_compat_r; [lra|].
    apply Rmult_le_compat_r; [left; now apply Rinv_0_lt_compat|lra].
Qed.

Lemma change_percentage_follows_the_price_witness :
  let c := ToNumber (Some 50000) in
  (forall s, exists hundredths,
     calculateChangePercentage (Some s) (Some 50000)
     = PctNumber (if Rle_dec c s then "+" else EmptyString) hundredths /\
     Rabs (IZR hundredths - (s - c) / c * 100 * 100) <= / 2 /\
     (c <= s -> (0 <= hundredths)%Z) /\ (s < c -> (hundredths <= 0)%Z) /\
     (s = c -> hundredths = 0%Z)) /\
  forall s s' prefix prefix' hundredths hundredths',
    s <= s' ->
    calculateChangePercentage (Some s) (Some 50000) = PctNumber prefix hundredths ->
    calculateChangePercentage (Some s') (Some 50000) = PctNumber prefix' hundredths' ->
    (hundredths <= hundredths')%Z.
Proof.
  apply (change_percentage_follows_the_price (Some 50000)).
  cbn [ToNumber]. lra.
Defined.

End ChangeFacts.

(** ** The helpers of the research script *)

Section ResearchFacts.
Import Research.
Local Open Scope R_scope.

(** X26. The two helpers that put a score into words do not draw the
    same lines.  They give the same word for every score except 60 and
    75: a score of 60 is Greed for [getSentimentType] and Neutral for
    [getMarketSentiment], a score of 75 is Extreme Greed for the first
    and Greed for the second.  On [NaN] they give the two opposite
    extremes, and on [null] both say Not Available. *)
Theorem sentiment_words_differ_at_60_and_75 (v : R) :
  (getSentimentType (ScoreNumber v) = getMarketSentiment (ScoreNumber v)
   <-> v <> 60 /\ v <> 75) /\
  getSentimentType (ScoreNumber 60) = "Greed"%string /\
  getMarketSentiment (ScoreNumber 60) = "Neutral"%string /\
  getSentimentType (ScoreNumber 75) = "Extreme Greed"%string /\
  getMarketSentiment (ScoreNumber 75) = "Greed"%string /\
  getSentimentType ScoreNaN = "Extreme Fear"%string /\
  getMarketSentiment ScoreNaN = "Extreme Greed"%string /\
  getSentimentType ScoreNull = getMarketSentiment ScoreNull.
Proof.
  split.
  - unfold getSentimentType, getMarketSentiment.
    destruct (Rge_dec v 75), (Rge_dec v 60), (Rgt_dec v 40), (Rgt_dec v 25),
      (Rle_dec v 25), (Rle_dec v 40), (Rle_dec v 60), (Rle_dec v 75);
      try lra; split; intros H; try discriminate; try reflexivity; try lra.
  - unfold getSentimentType, getMarketSentiment.
    repeat match goal with
           | |- context [Rge_dec ?a ?b] => destruct (Rge_dec a b); try lra
           | |- context [Rgt_dec ?a ?b] => destruct (Rgt_dec a b); try lra
           | |- context [Rle_dec ?a ?b] => destruct (Rle_dec a b); try lra
           end.
    repeat split.
Qed.

(** X27. The news score is a whole number from 0 to 100 as soon as one
    article was found.  When no article was found the score is not
    [null] but [NaN], the mean of nothing: the report then words the
    same score as Extreme Fear in one place and as Extreme Greed in
    another, and the combined mood is Extreme Greed whatever the Fear
    and Greed index says. *)
Theorem news_score_is_clamped (articleScores : list Z) :
  match articleScores with
  | [] =>
      newsSentiment articleScores = ScoreNaN /\
      getSentimentType (newsSentiment articleScores) = "Extreme Fear"%string /\
      getMarketSentiment (newsSentiment articleScores) = "Extreme Greed"%string /\
      forall fngScore : R,
        getCombinedMarketMood (newsSentiment articleScores) (Some fngScore)
        = "Extreme Greed"%string
  | _ :: _ =>
      exists n : Z,
        newsSentiment articleScores = ScoreNumber (IZR n) /\ (0 <= n <= 100)%Z /\
        forall fngScore : R,
          getCombinedMarketMood (newsSentiment articleScores) (Some fngScore)
          = getMarketSentiment (ScoreNumber ((fngScore + IZR n) / 2))
  end.
Proof.
  destruct articleScores as [|a l].
  - split; [reflexivity|]. split; [reflexivity|]. split; [reflexivity|].
    intros fngScore. reflexivity.
  - eexists. split; [reflexivity|]. split; [lia|]. intros fngScore. reflexivity.
Qed.

Lemma rsiOf_range (avgGain avgLoss : R) :
  0 <= avgGain -> 0 <= avgLoss -> within_range (rsiOf avgGain avgLoss).
Proof.
  intros Hg Hl. unfold rsiOf.
  destruct (Req_dec_T avgLoss 0) as [Hz|Hnz].
  - destruct (Req_dec_T avgGain 0); cbn; [exact I|lra].
  - cbn. assert (Hpos : 0 < avgLoss) by lra.
    assert (Hrs : 0 <= avgGain / avgLoss).
    { apply Rmult_le_pos; [exact Hg|]. left. now apply Rinv_0_lt_compat. }
    assert (Hinv : 0 < / (1 + avgGain / avgLoss) <= 1).
    { split; [apply Rinv_0_lt_compat; lra|].
      rewrite <- Rinv_1 at 2. apply Rinv_le_contravar; lra. }
    unfold Rdiv at 1. nra.
Qed.

Lemma gainOf_nonneg (c : R) : 0 <= gainOf c.
Proof. unfold gainOf. destruct (Rgt_dec c 0); lra. Qed.

Lemma lossOf_nonneg (c : R) : 0 <= lossOf c.
Proof. unfold lossOf. destruct (Rlt_dec c 0); lra. Qed.

Lemma smoothed_range (period : R) (changes : list R) :
  1 <= period ->
  forall (avgGain avgLoss : R) (last : rsi),
    0 <= avgGain -> 0 <= avgLoss ->
    (changes = [] -> within_range last) ->
    within_range (smoothed period avgGain avgLoss changes last).
Proof.
  intros Hp. induction changes as [|c changes IH]; intros g l last Hg Hl Hlast.
  - now apply Hlast.
  - cbn [smoothed].
    assert (Hg' : 0 <= (g * (period - 1) + gainOf c) / period).
    { apply Rmult_le_pos; [|left; apply Rinv_0_lt_compat; lra].
      pose proof (gainOf_nonneg c). nra. }
    assert (Hl' : 0 <= (l * (period - 1) + lossOf c) / period).
    { apply Rmult_le_pos; [|left; apply Rinv_0_lt_compat; lra].
      pose proof (lossOf_nonneg c). nra. }
    apply IH; [exact Hg'|exact Hl'|]. intros _. now apply rsiOf_range.
Qed.

Lemma In_firstn {A : Type} (n : nat) (l : list A) (x : A) :
  In x (firstn n l) -> In x l.
Proof. intros H. rewrite <- (firstn_skipn n l). apply in_or_app. now left. Qed.

Lemma fold_sum_nonneg (l : list R) :
  (forall x, In x l -> 0 <= x) -> forall a, 0 <= a -> 0 <= fold_left Rplus l a.
Proof.
  induction l as [|x l IH]; intros H a Ha; [exact Ha|]. cbn [fold_left].
  apply IH; [intros y Hy; apply H; now right|].
  pose proof (H x (or_introl eq_refl)). lra.
Qed.

Lemma length_changesOf (closePrices : list R) :
  length (changesOf closePrices) = (length closePrices - 1)%nat.
Proof.
  induction closePrices as [|a [|b l] IH]; [reflexivity|reflexivity|].
  change (changesOf (a :: b :: l)) with ((b - a) :: changesOf (b :: l)).
  cbn [length] in *. rewrite IH. lia.
Qed.

(** X28. [calculateRSI] returns [null] when there are too few prices,
    that is [period] or fewer.  With exactly one price more than the
    period it returns [undefined], not an index: the smoothing loop has
    nothing to run on.  With more prices the result is [NaN] or a number
    from 0 to 100. *)
Theorem rsi_is_an_index_or_nothing (closePrices : list R) (period : nat) :
  (1 <= period)%nat ->
  match calculateRSI closePrices period with
  | RsiNull => (length closePrices <= period)%nat
  | RsiUndefined => length closePrices = S period
  | RsiNaN => (S period < length closePrices)%nat
  | RsiNumber v => (S period < length closePrices)%nat /\ 0 <= v <= 100
  end.
Proof.
  intros Hp. unfold calculateRSI.
  destruct (length closePrices <? period + 1)%nat eqn:Hshort.
  - apply Nat.ltb_lt in Hshort. lia.
  - apply Nat.ltb_ge in Hshort.
    set (changes := changesOf closePrices).
    set (g := fold_left Rplus (firstn period (map gainOf changes)) 0 / INR period).
    set (l := fold_left Rplus (firstn period (map lossOf changes)) 0 / INR period).
    assert (Hperiod : 1 <= INR period) by (change 1 with (INR 1); apply le_INR; lia).
    assert (Hg : 0 <= g).
    { apply Rmult_le_pos; [|left; apply Rinv_0_lt_compat; lra].
      apply fold_sum_nonneg; [|lra]. intros x Hx. apply In_firstn in Hx.
      apply in_map_iff in Hx. destruct Hx as [c [<- _]]. apply gainOf_nonneg. }
    assert (Hl : 0 <= l).
    { apply Rmult_le_pos; [|left; apply Rinv_0_lt_compat; lra].
      apply fold_sum_nonneg; [|lra]. intros x Hx. apply In_firstn in Hx.
      apply in_map_iff in Hx. destruct Hx as [c [<- _]]. apply lossOf_nonneg. }
    assert (Hlen : length (skipn period changes) = (length closePrices - 1 - period)%nat).
    { unfold changes. now rewrite length_skipn, length_changesOf. }
    destruct (skipn period changes) as [|c rest] eqn:Hrest.
    + cbn [smoothed]. cbn [length] in Hlen. lia.
    + assert (Hlong : (S period < length closePrices)%nat) by (cbn [length] in Hlen; lia).
      pose proof (smoothed_range (INR period) (c :: rest) Hperiod g l RsiUndefined Hg Hl
                    ltac:(discriminate)) as Hrange.
      destruct (smoothed (INR period) g l (c :: rest) RsiUndefined); cbn in Hrange;
        try contradiction; auto.
Qed.

Lemma rsi_is_an_index_or_nothing_witness :
  match calculateRSI [100; 101; 100] 2 with
  | RsiNull => (length [100; 101; 100] <= 2)%nat
  | RsiUndefined => length [100; 101; 100] = 3%nat
  | RsiNaN => (3 < length [100; 101; 100])%nat
  | RsiNumber v => (3 < length [100; 101; 100])%nat /\ 0 <= v <= 100
  end.
Proof. apply (rsi_is_an_index_or_nothing [100; 101; 100] 2). lia. Defined.

Example calculateRSI_one_price_more_than_the_period :
  calculateRSI [100; 101; 100] 2 = RsiUndefined.
Proof. reflexivity. Qed.

(** X29. The three projections of [projectPriceForYears] are ordered
    when the price and the deviation are not negative and the annual
    return is not below the floor of -99 percent: the pessimistic price
    is not negative and not above the average price, which is not above
    the optimistic one. *)
Theorem projections_are_ordered (initialPrice avgReturn stdDev : R) (years : nat) :
  0 <= initialPrice -> 0 <= stdDev ->
  - (99 / 100) <= (1 + avgReturn) ^ 365 - 1 ->
  exists optimistic pessimistic average : Z,
    projectPriceForYears initialPrice avgReturn stdDev years
    = (optimistic, pessimistic, average) /\
    (0 <= pessimistic <= average)%Z /\ (average <= optimistic)%Z.
Proof.
  intros Hprice Hdev Hfloor. unfold projectPriceForYears.
  set (annualReturn := (1 + avgReturn) ^ 365 - 1) in *.
  set (annualStdDev := stdDev * sqrt 365).
  assert (Hsd : 0 <= annualStdDev).
  { unfold annualStdDev. apply Rmult_le_pos; [exact Hdev|apply sqrt_pos]. }
  set (pessimisticReturn := Rmax (annualReturn - annualStdDev) (- (99 / 100))).
  assert (Hp1 : - (99 / 100) <= pessimisticReturn) by apply Rmax_r.
  assert (Hp2 : pessimisticReturn <= annualReturn)
    by (unfold pessimisticReturn; apply Rmax_lub; lra).
  assert (Hpow1 : (1 + pessimisticReturn) ^ years <= (1 + annualReturn) ^ years)
    by (apply pow_incr; lra).
  assert (Hpow2 : (1 + annualReturn) ^ years
                  <= (1 + (annualReturn + annualStdDev)) ^ years)
    by (apply pow_incr; lra).
  assert (Hpow0 : 0 <= (1 + pessimisticReturn) ^ years) by (apply pow_le; lra).
  eexists. eexists. eexists. split; [reflexivity|]. split; [split|].
  - apply Math_round_nonneg. now apply Rmult_le_pos.
  - apply Math_round_le. now apply Rmult_le_compat_l.
  - apply Math_round_le. now apply Rmult_le_compat_l.
Qed.

Lemma projections_are_ordered_witness :
  exists optimistic pessimistic average : Z,
    projectPriceForYears 50000 0 (/ 100) 3 = (optimistic, pessimistic, average) /\
    (0 <= pessimistic <= average)%Z /\ (average <= optimistic)%Z.
Proof.
  apply (projections_are_ordered 50000 0 (/ 100) 3).
  - lra.
  - lra.
  - rewrite Rplus_0_r, pow1. lra.
Defined.

End ResearchFacts.

(** ** Three runs and a restart *)

Section RestartFacts.
Import MonteCarloEngine SynthBTC Engine.

Lemma init_restores (st : State) :
  reachable st ->
  exists st',
    init (privateDir st) (dataPrivateDir st) = Return st' /\
    simulationCounter st' = simulationCounter st /\
    simulatedData st' = simulatedData st /\
    runLog st' = runLog st /\
    lastKnownPrice st' = None.
Proof.
  intros Hreach. destruct (reachable_store st Hreach) as [Hcons [_ Hfiled]].
  pose proof (filed_last_index st Hcons Hfiled) as Hlast.
  destruct Hcons as [_ [_ [_ [Hcount Hcalc]]]].
  unfold init. rewrite Hlast, Hcalc, Hcount. eexists. split; [reflexivity|].
  cbn. repeat split.
Qed.

Lemma reachable_afterSecondRun : reachable Scenario.afterSecondRun.
Proof.
  apply (reach_run (Scenario.request 3) (Scenario.feedsDown 6) Scenario.afterFirstRun
                   (fst (getSimulationData (Scenario.request 3) (Scenario.feedsDown 6)
                                           Scenario.afterFirstRun))).
  - exact reachable_afterFirstRun.
  - cbn. lia.
  - unfold Scenario.afterSecondRun. apply surjective_pairing.
Qed.

Lemma restarted_init :
  init (privateDir Scenario.afterSecondRun) (dataPrivateDir Scenario.afterSecondRun)
  = Return Scenario.restarted.
Proof.
  unfold Scenario.restarted.
  destruct (init_restores _ reachable_afterSecondRun) as [st' [E _]].
  now rewrite E.
Qed.

Lemma reachable_restarted : reachable Scenario.restarted.
Proof.
  apply (reach_restart Scenario.afterSecondRun).
  - exact reachable_afterSecondRun.
  - exact restarted_init.
Qed.

Lemma reachable_afterThirdRun : reachable Scenario.afterThirdRun.
Proof.
  apply (reach_run (Scenario.request 2) (Scenario.feedsUp 4) Scenario.restarted
                   (fst (getSimulationData (Scenario.request 2) (Scenario.feedsUp 4)
                                           Scenario.restarted))).
  - exact reachable_restarted.
  - cbn. lia.
  - unfold Scenario.afterThirdRun. apply surjective_pairing.
Qed.

(** The row that a valid request adds to the log of a reachable state,
    and the counters it leaves. *)
Lemma valid_run_row (cfg : Config) (env : Env) (st : State) :
  reachable st ->
  (0 < ToNumber (fst (pricedState env st)))%R ->
  1 <= totalSimulations cfg ->
  (0 < volatilityPercentage cfg)%R ->
  1 <= simulationDays cfg ->
  (Z.to_nat (totalSimulations cfg) * (2 * Z.to_nat (simulationDays cfg))
   <= length (nonzero (randomDraws env)))%nat ->
  exists e,
    runLog (snd (getSimulationData cfg env st)) = runLog st ++ [e] /\
    simulation_id e = simulationCounter st + 1 /\
    simulated_data e = totalSimulations cfg /\
    total_simulated e = simulatedData st + totalSimulations cfg /\
    simulationCounter (snd (getSimulationData cfg env st)) = simulationCounter st + 1 /\
    simulatedData (snd (getSimulationData cfg env st))
    = simulatedData st + totalSimulations cfg /\
    lastKnownPrice (snd (getSimulationData cfg env st)) = fst (pricedState env st).
Proof.
  intros Hreach Hprice Hcount Hvol Hdays Hdraws.
  destruct (reachable_store st Hreach) as [Hcons [_ Hfiled]].
  pose proof (filed_next_index st Hcons Hfiled) as Hidx.
  destruct (getSimulationData_returns cfg env st _ Hprice Hcount Hvol Hdays Hdraws Hidx)
    as [allPrices [_ Hrun]].
  rewrite Hrun. cbn [snd].
  destruct (completedRun_effects cfg env st allPrices (simulationCounter st + 1))
    as [_ [_ [_ [Hsc [Hsd [_ [_ [Hp [_ [_ [e [Hlog [Hid [Hn [Ht _]]]]]]]]]]]]]]].
  exists e. rewrite runLog_set_latestOutput.
  cbn [set_latestOutput simulationCounter simulatedData lastKnownPrice].
  repeat split; assumption.
Qed.

Lemma afterThirdRun_log :
  map (fun e => (simulation_id e, simulated_data e, total_simulated e))
      (runLog Scenario.afterThirdRun)
  = [(1, 1, 1); (2, 3, 4); (3, 2, 6)] /\
  simulationCounter Scenario.afterThirdRun = 3.
Proof.
  destruct (valid_run_row (Scenario.request 1) (Scenario.feedsUp 2) Scenario.boot)
    as [e1 [Hlog1 [Hid1 [Hn1 [Ht1 [Hsc1 [Hsd1 Hp1]]]]]]].
  { apply reach_boot. reflexivity. }
  { cbn. lra. }
  { cbn. lia. }
  { cbn. lra. }
  { cbn. lia. }
  { cbn [Scenario.feedsUp randomDraws]. rewrite nonzero_halves, repeat_length. cbn. lia. }
  fold Scenario.afterFirstRun in Hlog1, Hsc1, Hsd1, Hp1.
  destruct (pricedState_feedsDown (Scenario.feedsDown 6) Scenario.afterFirstRun
              eq_refl eq_refl) as [Hpd _].
  destruct (valid_run_row (Scenario.request 3) (Scenario.feedsDown 6) Scenario.afterFirstRun)
    as [e2 [Hlog2 [Hid2 [Hn2 [Ht2 [Hsc2 [Hsd2 Hp2]]]]]]].
  { exact reachable_afterFirstRun. }
  { rewrite Hpd, Hp1. cbn. lra. }
  { cbn. lia. }
  { cbn. lra. }
  { cbn. lia. }
  { cbn [Scenario.feedsDown randomDraws]. rewrite nonzero_halves, repeat_length. cbn. lia. }
  fold Scenario.afterSecondRun in Hlog2, Hsc2, Hsd2, Hp2.
  destruct (init_restores _ reachable_afterSecondRun) as [st' [E [Hsc' [Hsd' [Hlog' _]]]]].
  rewrite restarted_init in E. injection E as <-.
  destruct (valid_run_row (Scenario.request 2) (Scenario.feedsUp 4) Scenario.restarted)
    as [e3 [Hlog3 [Hid3 [Hn3 [Ht3 [Hsc3 _]]]]]].
  { exact reachable_restarted. }
  { cbn. lra. }
  { cbn. lia. }
  { cbn. lra. }
  { cbn. lia. }
  { cbn [Scenario.feedsUp randomDraws]. rewrite nonzero_halves, repeat_length. cbn. lia. }
  fold Scenario.afterThirdRun in Hlog3, Hsc3.
  split.
  - rewrite Hlog3, Hlog', Hlog2, Hlog1.
    cbn [runLog Scenario.boot privateDir Fs.readFileSync app map].
    rewrite Hid1, Hn1, Ht1, Hid2, Hn2, Ht2, Hid3, Hn3, Ht3, Hsc', Hsd', Hsc2, Hsd2,
      Hsc1, Hsd1.
    reflexivity.
  - rewrite Hsc3, Hsc', Hsc2, Hsc1. reflexivity.
Qed.

(** C4 on three runs (of one, three and two simulations) with a restart
    before the third: the ids are 1, 2 and 3, and the cumulative counts
    1, 4 and 6. *)
Lemma run_log_is_consecutive_witness :
  map (fun e => (simulation_id e, simulated_data e, total_simulated e))
      (runLog Scenario.afterThirdRun)
  = [(1, 1, 1); (2, 3, 4); (3, 2, 6)] /\
  consecutive 0 0 (runLog Scenario.afterThirdRun).
Proof.
  split; [exact (proj1 afterThirdRun_log)|].
  apply (run_log_is_consecutive Scenario.afterThirdRun). exact reachable_afterThirdRun.
Defined.

(** X16 on the state after three runs and a restart. *)
Lemma log_rows_name_their_files_witness :
  Permutation (Fs.readdirSync (dataPrivateDir Scenario.afterThirdRun))
              (map data_source (runLog Scenario.afterThirdRun)) /\
  forall e, In e (runLog Scenario.afterThirdRun) ->
    data_source e = rawFileName (simulation_id e) /\
    exists rows,
      CSVHandler.readCSV (dataPrivateDir Scenario.afterThirdRun) (data_source e)
      = Some (csvHeader ++ rows) /\
      length (rowIds rows) = length rows /\
      Z.of_nat (length rows) = simulated_data e.
Proof.
  apply (log_rows_name_their_files Scenario.afterThirdRun). exact reachable_afterThirdRun.
Defined.

End RestartFacts.

(** ** The ids of a request, from the path *)

Section PathFacts.
Import Str SynthBTC Engine APICore.

Lemma digit_no_comma (c : ascii) : is_digit c = true -> Ascii.eqb c "," = false.
Proof.
  intros H. destruct (Ascii.eqb c ",") eqn:E; [|reflexivity].
  apply Ascii.eqb_eq in E. subst c. discriminate.
Qed.

Lemma letter_no_comma (c : ascii) : is_letter c = true -> Ascii.eqb c "," = false.
Proof.
  intros H. destruct (Ascii.eqb c ",") eqn:E; [|reflexivity].
  apply Ascii.eqb_eq in E. subst c. discriminate.
Qed.

Lemma of_Z_negative (k : Z) :
  k < 0 ->
  exists d, of_Z k = String "-" (NilEmpty.string_of_uint d) /\ d <> Decimal.Nil /\
            Z.of_int (Decimal.Neg d) = k.
Proof.
  intros Hk. destruct (to_int_negative k Hk) as [d [Hd Hnil]].
  exists d. unfold of_Z. rewrite Hd. split; [reflexivity|]. split; [exact Hnil|].
  rewrite <- Hd. apply DecimalZ.of_to.
Qed.

Lemma written_no_comma (a : asked) :
  legible a = true ->
  Forall (fun c => Ascii.eqb c "," = false) (chars (written a)).
Proof.
  destruct a as [i|w]; cbn [legible written]; intros H.
  - destruct (Z_lt_le_dec i 0) as [Hi|Hi].
    + destruct (of_Z_negative i Hi) as [d [-> _]]. unfold chars.
      cbn [list_ascii_of_string]. constructor; [reflexivity|].
      apply (Forall_impl _ digit_no_comma). apply string_of_uint_digits.
    + destruct (to_int_nonneg i Hi) as [d [Hd _]]. unfold of_Z. rewrite Hd.
      apply (Forall_impl _ digit_no_comma). apply string_of_uint_digits.
  - unfold is_word in H. destruct (chars w) as [|c l]; [constructor|].
    apply andb_true_iff in H. destruct H as [Hc Hl]. constructor.
    + now apply letter_no_comma.
    + apply Forall_forall. intros x Hx.
      apply (proj1 (forallb_forall _ _) Hl) in Hx. now destruct (Ascii.eqb x ",").
Qed.

Lemma split_chars_last (w cur : list ascii) :
  Forall (fun c => Ascii.eqb c "," = false) w ->
  split_chars "," w cur = [string_of_list_ascii (rev cur ++ w)].
Proof.
  intros H. revert cur. induction H as [|c w Hc _ IH]; intros cur; cbn [split_chars].
  - now rewrite app_nil_r.
  - rewrite Hc, IH. cbn [rev]. now rewrite <- app_assoc.
Qed.

Lemma split_chars_piece (w rest cur : list ascii) :
  Forall (fun c => Ascii.eqb c "," = false) w ->
  split_chars "," (w ++ ","%char :: rest) cur
  = string_of_list_ascii (rev cur ++ w) :: split_chars "," rest [].
Proof.
  intros H. revert cur. induction H as [|c w Hc _ IH]; intros cur;
    cbn [split_chars app].
  - now rewrite app_nil_r.
  - rewrite Hc, IH. cbn [rev]. now rewrite <- app_assoc.
Qed.

(** Splitting the path at the commas gives back the entries as they
    were written. *)
Lemma split_path (request : list asked) :
  request <> [] ->
  Forall (fun a => legible a = true) request ->
  split (path request) "," = map written request.
Proof.
  unfold split. induction request as [|a request IH]; [congruence|].
  intros _ H. inversion H as [|a' request' Ha Hrest]. subst.
  pose proof (written_no_comma a Ha) as Hw.
  destruct request as [|b request].
  - cbn [path map]. rewrite split_chars_last by exact Hw. cbn [rev app].
    unfold chars. now rewrite string_of_list_ascii_of_string.
  - change (path (a :: b :: request))
      with (written a ++ String "," (path (b :: request)))%string.
    rewrite chars_append.
    change (chars (String "," (path (b :: request))))
      with (","%char :: chars (path (b :: request))).
    rewrite split_chars_piece by exact Hw. cbn [rev app].
    unfold chars at 1. rewrite string_of_list_ascii_of_string.
    rewrite IH; [reflexivity|discriminate|exact Hrest].
Qed.

Lemma letter_first (c : ascii) (l : list ascii) :
  is_letter c = true ->
  parseInt (string_of_list_ascii (c :: l)) = None.
Proof.
  intros Hc. unfold parseInt, chars. rewrite list_ascii_of_string_of_list_ascii.
  destruct c as [[] [] [] [] [] [] [] []]; try discriminate; reflexivity.
Qed.

Lemma parseInt_word (w : string) : is_word w = true -> parseInt w = None.
Proof.
  unfold is_word. intros H.
  rewrite <- (string_of_list_ascii_of_string w). fold (chars w).
  destruct (chars w) as [|c l]; [reflexivity|].
  apply andb_true_iff in H. destruct H as [Hc _]. now apply letter_first.
Qed.

Lemma parseInt_negative (k : Z) : k < 0 -> parseInt (of_Z k) = Some k.
Proof.
  intros Hk. destruct (of_Z_negative k Hk) as [d [-> [Hnil Hd]]].
  unfold parseInt, chars. cbn [list_ascii_of_string skip_spaces is_space].
  change (is_space "-") with false. cbv iota.
  pose proof (string_of_uint_digits d) as Hdigits.
  pose proof (string_of_uint_nonempty d Hnil) as Hne.
  unfold chars in Hdigits, Hne.
  rewrite span_digits_all by exact Hdigits. cbn [fst].
  destruct (list_ascii_of_string (NilEmpty.string_of_uint d)) as [|a l] eqn:E;
    [congruence|].
  rewrite <- E, string_of_list_ascii_of_string.
  unfold parseInt_digits. rewrite NilEmpty.usu. f_equal. exact Hd.
Qed.

Lemma parseInt_written (a : asked) :
  legible a = true -> parseInt (written a) = askedId a.
Proof.
  destruct a as [i|w]; cbn [legible written askedId]; intros H.
  - destruct (Z_lt_le_dec i 0) as [Hi|Hi];
      [now apply parseInt_negative|now apply parseInt_of_Z].
  - now apply parseInt_word.
Qed.

(** The ids that the code reads from the path are the ids that were
    asked for, in the order of the request. *)
Lemma requestedIds_path (request : list asked) :
  request <> [] ->
  Forall (fun a => legible a = true) request ->
  requestedIds (path request) = map askedId request.
Proof.
  intros Hne H. unfold requestedIds. rewrite split_path by assumption.
  rewrite map_map. apply map_ext_in. intros a Ha.
  apply parseInt_written. now apply (proj1 (Forall_forall _ _) H).
Qed.

(** C9. A request is a list of entries, each an id written in decimal
    or a word that is no number, and reaches the code as the path
    parameter: the entries separated by commas.  On a stored run ledger
    the by-ids query answers such a request with a list, never with an
    error: one entry for each entry of the request, in the order of the
    request.  An id from 1 to the number of stored rows is answered with
    the row of this number, every other id with the not-available marker
    of this id, and a word with the marker of no number; an entry that
    is not available changes nothing for the others.  (Ids are taken up
    to 2^53 in size, so that the number the code holds is the id
    itself.) *)
Theorem by_ids_answers_every_id (st : State) (data : text) (request : list asked) :
  Fs.readFileSync (privateDir st) coreFileName = Some data ->
  request <> [] ->
  Forall (fun a => legible a = true) request ->
  exists results,
    getSimulationsByIds st (path request) = Json results /\
    length results = length request /\
    forall k a, nth_error request k = Some a ->
      match a with
      | AskedId i =>
          if (1 <=? i) && (i <=? Z.of_nat (length (tl data)))
          then exists row, nth_error (tl data) (Z.to_nat (i - 1)) = Some row /\
                           nth_error results k = Some (Found row)
          else nth_error results k = Some (NotAvailable (Some i))
      | AskedWord _ => nth_error results k = Some (NotAvailable None)
      end.
Proof.
  intros Hdata Hne Hlegible.
  destruct (getSimulationsByIds_entries st data (path request) Hdata)
    as [results [Hanswer [Hlen Hentries]]].
  cbn zeta in Hlen, Hentries.
  rewrite (requestedIds_path request Hne Hlegible) in Hlen, Hentries.
  exists results. split; [exact Hanswer|]. split; [now rewrite Hlen, length_map|].
  intros k a Hk.
  specialize (Hentries k (askedId a)). rewrite nth_error_map, Hk in Hentries.
  specialize (Hentries eq_refl). destruct a as [i|w]; exact Hentries.
Qed.

(** C9 on a log of two rows and the request of the ids 2, 0 and 7, the
    word [x], and the ids -3 and 1. *)
Lemma by_ids_answers_every_id_witness :
  let e1 := mkRunSummary 1 1300 50000 (Some 61000) (Some 55000) (Some 50100)
                         (Some 41000) 1000 1000 250 "source_simulation_1.csv" in
  let e2 := mkRunSummary 2 2300 50500 (Some 62000) (Some 56000) (Some 50600)
                         (Some 42000) 1000 2000 240 "source_simulation_2.csv" in
  let data := [HeaderLine "simulation_id,timestamp"; LogEntry e1; LogEntry e2] in
  let st := mkState None false 0 0 0 "OK" None [(coreFileName, data)] [] in
  let request := [AskedId 2; AskedId 0; AskedId 7; AskedWord "x"; AskedId (-3);
                  AskedId 1] in
  path request = "2,0,7,x,-3,1"%string /\
  exists results,
    getSimulationsByIds st (path request) = Json results /\
    length results = length request /\
    forall k a, nth_error request k = Some a ->
      match a with
      | AskedId i =>
          if (1 <=? i) && (i <=? Z.of_nat (length (tl data)))
          then exists row, nth_error (tl data) (Z.to_nat (i - 1)) = Some row /\
                           nth_error results k = Some (Found row)
          else nth_error results k = Some (NotAvailable (Some i))
      | AskedWord _ => nth_error results k = Some (NotAvailable None)
      end.
Proof.
  intros e1 e2 data st request. split; [reflexivity|].
  apply (by_ids_answers_every_id st data request).
  - reflexivity.
  - discriminate.
  - repeat constructor.
Defined.

Example getSimulationsByIds_path :
  let e1 := mkRunSummary 1 1300 50000 (Some 61000) (Some 55000) (Some 50100)
                         (Some 41000) 1000 1000 250 "source_simulation_1.csv" in
  let e2 := mkRunSummary 2 2300 50500 (Some 62000) (Some 56000) (Some 50600)
                         (Some 42000) 1000 2000 240 "source_simulation_2.csv" in
  let data := [HeaderLine "simulation_id,timestamp"; LogEntry e1; LogEntry e2] in
  let st := mkState None false 0 0 0 "OK" None [(coreFileName, data)] [] in
  getSimulationsByIds st
    (path [AskedId 2; AskedId 0; AskedId 7; AskedWord "x"; AskedId (-3); AskedId 1])
  = Json [Found (LogEntry e2); NotAvailable (Some 0); NotAvailable (Some 7);
          NotAvailable None; NotAvailable (Some (-3)); Found (LogEntry e1)].
Proof. vm_compute. reflexivity. Qed.

(** X15. On every state that the engine reaches, the by-ids query
    answers a request (ids written in decimal and words that are no
    numbers, separated by commas in the path) entry by entry, in the
    order of the request: an id between 1 and the run counter with the
    record of the run that has this id, every other id with the entry
    [not available] of this id, and a word with the entry [not
    available] of no number.  Before the first run that returns the
    answer is the error 500.  (Ids are taken up to 2^53 in size.) *)
Theorem by_ids_returns_the_run_asked_for (st : State) (request : list asked) :
  reachable st ->
  request <> [] ->
  Forall (fun a => legible a = true) request ->
  if simulationCounter st =? 0
  then getSimulationsByIds st (path request)
       = Status500 (Error "Core log file does not exist.")
  else
    exists results,
      getSimulationsByIds st (path request) = Json results /\
      Forall2
        (fun a result =>
           match a with
           | AskedId i =>
               if (1 <=? i) && (i <=? simulationCounter st)
               then exists e, result = Found (LogEntry e) /\
                              In e (runLog st) /\ simulation_id e = i
               else result = NotAvailable (Some i)
           | AskedWord _ => result = NotAvailable None
           end)
        request results.
Proof.
  intros Hreach Hne Hlegible.
  destruct (reachable_store st Hreach) as [Hcons [Hshape _]].
  destruct (consistent_counter st Hcons) as [Hcount Hnth].
  pose proof (core_file_counter st Hcons Hshape) as Hcore.
  unfold getSimulationsByIds, CSVHandler.readCoreSimulations, Fs.existsSync.
  rewrite Hcore. destruct (simulationCounter st =? 0) eqn:E; [reflexivity|].
  cbn [negb logHeader app tl]. eexists. split; [reflexivity|].
  rewrite (requestedIds_path request Hne Hlegible), map_map.
  apply Forall2_map. intros [i|w]; [|reflexivity]. cbn [askedId].
  assert (Hl : Z.of_nat (length (map LogEntry (runLog st))) = simulationCounter st)
    by (rewrite length_map; lia).
  destruct ((1 <=? i) && (i <=? simulationCounter st)) eqn:Hin.
  - apply andb_true_iff in Hin. destruct Hin as [H1 H2].
    apply Z.leb_le in H1. apply Z.leb_le in H2.
    destruct (selectById_in_range (map LogEntry (runLog st)) i ltac:(lia))
      as [record [Hrec Hsel]].
    rewrite nth_error_map in Hrec.
    destruct (nth_error (runLog st) (Z.to_nat (i - 1))) as [e|] eqn:He; [|discriminate].
    injection Hrec as <-. exists e. split; [exact Hsel|].
    split; [now apply (nth_error_In _ _ He)|]. rewrite (Hnth _ _ He). lia.
  - apply selectById_out_of_range. apply andb_false_iff in Hin.
    destruct Hin as [H|H]; apply Z.leb_gt in H; lia.
Qed.

(** X15 on the state after three runs and a restart, and the request of
    the ids 3 and 4, the word [last] and the ids 1 and 0. *)
Lemma by_ids_returns_the_run_asked_for_witness :
  simulationCounter Scenario.afterThirdRun = 3 /\
  path [AskedId 3; AskedId 4; AskedWord "last"; AskedId 1; AskedId 0]
  = "3,4,last,1,0"%string /\
  if simulationCounter Scenario.afterThirdRun =? 0
  then getSimulationsByIds Scenario.afterThirdRun
         (path [AskedId 3; AskedId 4; AskedWord "last"; AskedId 1; AskedId 0])
       = Status500 (Error "Core log file does not exist.")
  else
    exists results,
      getSimulationsByIds Scenario.afterThirdRun
        (path [AskedId 3; AskedId 4; AskedWord "last"; AskedId 1; AskedId 0])
      = Json results /\
      Forall2
        (fun a result =>
           match a with
           | AskedId i =>
               if (1 <=? i) && (i <=? simulationCounter Scenario.afterThirdRun)
               then exists e, result = Found (LogEntry e) /\
                              In e (runLog Scenario.afterThirdRun) /\ simulation_id e = i
               else result = NotAvailable (Some i)
           | AskedWord _ => result = NotAvailable None
           end)
        [AskedId 3; AskedId 4; AskedWord "last"; AskedId 1; AskedId 0] results.
Proof.
  split; [exact (proj2 afterThirdRun_log)|]. split; [reflexivity|].
  apply (by_ids_returns_the_run_asked_for Scenario.afterThirdRun
           [AskedId 3; AskedId 4; AskedWord "last"; AskedId 1; AskedId 0]).
  - exact reachable_afterThirdRun.
  - discriminate.
  - repeat constructor.
Defined.

End PathFacts.

(** ** The order of the doubles *)

Section DoubleFacts.
Import SpecFloat Stats64.

















(** *** The doubles as real numbers *)









(** *** Rounding *)

























(** *** One price *)









(** *** Signs *)









(** *** The target against the average *)













End DoubleFacts.
